(** * n8n-nodes-alloy: webhook signatures, retry and pagination

    A shallow embedding of the parts of the Alloy node that carry
    behaviour: [utils/signatureUtils.ts], the paginated GET and
    [withRetry] of the transport layer, the [returnAll] loop of the
    evaluation [list] operation, and the trigger node's webhook handler
    with [validateAlloyWebhook]; further the response interceptor of the
    client, [uploadDocument], the validators of
    [utils/validationUtils.ts] and the event helpers of the webhook
    handler.

    Conventions of the embedding:
    - a JavaScript string is a [string] holding its UTF-8 bytes, so
      [Buffer.from(s)] is the byte list of [s]; decoding a [Buffer]
      gives its bytes back where they are well-formed UTF-8 and U+FFFD
      for every ill-formed part;
    - a JavaScript number is an integer [Z] (status codes, page numbers,
      epoch seconds); [NaN] is [None] where [parseInt] can produce it;
      [validatePagination], which must cope with any number, takes a
      rational, an infinity or [NaN]; printed, an integer beyond 2^53
      is the double nearest to it;
    - an absent argument ([undefined] or [null]) is [None];
    - a [throw] is the [Throw] completion; a promise rejection is the
      same completion of the awaited computation. *)

From Stdlib Require Import ZArith Bool Lia Ascii DecimalString.
From Stdlib Require QArith.Qround.
From stdpp Require Import base option list strings gmap.

Local Open Scope Z_scope.
Local Set Warnings "-register-all".

(** ** JavaScript values *)

Module Js.

Inductive value : Type :=
| VUndefined
| VNull
| VBool (b : bool)
| VNum (n : Z)
| VStr (s : string)
| VArr (items : list value)
| VObj (fields : list (string * value)).

(** How a computation ends: with a value, with a thrown value, or (for
    the loops of the model that the source does not bound) with the
    model's fuel exhausted. *)
Inductive completion (A : Type) : Type :=
| Normal (a : A)
| Throw (e : value)
| OutOfFuel.
Arguments Normal {A} a.
Arguments Throw {A} e.
Arguments OutOfFuel {A}.

(** ToBoolean *)
Definition truthy (v : value) : bool :=
  match v with
  | VUndefined | VNull => false
  | VBool b => b
  | VNum n => negb (n =? 0)
  | VStr s => negb (String.eqb s "")
  | VArr _ | VObj _ => true
  end.

(** [a || b] *)
Definition or_else (a b : value) : value := if truthy a then a else b.

Definition is_nullish (v : value) : bool :=
  match v with VUndefined | VNull => true | _ => false end.

Fixpoint lookup_field (k : string) (fields : list (string * value)) : value :=
  match fields with
  | [] => VUndefined
  | (k', v) :: rest => if String.eqb k k' then v else lookup_field k rest
  end.

(** [k in obj], on the object's own fields *)
Definition has_key (k : string) (fields : list (string * value)) : bool :=
  existsb (fun kv => String.eqb k kv.1) fields.

(** [obj[k] = v] on an object's own fields, keeping insertion order. *)
Fixpoint set_field (k : string) (v : value) (fields : list (string * value))
  : list (string * value) :=
  match fields with
  | [] => [(k, v)]
  | (k', v') :: rest =>
      if String.eqb k k' then (k, v) :: rest else (k', v') :: set_field k v rest
  end.

(** [{...a, ...b}] *)
Definition spread_fields (a b : list (string * value)) : list (string * value) :=
  fold_left (fun acc kv => set_field kv.1 kv.2 acc) b a.

Definition TypeError (msg : string) : value :=
  VObj [("name", VStr "TypeError"); ("message", VStr msg)].

Definition RangeError (msg : string) : value :=
  VObj [("name", VStr "RangeError"); ("message", VStr msg)].

(** [s.length], the number of UTF-16 code units of a string held as
    UTF-8: one for a character of up to three bytes, two for one of
    four; continuation bytes count nothing. *)
Definition code_units (c : ascii) : nat :=
  let n := Ascii.nat_of_ascii c in
  if (n <? 128)%nat then 1%nat
  else if (n <? 192)%nat then 0%nat
  else if (n <? 240)%nat then 1%nat
  else 2%nat.

Fixpoint utf16_length (s : string) : nat :=
  match s with
  | EmptyString => 0%nat
  | String c r => (code_units c + utf16_length r)%nat
  end.

(** [v.k]: reading a property of [undefined] or [null] throws. *)
Definition get (v : value) (k : string) : completion value :=
  match v with
  | VUndefined =>
      Throw (TypeError ("Cannot read properties of undefined (reading '" +:+ k +:+ "')"))
  | VNull =>
      Throw (TypeError ("Cannot read properties of null (reading '" +:+ k +:+ "')"))
  | VObj fields => Normal (lookup_field k fields)
  | VArr items =>
      Normal (if String.eqb k "length" then VNum (Z.of_nat (length items)) else VUndefined)
  | VStr s =>
      Normal (if String.eqb k "length" then VNum (Z.of_nat (utf16_length s)) else VUndefined)
  | VBool _ | VNum _ => Normal VUndefined
  end.

(** [v === n] for a number literal [n] *)
Definition strict_eq_num (v : value) (n : Z) : bool :=
  match v with VNum m => m =? n | _ => false end.

(** The characters of a string held as UTF-8: each byte that starts a
    sequence, with the continuation bytes that follow it. *)
Definition is_continuation (c : ascii) : bool :=
  let n := Ascii.nat_of_ascii c in ((128 <=? n) && (n <? 192))%nat.

Fixpoint characters (s : string) : list string :=
  match s with
  | EmptyString => []
  | String c r =>
      match r with
      | String c' _ =>
          if is_continuation c' then
            match characters r with
            | following :: others => String c following :: others
            | [] => [String c EmptyString]
            end
          else String c EmptyString :: characters r
      | EmptyString => [String c EmptyString]
      end
  end.

(** [...v] inside a call: arrays and strings are iterable, a string by
    its characters. *)
Definition spread_iterable (v : value) : completion (list value) :=
  match v with
  | VArr items => Normal items
  | VStr s => Normal (map VStr (characters s))
  | _ => Throw (TypeError "Spread syntax requires ...iterable[Symbol.iterator] to be a function")
  end.

(** *** [String.prototype.toLowerCase], on the ASCII letters *)
Definition lower_ascii (c : ascii) : ascii :=
  let n := Ascii.nat_of_ascii c in
  if ((65 <=? n) && (n <=? 90))%nat then Ascii.ascii_of_nat (n + 32) else c.

Fixpoint toLowerCase (s : string) : string :=
  match s with
  | EmptyString => EmptyString
  | String c r => String (lower_ascii c) (toLowerCase r)
  end.

(** *** [parseInt(s, 10)]: leading white space, an optional sign, then
    the longest run of decimal digits; [None] is [NaN]. White space is
    the set of [StrWhiteSpaceChar], the characters beyond ASCII in their
    UTF-8 encoding. The integer is exact where JavaScript rounds to a
    double above 2^53, which no comparison with a clock value notices. *)
Definition is_white_space (c : ascii) : bool :=
  let n := Ascii.nat_of_ascii c in
  ((9 <=? n) && (n <=? 13) || (n =? 32))%nat.

(** U+00A0 *)
Definition is_white_space2 (c1 c2 : ascii) : bool :=
  ((Ascii.nat_of_ascii c1 =? 194) && (Ascii.nat_of_ascii c2 =? 160))%nat.

(** U+1680, U+2000..U+200A, U+2028, U+2029, U+202F, U+205F, U+3000, U+FEFF *)
Definition is_white_space3 (c1 c2 c3 : ascii) : bool :=
  let a := Ascii.nat_of_ascii c1 in
  let b := Ascii.nat_of_ascii c2 in
  let c := Ascii.nat_of_ascii c3 in
  ((a =? 225) && (b =? 154) && (c =? 128)
   || (a =? 226) && (b =? 128)
      && ((128 <=? c) && (c <=? 138) || (c =? 168) || (c =? 169) || (c =? 175))
   || (a =? 226) && (b =? 129) && (c =? 159)
   || (a =? 227) && (b =? 128) && (c =? 128)
   || (a =? 239) && (b =? 187) && (c =? 191))%nat.

Fixpoint skip_white_space (s : string) : string :=
  match s with
  | EmptyString => EmptyString
  | String c1 r1 =>
      if is_white_space c1 then skip_white_space r1
      else
        match r1 with
        | String c2 r2 =>
            if is_white_space2 c1 c2 then skip_white_space r2
            else
              match r2 with
              | String c3 r3 =>
                  if is_white_space3 c1 c2 c3 then skip_white_space r3 else s
              | EmptyString => s
              end
        | EmptyString => s
        end
  end.

Definition digit_value (c : ascii) : option Z :=
  let n := Ascii.nat_of_ascii c in
  if ((48 <=? n) && (n <=? 57))%nat then Some (Z.of_nat n - 48) else None.

Fixpoint parse_digits (s : string) (acc : option Z) : option Z :=
  match s with
  | String c r =>
      match digit_value c with
      | Some d => parse_digits r (Some (10 * default 0 acc + d))
      | None => acc
      end
  | EmptyString => acc
  end.

Definition parseInt (s : string) : option Z :=
  match skip_white_space s with
  | String "-" r => Z.opp <$> parse_digits r None
  | String "+" r => parse_digits r None
  | r => parse_digits r None
  end.

(** *** Number::toString, on integers

    Up to 2^53 every integer is a number and prints with all its digits.
    Beyond, [VNum n] stands for the double nearest to [n] (what reading
    the literal gives): it prints with the fewest digits that still read
    back as that double, filled up with zeros while the number has at
    most 21 digits and in exponent form from 10^21 on; what is too large
    for a double is [Infinity]. *)
Definition decimal (n : Z) : string := NilZero.string_of_int (Z.to_int n).

(** Round to nearest, ties to even, at 53 significant bits. *)
Definition nearest_double (x : Z) : Z :=
  let bits := Z.log2 x + 1 in
  if bits <=? 53 then x
  else
    let ulp := 2 ^ (bits - 53) in
    let q := x / ulp in
    let r := x mod ulp in
    let q' := if 2 * r <? ulp then q
              else if ulp <? 2 * r then q + 1
              else if Z.even q then q else q + 1 in
    q' * ulp.

(** The doubles end below 2^1024; what rounds to 2^1024 is infinite. *)
Definition is_finite (n : Z) : bool := Z.abs n <? 2 ^ 1024 - 2 ^ 970.

(** Whether the real [c] reads back as the double [x], [2^53 <= x]:
    it lies between the midpoints to the neighbouring doubles, the
    midpoints themselves counting when the significand of [x] is even.
    The double below a power of two is half as far away. *)
Definition reads_back_as (x c : Z) : bool :=
  let ulp := 2 ^ (Z.log2 x + 1 - 53) in
  let significand := x / ulp in
  let below := if significand =? 2 ^ 52 then ulp / 2 else ulp in
  if Z.even significand
  then (2 * x - below <=? 2 * c) && (2 * c <=? 2 * x + ulp)
  else (2 * x - below <? 2 * c) && (2 * c <? 2 * x + ulp).

(** The multiple of a power of ten with the fewest significant digits
    that reads back as [x], the one nearest to [x] of these, the one
    with the even last digit on a tie; [zeros] is the power of ten
    tried, from the largest down. *)
Fixpoint shortest_digits (zeros : nat) (x : Z) : Z :=
  match zeros with
  | O => x
  | S zeros' =>
      let p := 10 ^ Z.of_nat zeros in
      let lo := x / p * p in
      let hi := lo + p in
      match reads_back_as x lo, reads_back_as x hi with
      | true, true =>
          if x - lo <? hi - x then lo
          else if hi - x <? x - lo then hi
          else if Z.even (x / p) then lo else hi
      | true, false => lo
      | false, true => hi
      | false, false => shortest_digits zeros' x
      end
  end.

Fixpoint strip_trailing_zeros (fuel : nat) (n : Z) : Z :=
  match fuel with
  | O => n
  | S fuel' => if (n mod 10 =? 0) && negb (n =? 0) then strip_trailing_zeros fuel' (n / 10) else n
  end.

(** [d.ddd] followed by [e+] and the exponent. *)
Definition exponent_form (c : Z) : string :=
  let digits := decimal c in
  let significant := decimal (strip_trailing_zeros (String.length digits) c) in
  match significant with
  | String d EmptyString => String d EmptyString
  | String d rest => String d ("." +:+ rest)
  | EmptyString => EmptyString
  end +:+ "e+" +:+ decimal (Z.of_nat (String.length digits) - 1).

Definition number_to_string (n : Z) : string :=
  if Z.abs n <? 2 ^ 53 then decimal n
  else if negb (is_finite n) then (if n <? 0 then "-Infinity" else "Infinity")
  else
    let x := nearest_double (Z.abs n) in
    let c := shortest_digits (String.length (decimal x) - 1) x in
    (if n <? 0 then "-" else "")
    +:+ (if c <? 10 ^ 21 then decimal c else exponent_form c).

(** *** [JSON.stringify] *)

Definition hex_nibble (n : nat) : ascii :=
  Ascii.ascii_of_nat (if (n <? 10)%nat then 48 + n else 87 + n).

Definition dquote : ascii := Ascii.ascii_of_nat 34.
Definition backslash : ascii := Ascii.ascii_of_nat 92.
Definition escaped (c : string) : string := String backslash c.

Definition json_escape_char (c : ascii) : string :=
  let n := Ascii.nat_of_ascii c in
  if (n =? 34)%nat then escaped (String dquote EmptyString)
  else if (n =? 92)%nat then escaped (String backslash EmptyString)
  else if (n =? 8)%nat then escaped "b"
  else if (n =? 12)%nat then escaped "f"
  else if (n =? 10)%nat then escaped "n"
  else if (n =? 13)%nat then escaped "r"
  else if (n =? 9)%nat then escaped "t"
  else if (n <? 32)%nat then
    escaped ("u00" +:+ String (hex_nibble (n / 16)) (String (hex_nibble (n mod 16)) EmptyString))
  else String c EmptyString.

Fixpoint json_escape (s : string) : string :=
  match s with
  | EmptyString => EmptyString
  | String c r => json_escape_char c +:+ json_escape r
  end.

Definition json_quote (s : string) : string :=
  String dquote (json_escape s) +:+ String dquote EmptyString.

Fixpoint join_with (sep : string) (parts : list string) : string :=
  match parts with
  | [] => ""
  | [p] => p
  | p :: rest => p +:+ sep +:+ join_with sep rest
  end.

(** [None] is the [undefined] that [JSON.stringify(undefined)] returns;
    an [undefined] field is left out and an [undefined] item prints as
    [null]. *)
Fixpoint stringify (v : value) : option string :=
  match v with
  | VUndefined => None
  | VNull => Some "null"
  | VBool b => Some (if b then "true" else "false")
  | VNum n => Some (if is_finite n then number_to_string n else "null")
  | VStr s => Some (json_quote s)
  | VArr items =>
      let fix go (l : list value) : list string :=
        match l with
        | [] => []
        | x :: r => default "null" (stringify x) :: go r
        end in
      Some ("[" +:+ join_with "," (go items) +:+ "]")
  | VObj fields =>
      let fix go (l : list (string * value)) : list string :=
        match l with
        | [] => []
        | (k, x) :: r =>
            match stringify x with
            | Some sx => (json_quote k +:+ ":" +:+ sx) :: go r
            | None => go r
            end
        end in
      Some ("{" +:+ join_with "," (go fields) +:+ "}")
  end.

End Js.

Export Js.

(** ** [crypto.createHmac('sha256', key).update(msg).digest('hex')]

    HMAC (RFC 2104) over SHA-256 (FIPS 180-4) on 32-bit words kept in
    [Z] with the wrap-around written out; the digest is printed as 64
    lowercase hexadecimal digits. *)

Module SHA256.

Definition w32 (x : Z) : Z := x mod 4294967296.
Definition add32 (x y : Z) : Z := w32 (x + y).
Definition rotr (n x : Z) : Z := Z.lor (Z.shiftr x n) (w32 (Z.shiftl x (32 - n))).
Definition not32 (x : Z) : Z := Z.lxor x 4294967295.

Definition Ch (x y z : Z) : Z := Z.lxor (Z.land x y) (Z.land (not32 x) z).
Definition Maj (x y z : Z) : Z :=
  Z.lxor (Z.lxor (Z.land x y) (Z.land x z)) (Z.land y z).
Definition Sigma0 (x : Z) : Z := Z.lxor (Z.lxor (rotr 2 x) (rotr 13 x)) (rotr 22 x).
Definition Sigma1 (x : Z) : Z := Z.lxor (Z.lxor (rotr 6 x) (rotr 11 x)) (rotr 25 x).
Definition sigma0 (x : Z) : Z := Z.lxor (Z.lxor (rotr 7 x) (rotr 18 x)) (Z.shiftr x 3).
Definition sigma1 (x : Z) : Z := Z.lxor (Z.lxor (rotr 17 x) (rotr 19 x)) (Z.shiftr x 10).

(** The round constants of FIPS 180-4, section 4.2.2, in decimal. *)
Definition K : list Z :=
  [1116352408; 1899447441; 3049323471; 3921009573; 961987163; 1508970993;
   2453635748; 2870763221; 3624381080; 310598401; 607225278; 1426881987;
   1925078388; 2162078206; 2614888103; 3248222580; 3835390401; 4022224774;
   264347078; 604807628; 770255983; 1249150122; 1555081692; 1996064986;
   2554220882; 2821834349; 2952996808; 3210313671; 3336571891; 3584528711;
   113926993; 338241895; 666307205; 773529912; 1294757372; 1396182291;
   1695183700; 1986661051; 2177026350; 2456956037; 2730485921; 2820302411;
   3259730800; 3345764771; 3516065817; 3600352804; 4094571909; 275423344;
   430227734; 506948616; 659060556; 883997877; 958139571; 1322822218;
   1537002063; 1747873779; 1955562222; 2024104815; 2227730452; 2361852424;
   2428436474; 2756734187; 3204031479; 3329325298].

Record state : Type :=
  mkState { ha : Z; hb : Z; hc : Z; hd : Z; he : Z; hf : Z; hg : Z; hh : Z }.

Definition H0 : state :=
  mkState 1779033703 3144134277 1013904242 2773480762
          1359893119 2600822924 528734635 1541459225.

(** The message schedule, latest word first. *)
Fixpoint extend (n : nat) (rev_w : list Z) : list Z :=
  match n with
  | O => rev_w
  | S n' =>
      let w2 := List.nth 1 rev_w 0 in
      let w7 := List.nth 6 rev_w 0 in
      let w15 := List.nth 14 rev_w 0 in
      let w16 := List.nth 15 rev_w 0 in
      extend n' (add32 (add32 (sigma1 w2) w7) (add32 (sigma0 w15) w16) :: rev_w)
  end.

Definition schedule (block : list Z) : list Z := rev (extend 48 (rev block)).

Definition round (s : state) (kw : Z * Z) : state :=
  let t1 :=
    add32 (add32 (add32 (hh s) (Sigma1 (he s))) (add32 (Ch (he s) (hf s) (hg s)) kw.1)) kw.2 in
  let t2 := add32 (Sigma0 (ha s)) (Maj (ha s) (hb s) (hc s)) in
  mkState (add32 t1 t2) (ha s) (hb s) (hc s) (add32 (hd s) t1) (he s) (hf s) (hg s).

Definition compress (s : state) (block : list Z) : state :=
  let r := fold_left round (List.combine K (schedule block)) s in
  mkState (add32 (ha s) (ha r)) (add32 (hb s) (hb r)) (add32 (hc s) (hc r))
          (add32 (hd s) (hd r)) (add32 (he s) (he r)) (add32 (hf s) (hf r))
          (add32 (hg s) (hg r)) (add32 (hh s) (hh r)).

Definition be_bytes (n : nat) (x : Z) : list Z :=
  map (fun i => Z.shiftr x (8 * Z.of_nat i) mod 256) (rev (seq 0 n)).

Definition pad (msg : list Z) : list Z :=
  let len := Z.of_nat (length msg) in
  msg ++ [128] ++ replicate (Z.to_nat ((55 - len) mod 64)) 0 ++ be_bytes 8 (8 * len).

Fixpoint words (fuel : nat) (bytes : list Z) : list Z :=
  match fuel, bytes with
  | S f, b0 :: b1 :: b2 :: b3 :: rest =>
      (b0 * 16777216 + b1 * 65536 + b2 * 256 + b3) :: words f rest
  | _, _ => []
  end.

Fixpoint blocks (fuel : nat) (ws : list Z) : list (list Z) :=
  match fuel, ws with
  | S f, _ :: _ => take 16 ws :: blocks f (drop 16 ws)
  | _, _ => []
  end.

Definition digest_state (msg : list Z) : state :=
  let p := pad msg in
  let ws := words (length p) p in
  fold_left compress (blocks (length ws) ws) H0.

Definition state_words (s : state) : list Z :=
  [ha s; hb s; hc s; hd s; he s; hf s; hg s; hh s].

Definition digest (msg : list Z) : list Z :=
  List.flat_map (be_bytes 4) (state_words (digest_state msg)).

Definition hmac (key msg : list Z) : state :=
  let k0 := if 64 <? Z.of_nat (length key) then digest key else key in
  let k := k0 ++ replicate (64 - length k0) 0 in
  let inner := digest (map (Z.lxor 54) k ++ msg) in
  digest_state (map (Z.lxor 92) k ++ inner).

Definition hex_digit (n : Z) : ascii :=
  Ascii.ascii_of_N (Z.to_N (if n <? 10 then 48 + n else 87 + n)).

Definition hex_word (w : Z) (tail : string) : string :=
  String (hex_digit (Z.shiftr w 28 mod 16)) (String (hex_digit (Z.shiftr w 24 mod 16))
  (String (hex_digit (Z.shiftr w 20 mod 16)) (String (hex_digit (Z.shiftr w 16 mod 16))
  (String (hex_digit (Z.shiftr w 12 mod 16)) (String (hex_digit (Z.shiftr w 8 mod 16))
  (String (hex_digit (Z.shiftr w 4 mod 16)) (String (hex_digit (w mod 16)) tail))))))).

Definition hex_state (s : state) : string :=
  hex_word (ha s) (hex_word (hb s) (hex_word (hc s) (hex_word (hd s)
  (hex_word (he s) (hex_word (hf s) (hex_word (hg s) (hex_word (hh s) EmptyString))))))).

Definition bytes_of_string (s : string) : list Z :=
  map (fun c => Z.of_N (Ascii.N_of_ascii c)) (String.list_ascii_of_string s).

Definition hmac_hex (key msg : string) : string :=
  hex_state (hmac (bytes_of_string key) (bytes_of_string msg)).

End SHA256.

(** ** [nodes/Alloy/utils/signatureUtils.ts] *)

Module SignatureUtils.

Definition ALLOY_SIGNATURE_HEADER : string := "x-alloy-signature".
Definition ALLOY_TIMESTAMP_HEADER : string := "x-alloy-timestamp".

(** [payload: string | Buffer] *)
Inductive Payload : Type :=
| PString (s : string)
| PBuffer (bytes : list Byte.byte).

(** [Buffer.from(s)] *)
Definition Buffer_from (s : string) : list Byte.byte := String.list_byte_of_string s.

(** [b.toString('utf8')] decodes the bytes to text, and the HMAC takes
    the UTF-8 bytes of that text. Well-formed sequences come out as they
    went in; every ill-formed part (a byte that can start nothing, or a
    sequence cut short, up to the byte that breaks it) comes out as one
    U+FFFD, the three bytes EF BF BD. *)
Definition U_FFFD : string :=
  String (Ascii.ascii_of_nat 239)
    (String (Ascii.ascii_of_nat 191) (String (Ascii.ascii_of_nat 189) EmptyString)).

Definition byte_in (lo hi : N) (b : Byte.byte) : bool :=
  ((lo <=? Byte.to_N b) && (Byte.to_N b <=? hi))%N.

Definition byte_is (n : N) (b : Byte.byte) : bool := (Byte.to_N b =? n)%N.

(** A sequence under way: the bytes seen, how many are still to come,
    and the range the next one has to be in. *)
Record Utf8Pending : Type :=
  { seen : string; needed : nat; lower : N; upper : N }.

Definition one_byte (b : Byte.byte) : string := String (Ascii.ascii_of_byte b) EmptyString.

(** A byte where a sequence starts: what it puts out, and the sequence
    it opens. The second byte is held to a narrower range after E0, ED,
    F0 and F4, which shuts out overlong forms, surrogates and what lies
    beyond U+10FFFF. *)
Definition utf8_lead (b : Byte.byte) : string * option Utf8Pending :=
  if byte_in 0 127 b then (one_byte b, None)
  else if byte_in 194 223 b then
    (EmptyString, Some {| seen := one_byte b; needed := 1; lower := 128; upper := 191 |})
  else if byte_in 224 239 b then
    (EmptyString,
     Some {| seen := one_byte b; needed := 2;
             lower := if byte_is 224 b then 160 else 128;
             upper := if byte_is 237 b then 159 else 191 |})
  else if byte_in 240 244 b then
    (EmptyString,
     Some {| seen := one_byte b; needed := 3;
             lower := if byte_is 240 b then 144 else 128;
             upper := if byte_is 244 b then 143 else 191 |})
  else (U_FFFD, None).

Fixpoint utf8_decode (pending : option Utf8Pending) (bytes : list Byte.byte) : string :=
  match bytes with
  | [] => match pending with Some _ => U_FFFD | None => EmptyString end
  | b :: rest =>
      match pending with
      | None => (utf8_lead b).1 +:+ utf8_decode (utf8_lead b).2 rest
      | Some p =>
          if byte_in (lower p) (upper p) b then
            match needed p with
            | S (S more) =>
                utf8_decode
                  (Some {| seen := seen p +:+ one_byte b; needed := S more;
                           lower := 128; upper := 191 |})
                  rest
            | _ => (seen p +:+ one_byte b) +:+ utf8_decode None rest
            end
          else U_FFFD +:+ (utf8_lead b).1 +:+ utf8_decode (utf8_lead b).2 rest
      end
  end.

Definition Buffer_toString_utf8 (b : list Byte.byte) : string := utf8_decode None b.

(** ToBoolean of the arguments: a [Buffer] is an object, hence truthy
    whatever its length. *)
Definition payload_truthy (p : Payload) : bool :=
  match p with
  | PString s => negb (String.eqb s "")
  | PBuffer _ => true
  end.

Definition string_truthy (s : string) : bool := negb (String.eqb s "").

Fixpoint bytes_eqb (a b : list Byte.byte) : bool :=
  match a, b with
  | [], [] => true
  | x :: a', y :: b' => Byte.eqb x y && bytes_eqb a' b'
  | _, _ => false
  end.

(** [crypto.timingSafeEqual] throws when the lengths differ. *)
Definition timingSafeEqual (a b : list Byte.byte) : completion bool :=
  if Nat.eqb (length a) (length b) then Normal (bytes_eqb a b)
  else Throw (RangeError "Input buffers must have the same byte length").

(** [typeof payload === 'string' ? payload : payload.toString('utf8')] *)
Definition payload_string (p : Payload) : string :=
  match p with
  | PString s => s
  | PBuffer b => Buffer_toString_utf8 b
  end.

(** [timestamp ? `${timestamp}.${payloadString}` : payloadString] *)
Definition signature_payload (timestamp : option string) (payloadString : string) : string :=
  match timestamp with
  | Some ts => if string_truthy ts then ts +:+ "." +:+ payloadString else payloadString
  | None => payloadString
  end.

(** The replay check of lines 43-52: [true] when the function returns
    [false] there. [now_ms] is [Date.now()]; a [NaN] difference is not
    greater than 300. *)
Definition replay_rejected (timestamp : option string) (now_ms : Z) : bool :=
  match timestamp with
  | Some ts =>
      if string_truthy ts then
        let webhookTime := parseInt ts in
        let currentTime := now_ms / 1000 in
        let timeDiff := (fun w => Z.abs (currentTime - w)) <$> webhookTime in
        match timeDiff with
        | Some d => 300 <? d
        | None => false
        end
      else false
  | None => false
  end.

(** [verifyWebhookSignature], lines 31-75: the body of the [try] block. *)
Definition verifyWebhookSignature_try
    (payload : option Payload) (signature secret timestamp : option string)
    (now_ms : Z) : completion bool :=
  match payload, signature, secret with
  | Some p, Some sig, Some sec =>
      if negb (payload_truthy p) || negb (string_truthy sig) || negb (string_truthy sec)
      then Normal false
      else if replay_rejected timestamp now_ms then Normal false
      else
        let payloadString := payload_string p in
        let signaturePayload := signature_payload timestamp payloadString in
        let expectedSignature := SHA256.hmac_hex sec signaturePayload in
        let sigBuffer := Buffer_from sig in
        let expectedBuffer := Buffer_from expectedSignature in
        if negb (Nat.eqb (length sigBuffer) (length expectedBuffer)) then Normal false
        else timingSafeEqual sigBuffer expectedBuffer
  | _, _, _ => Normal false
  end.

(** [try { ... } catch { return false; }] *)
Definition verifyWebhookSignature
    (payload : option Payload) (signature secret timestamp : option string)
    (now_ms : Z) : bool :=
  match verifyWebhookSignature_try payload signature secret timestamp now_ms with
  | Normal b => b
  | Throw _ | OutOfFuel => false
  end.

(** Lines 85-97. *)
Definition generateWebhookSignature
    (payload : Payload) (secret : string) (timestamp : option string) : string :=
  let payloadString := payload_string payload in
  let signaturePayload := signature_payload timestamp payloadString in
  SHA256.hmac_hex secret signaturePayload.

(** [Record<string, string | string[] | undefined>]: a key bound to
    [undefined] reads like an absent key. *)
Inductive HeaderValue : Type :=
| HString (s : string)
| HArray (l : list string).

Definition header_truthy (v : option HeaderValue) : bool :=
  match v with
  | Some (HString s) => string_truthy s
  | Some (HArray _) => true
  | None => false
  end.

Definition or_null (s : option string) : option string :=
  match s with
  | Some x => if string_truthy x then Some x else None
  | None => None
  end.

(** The closure [getHeader] of [extractSignatureFromHeaders], lines
    108-114: [headers[name] || headers[name.toLowerCase()]], then the
    first entry of a list, then [|| null]. *)
Definition getHeader (headers : gmap string HeaderValue) (name : string) : option string :=
  let value :=
    if header_truthy (headers !! name) then headers !! name
    else headers !! toLowerCase name in
  match value with
  | Some (HArray l) => or_null (head l)
  | Some (HString s) => or_null (Some s)
  | None => None
  end.

Record Extracted : Type := { signature : option string; timestamp : option string }.

Definition extractSignatureFromHeaders (headers : gmap string HeaderValue) : Extracted :=
  {| signature := getHeader headers ALLOY_SIGNATURE_HEADER;
     timestamp := getHeader headers ALLOY_TIMESTAMP_HEADER |}.

End SignatureUtils.

(** ** Effects: the remote API, timers and the calls of an operation

    An awaited computation runs against the state [W] of the outside
    world and leaves the events it caused, oldest first. *)

Module IO.

Inductive event : Type :=
| EvGet (endpoint : string) (params : value)   (* [client.get(endpoint, { params })] *)
| EvSleep (ms : Z)                             (* [setTimeout(resolve, ms)] *)
| EvCall.                                      (* [fn()] *)

Record result (W A : Type) : Type :=
  mkResult { outcome : completion A; world : W; trace : list event }.
Arguments mkResult {W A} outcome world trace.
Arguments outcome {W A} r.
Arguments world {W A} r.
Arguments trace {W A} r.

Definition io (W A : Type) : Type := W -> result W A.

Section Monad.
Context {W : Type}.

Definition ret {A} (a : A) : io W A := fun w => mkResult (Normal a) w [].

Definition throw {A} (e : value) : io W A := fun w => mkResult (Throw e) w [].

Definition out_of_fuel {A} : io W A := fun w => mkResult OutOfFuel w [].

Definition after {A} (t : list event) (r : result W A) : result W A :=
  mkResult (outcome r) (world r) (t ++ trace r).

Definition bind {A B} (m : io W A) (k : A -> io W B) : io W B :=
  fun w =>
    let r := m w in
    match outcome r with
    | Normal a => after (trace r) (k a (world r))
    | Throw e => mkResult (Throw e) (world r) (trace r)
    | OutOfFuel => mkResult OutOfFuel (world r) (trace r)
    end.

(** [try { m } catch (error) { handler(error) }] *)
Definition try_catch {A} (m : io W A) (handler : value -> io W A) : io W A :=
  fun w =>
    let r := m w in
    match outcome r with
    | Throw e => after (trace r) (handler e (world r))
    | _ => r
    end.

Definition emit (ev : event) : io W unit := fun w => mkResult (Normal tt) w [ev].

(** An effect of the outside world, which answers and moves on. *)
Definition perform {A} (f : W -> completion A * W) : io W A :=
  fun w => mkResult (f w).1 (f w).2 [].

Definition of_completion {A} (c : completion A) : io W A := fun w => mkResult c w [].

End Monad.

Declare Scope io_scope.
Delimit Scope io_scope with io.
Notation "x <- m ;; k" := (bind m (fun x => k))
  (at level 100, m at next level, right associativity) : io_scope.
Notation "m ;; k" := (bind m (fun _ => k))
  (at level 100, right associativity) : io_scope.

End IO.

(** ** [nodes/Alloy/transport]: the paginated GET and [withRetry] *)

Module Transport.
Import IO.
Local Open Scope io_scope.

Record PaginationParams : Type :=
  { page : option Z; limit : option Z; sort : option string; order : option string }.

Record Pagination : Type :=
  { pg_page : value; pg_limit : value; pg_total : value; pg_hasMore : value }.

Record AlloyApiResponse : Type :=
  { success : bool; data : value; pagination : Pagination }.

Definition opt_value {A} (inj : A -> value) (o : option A) : value :=
  match o with Some a => inj a | None => VUndefined end.

(** The object literal [{ page: pagination.page || 1, limit:
    pagination.limit || 25, sort, order, ...additionalParams }]. *)
Definition request_params (pagination : PaginationParams)
    (additionalParams : option (list (string * value))) : list (string * value) :=
  spread_fields
    [("page", or_else (opt_value VNum (page pagination)) (VNum 1));
     ("limit", or_else (opt_value VNum (limit pagination)) (VNum 25));
     ("sort", opt_value VStr (sort pagination));
     ("order", opt_value VStr (order pagination))]
    (default [] additionalParams).

Section Client.
Context {W : Type}.

(** The axios instance with its interceptors: [server endpoint params]
    answers with the response body ([response.data]) or rejects. *)
Variable server : string -> value -> W -> completion value * W.

Definition client_get (endpoint : string) (params : value) : io W value :=
  emit (EvGet endpoint params) ;; perform (server endpoint params).

(** Lines 533-559. *)
Definition alloyApiGetPaginated (endpoint : string) (pagination : PaginationParams)
    (additionalParams : option (list (string * value))) : io W AlloyApiResponse :=
  let params := request_params pagination additionalParams in
  body <- client_get endpoint (VObj params) ;;
  d <- of_completion (get body "data") ;;
  p <- of_completion (get body "page") ;;
  l <- of_completion (get body "limit") ;;
  t <- of_completion (get body "total") ;;
  h <- of_completion (get body "has_more") ;;
  ret {| success := true;
         data := or_else d body;
         pagination :=
           {| pg_page := or_else p (lookup_field "page" params);
              pg_limit := or_else l (lookup_field "limit" params);
              pg_total := or_else t (VNum 0);
              pg_hasMore := or_else h (VBool false) |} |}.

End Client.

Section WithRetry.
Context {W T : Type}.

(** [fn: () => Promise<T>], an effect on the world. *)
Variable fn : W -> completion T * W.
Variables maxRetries initialDelay : Z.

Definition call_fn : io W T := emit EvCall ;; perform fn.

(** [withRetry], lines 564-590: the [for] loop from [attempt] on;
    [lastError] is the variable of the same name. Each iteration uses
    one unit of fuel. *)
Fixpoint withRetry_loop (fuel : nat) (attempt : Z) (lastError : value) : io W T :=
  match fuel with
  | O => out_of_fuel
  | S fuel' =>
      if attempt <=? maxRetries then
        try_catch call_fn (fun error =>
          statusCode <- of_completion (get error "statusCode") ;;
          if strict_eq_num statusCode 429 && (attempt <? maxRetries) then
            let delay := initialDelay * 2 ^ attempt in
            emit (EvSleep delay) ;;
            withRetry_loop fuel' (attempt + 1) error
          else throw error)
      else throw lastError
  end.

Definition withRetry : io W T :=
  withRetry_loop (S (Z.to_nat (maxRetries + 1))) 0 VNull.

End WithRetry.

End Transport.

(** ** The [list] case of [executeEvaluationOperation] *)

Module EvaluationOps.
Import IO Transport.
Local Open Scope io_scope.

Section List.
Context {W : Type}.
Variable server : string -> value -> W -> completion value * W.

(** [ENDPOINTS.evaluations], declared in [constants/endpoints]. *)
Variable ENDPOINTS_evaluations : string.

(** [filters], the node parameter of that name. *)
Variable filters : list (string * value).

(** Lines 79-93: [while (hasMore) { ... }] with the variables [page],
    [hasMore] and [allResults]; an iteration uses one unit of fuel. *)
Fixpoint returnAll_loop (fuel : nat) (page : Z) (hasMore : value)
    (allResults : list value) : io W (list value) :=
  match fuel with
  | O => out_of_fuel
  | S fuel' =>
      if truthy hasMore then
        response <- alloyApiGetPaginated server ENDPOINTS_evaluations
                      {| page := Some page; limit := Some 100; sort := None; order := None |}
                      (Some filters) ;;
        allResults' <- (if truthy (data response)
                        then items <- of_completion (spread_iterable (data response)) ;;
                             ret (allResults ++ items)
                        else ret allResults) ;;
        returnAll_loop fuel' (page + 1)
          (or_else (pg_hasMore (pagination response)) (VBool false)) allResults'
      else ret allResults
  end.

Definition json_item (item : value) : value := VObj [("json", item)].

(** [response.data.map((item) => ({ json: item }))] *)
Definition map_items (v : value) : completion (list value) :=
  match v with
  | VArr items => Normal (map json_item items)
  | _ => Throw (TypeError "response.data.map is not a function")
  end.

(** The [returnData] pushed by [case 'list']; [limit] is the node
    parameter read when [returnAll] is off. *)
Definition executeEvaluationOperation_list (fuel : nat) (returnAll : bool) (limit : Z)
  : io W (list value) :=
  if returnAll then
    allResults <- returnAll_loop fuel 1 (VBool true) [] ;;
    ret (map json_item allResults)
  else
    response <- alloyApiGetPaginated server ENDPOINTS_evaluations
                  {| page := None; limit := Some limit; sort := None; order := None |}
                  (Some filters) ;;
    if truthy (data response) then of_completion (map_items (data response)) else ret [].

End List.

End EvaluationOps.

(** ** [transport/webhookHandler.ts] and the trigger node *)

Module WebhookHandler.
Import SignatureUtils.

Record Credentials : Type := { webhookSecret : option string }.

(** What the handler reads from [IWebhookFunctions]: the request
    headers, the parsed body (an [IDataObject]), the node parameters,
    the outcome of [getCredentials('alloyApi')] and the clock. *)
Record IWebhookFunctions : Type :=
  { req_headers : gmap string HeaderValue;
    getBodyData : list (string * value);
    param_events : list string;
    param_verifySignature : bool;
    option_includeRawPayload : bool;
    getCredentials : completion Credentials;
    Date_now : Z }.

Record WebhookValidationResult : Type :=
  { isValid : bool; error : option string; payload : option (list (string * value)) }.

Definition option_truthy (s : option string) : bool :=
  match s with Some x => string_truthy x | None => false end.

Definition missing_signature_error : string :=
  "Missing webhook signature header: " +:+ ALLOY_SIGNATURE_HEADER.

(** The [if (webhookSecret) { ... }] block: the error it returns with,
    if any. *)
Definition signature_check (context : IWebhookFunctions) (secret : option string)
  : option string :=
  if option_truthy secret then
    let headers := req_headers context in
    let ex := extractSignatureFromHeaders headers in
    if negb (option_truthy (signature ex)) then Some missing_signature_error
    else
      let rawBody := stringify (VObj (getBodyData context)) in
      let isValid :=
        verifyWebhookSignature (PString <$> rawBody) (signature ex) secret
          (or_null (timestamp ex)) (Date_now context) in
      if negb isValid then Some "Invalid webhook signature" else None
  else None.

(** [validateAlloyWebhook], lines 253-297 of the handler file. *)
Definition validateAlloyWebhook (context : IWebhookFunctions) (secret : option string)
  : WebhookValidationResult :=
  let body := getBodyData context in
  match signature_check context secret with
  | Some err => {| isValid := false; error := Some err; payload := None |}
  | None =>
      if negb (truthy (lookup_field "event_type" body)) then
        {| isValid := false;
           error := Some "Missing event_type in webhook payload";
           payload := None |}
      else {| isValid := true; error := None; payload := Some body |}
  end.

Definition webhookPayloadToExecutionData (payload : list (string * value))
  : list (list (string * value)) :=
  [ [("json",
      VObj [("eventType", lookup_field "event_type" payload);
            ("eventId", lookup_field "event_id" payload);
            ("timestamp", lookup_field "timestamp" payload);
            ("entityToken", lookup_field "entity_token" payload);
            ("evaluationToken", lookup_field "evaluation_token" payload);
            ("applicationToken", lookup_field "application_token" payload);
            ("data", lookup_field "data" payload)])] ].

End WebhookHandler.

Module AlloyTrigger.
Import SignatureUtils WebhookHandler.

Record WebhookResponse : Type := { status : Z; body : value }.

Record IWebhookResponseData : Type :=
  { workflowData : option (list (list (list (string * value))));
    webhookResponse : WebhookResponse }.

(** [events.includes(payload.event_type)] on a [string[]] *)
Definition includes (events : list string) (v : value) : bool :=
  match v with
  | VStr s => existsb (String.eqb s) events
  | _ => false
  end.

(** The secret the handler hands to the validator: read from the
    credentials when verification is on, left [undefined] when it is off
    or when the credentials cannot be loaded. *)
Definition loaded_secret (this : IWebhookFunctions) : option string :=
  if param_verifySignature this then
    match getCredentials this with
    | Normal credentials => webhookSecret credentials
    | _ => None
    end
  else None.

(** [executionData[0].json.rawPayload = this.getBodyData()] *)
Definition add_rawPayload (raw : value) (item : list (string * value))
  : list (string * value) :=
  match lookup_field "json" item with
  | VObj json => set_field "json" (VObj (set_field "rawPayload" raw json)) item
  | _ => item
  end.

(** [AlloyTrigger.webhook], lines 151-211. *)
Definition webhook (this : IWebhookFunctions) : IWebhookResponseData :=
  let events := param_events this in
  let validation := validateAlloyWebhook this (loaded_secret this) in
  if negb (isValid validation) then
    {| workflowData := None;
       webhookResponse :=
         {| status := 400;
            body := VObj [("error", Transport.opt_value VStr (error validation))] |} |}
  else
    let payload := default [] (payload validation) in
    if negb (Nat.eqb (length events) 0) && negb (includes events (lookup_field "event_type" payload))
    then
      {| workflowData := None;
         webhookResponse :=
           {| status := 200;
              body := VObj [("received", VBool true); ("processed", VBool false);
                            ("reason", VStr "Event type not in filter")] |} |}
    else
      let executionData := webhookPayloadToExecutionData payload in
      let executionData' :=
        if option_includeRawPayload this then
          match executionData with
          | first :: rest => add_rawPayload (VObj (getBodyData this)) first :: rest
          | [] => []
          end
        else executionData in
      {| workflowData := Some [executionData'];
         webhookResponse :=
           {| status := 200;
              body := VObj [("received", VBool true); ("processed", VBool true)] |} |}.

End AlloyTrigger.

(** ** What the effects of a run are expected to be *)

Module Expected.
Import IO Transport.

(** The world after [n] calls of the operation [fn]. *)
Fixpoint world_after {W T : Type} (fn : W -> completion T * W) (n : nat) (w : W) : W :=
  match n with
  | O => w
  | S n' => world_after fn n' (fn w).2
  end.

(** [k] failed calls, each followed by its back-off sleep, and a last
    call; the sleep after 0-indexed attempt [n] lasts
    [initialDelay * 2 ^ n]. *)
Fixpoint retry_trace (initialDelay attempt : Z) (k : nat) : list event :=
  match k with
  | O => [EvCall]
  | S k' =>
      EvCall :: EvSleep (initialDelay * 2 ^ attempt)
        :: retry_trace initialDelay (attempt + 1) k'
  end.

(** Well-formed UTF-8, as the Unicode standard tabulates it (table
    3-7): the byte sequences of one to four bytes that encode a scalar
    value, one after the other. *)
Definition code (b : Byte.byte) : N := Byte.to_N b.

Definition continuation (b : Byte.byte) : Prop := (128 <= code b <= 191)%N.

Inductive well_formed_utf8 : list Byte.byte -> Prop :=
| utf8_end : well_formed_utf8 []
| utf8_ascii b rest :
    (code b <= 127)%N -> well_formed_utf8 rest -> well_formed_utf8 (b :: rest)
| utf8_two b1 b2 rest :
    (194 <= code b1 <= 223)%N -> continuation b2 ->
    well_formed_utf8 rest -> well_formed_utf8 (b1 :: b2 :: rest)
| utf8_three_E0 b1 b2 b3 rest :
    code b1 = 224%N -> (160 <= code b2 <= 191)%N -> continuation b3 ->
    well_formed_utf8 rest -> well_formed_utf8 (b1 :: b2 :: b3 :: rest)
| utf8_three b1 b2 b3 rest :
    (225 <= code b1 <= 236)%N \/ (238 <= code b1 <= 239)%N ->
    continuation b2 -> continuation b3 ->
    well_formed_utf8 rest -> well_formed_utf8 (b1 :: b2 :: b3 :: rest)
| utf8_three_ED b1 b2 b3 rest :
    code b1 = 237%N -> (128 <= code b2 <= 159)%N -> continuation b3 ->
    well_formed_utf8 rest -> well_formed_utf8 (b1 :: b2 :: b3 :: rest)
| utf8_four_F0 b1 b2 b3 b4 rest :
    code b1 = 240%N -> (144 <= code b2 <= 191)%N -> continuation b3 -> continuation b4 ->
    well_formed_utf8 rest -> well_formed_utf8 (b1 :: b2 :: b3 :: b4 :: rest)
| utf8_four b1 b2 b3 b4 rest :
    (241 <= code b1 <= 243)%N -> continuation b2 -> continuation b3 -> continuation b4 ->
    well_formed_utf8 rest -> well_formed_utf8 (b1 :: b2 :: b3 :: b4 :: rest)
| utf8_four_F4 b1 b2 b3 b4 rest :
    code b1 = 244%N -> (128 <= code b2 <= 143)%N -> continuation b3 -> continuation b4 ->
    well_formed_utf8 rest -> well_formed_utf8 (b1 :: b2 :: b3 :: b4 :: rest).

(** The field [k] of a response body, [undefined] when there is none. *)
Definition field (body : value) (k : string) : value :=
  match get body k with
  | Normal v => v
  | _ => VUndefined
  end.

(** The parameters of the request for [page] in the [returnAll] loop. *)
Definition page_request (filters : list (string * value)) (page : Z) : value :=
  VObj (request_params
          {| page := Some page; limit := Some 100; sort := None; order := None |}
          (Some filters)).

(** The requests for the pages [first], [first + 1], ... in that order. *)
Fixpoint page_requests (endpoint : string) (filters : list (string * value))
    (first : Z) (n : nat) : list event :=
  match n with
  | O => []
  | S n' => EvGet endpoint (page_request filters first)
              :: page_requests endpoint filters (first + 1) n'
  end.

(** A server that holds [pages]: asked for page [k + 1] with 100 items
    a page, it answers, in any state, with that page under [data] and
    with [has_more] telling whether a later page exists. *)
Definition serves_pages {W : Type} (server : string -> value -> W -> completion value * W)
    (endpoint : string) (filters : list (string * value)) (pages : list (list value))
  : Prop :=
  forall (k : nat) (items : list value) (w : W),
    pages !! k = Some items ->
    exists body,
      (server endpoint (page_request filters (Z.of_nat k + 1)) w).1 = Normal body /\
      get body "data" = Normal (VArr items) /\
      get body "has_more" = Normal (VBool (bool_decide (S k < length pages)%nat)).

(** The three responses of the trigger's webhook. *)
Definition bad_request (reason : string) : AlloyTrigger.IWebhookResponseData :=
  {| AlloyTrigger.workflowData := None;
     AlloyTrigger.webhookResponse :=
       {| AlloyTrigger.status := 400;
          AlloyTrigger.body := VObj [("error", VStr reason)] |} |}.

Definition not_in_filter : AlloyTrigger.WebhookResponse :=
  {| AlloyTrigger.status := 200;
     AlloyTrigger.body :=
       VObj [("received", VBool true); ("processed", VBool false);
             ("reason", VStr "Event type not in filter")] |}.

Definition processed : AlloyTrigger.WebhookResponse :=
  {| AlloyTrigger.status := 200;
     AlloyTrigger.body := VObj [("received", VBool true); ("processed", VBool true)] |}.

(** The verdict of [verifyWebhookSignature] on a delivery, as the
    validator asks for it. *)
Definition delivery_verifies (this : WebhookHandler.IWebhookFunctions) : bool :=
  let ex := SignatureUtils.extractSignatureFromHeaders (WebhookHandler.req_headers this) in
  SignatureUtils.verifyWebhookSignature
    (SignatureUtils.PString <$> stringify (VObj (WebhookHandler.getBodyData this)))
    (SignatureUtils.signature ex) (AlloyTrigger.loaded_secret this)
    (SignatureUtils.or_null (SignatureUtils.timestamp ex)) (WebhookHandler.Date_now this).

(** A secret is configured: verification is on, the credentials load
    and hold a non-empty webhook secret. *)
Definition secret_configured (this : WebhookHandler.IWebhookFunctions) : bool :=
  WebhookHandler.option_truthy (AlloyTrigger.loaded_secret this).

(** The signature header is there, with a non-empty value. *)
Definition signature_present (this : WebhookHandler.IWebhookFunctions) : bool :=
  WebhookHandler.option_truthy
    (SignatureUtils.signature
       (SignatureUtils.extractSignatureFromHeaders (WebhookHandler.req_headers this))).

(** The delivery passes the signature stage: no secret is configured,
    or the signature is there and verifies. *)
Definition signature_stage_passed (this : WebhookHandler.IWebhookFunctions) : bool :=
  negb (secret_configured this) || (signature_present this && delivery_verifies this).

End Expected.

(** ** Inputs of the unit tests, used to run the definitions *)

Module Fixtures.
Import SignatureUtils.

Definition secret : string := "test-webhook-secret-12345678901234567890".

(** [{ event_type: 'evaluation.completed', data: {} }] *)
Definition event_body : list (string * value) :=
  [("event_type", VStr "evaluation.completed"); ("data", VObj [])].

(** [JSON.stringify] of it, the payload the tests sign. *)
Definition payload : Payload := PString (default "" (stringify (VObj event_body))).

(** Request headers as Node hands them over: lowercase names, a
    repeated header as a list. *)
Definition node_headers : gmap string HeaderValue :=
  {[ "x-alloy-signature" := HArray ["abc123"; "zzz"];
     "x-alloy-timestamp" := HString "1700000000";
     "content-type" := HString "application/json" ]}.

(** An operation that is rate limited on every call; the world counts
    the calls and the error carries the number of its call. *)
Definition rate_limited (calls : Z) : completion value * Z :=
  (Throw (VObj [("message", VStr "Alloy API Error [HTTP_429]: Too many requests");
                ("statusCode", VNum 429); ("call", VNum (calls + 1))]),
   calls + 1).

(** An operation that fails with a server error. *)
Definition server_error (calls : Z) : completion value * Z :=
  (Throw (VObj [("message", VStr "Alloy API Error [HTTP_500]: Unknown error");
                ("statusCode", VNum 500)]),
   calls + 1).

(** An operation that is rate limited twice and then answers. *)
Definition recovers (calls : Z) : completion value * Z :=
  if calls <? 2 then rate_limited calls else (Normal (VStr "ok"), calls + 1).

(** A mock of the evaluations endpoint that holds [pages] and counts
    the requests it gets. *)
Definition mock_server (pages : list (list value)) (endpoint : string) (params : value)
    (requests : nat) : completion value * nat :=
  match Expected.field params "page" with
  | VNum p =>
      (Normal (VObj [("data", VArr (default [] (pages !! Z.to_nat (p - 1))));
                     ("page", VNum p);
                     ("total", VNum (Z.of_nat (length (concat pages))));
                     ("has_more", VBool (p <? Z.of_nat (length pages)))]),
       S requests)
  | _ => (Throw (VObj [("statusCode", VNum 400)]), S requests)
  end.

Definition items_from (first : Z) (n : nat) : list value :=
  map (fun i => VObj [("evaluation_token", VNum (first + Z.of_nat i))]) (seq 0 n).

(** Three pages of 100 items each. *)
Definition three_pages : list (list value) :=
  [items_from 1 100; items_from 101 100; items_from 201 100].

Definition list_filters : list (string * value) := [("outcome", VStr "approved")].

(** An endpoint that answers with a bare list, no [data] wrapper. *)
Definition bare_list_server (endpoint : string) (params : value) (requests : nat)
  : completion value * nat :=
  (Normal (VArr (items_from 1 2)), S requests).

(** Deliveries of [event_body] to the trigger node, whose credentials
    hold [secret]. *)
Definition delivery (headers : gmap string HeaderValue) (events : list string)
    (verify : bool) : WebhookHandler.IWebhookFunctions :=
  {| WebhookHandler.req_headers := headers;
     WebhookHandler.getBodyData := event_body;
     WebhookHandler.param_events := events;
     WebhookHandler.param_verifySignature := verify;
     WebhookHandler.option_includeRawPayload := false;
     WebhookHandler.getCredentials := Normal {| WebhookHandler.webhookSecret := Some secret |};
     WebhookHandler.Date_now := 1700000000000 |}.

Definition unsigned_headers : gmap string HeaderValue :=
  {[ "content-type" := HString "application/json" ]}.

Definition signed_headers : gmap string HeaderValue :=
  {[ "content-type" := HString "application/json";
     "x-alloy-signature" :=
       HString "28afea25483951f44d768456712de5c16c61dc4a92f5d4698c101ed63d53c85d" ]}.

End Fixtures.

(** ** More of JavaScript: text and plain objects *)

Module JsText.

(** ToString, as a template literal applies it to a value that came out
    of JSON. An object prints through [Object.prototype.toString] unless
    an own [toString] field (which cannot be a function) hides it: then
    no primitive is found and a [TypeError] is thrown. An array prints
    its items joined by commas, [null] and [undefined] as nothing. *)
Fixpoint to_string (v : value) : completion string :=
  match v with
  | VUndefined => Normal "undefined"
  | VNull => Normal "null"
  | VBool b => Normal (if b then "true" else "false")
  | VNum n => Normal (number_to_string n)
  | VStr s => Normal s
  | VArr items =>
      let fix go (l : list value) : completion (list string) :=
        match l with
        | [] => Normal []
        | x :: r =>
            match (if is_nullish x then Normal "" else to_string x) with
            | Normal sx =>
                match go r with
                | Normal sr => Normal (sx :: sr)
                | Throw e => Throw e
                | OutOfFuel => OutOfFuel
                end
            | Throw e => Throw e
            | OutOfFuel => OutOfFuel
            end
        end in
      match go items with
      | Normal parts => Normal (join_with "," parts)
      | Throw e => Throw e
      | OutOfFuel => OutOfFuel
      end
  | VObj fields =>
      if has_key "toString" fields
      then Throw (TypeError "Cannot convert object to primitive value")
      else Normal "[object Object]"
  end.

(** [s.split(sep)] for a separator of one ASCII character. *)
Fixpoint split (sep : ascii) (s : string) : list string :=
  match s with
  | EmptyString => [EmptyString]
  | String c r =>
      if Ascii.eqb c sep then EmptyString :: split sep r
      else
        match split sep r with
        | part :: parts => String c part :: parts
        | [] => [String c EmptyString]
        end
  end.

End JsText.

Module JsObject.

(** The properties every plain object inherits from [Object.prototype]. *)
Definition Object_prototype_keys : list string :=
  ["constructor"; "hasOwnProperty"; "isPrototypeOf"; "propertyIsEnumerable";
   "toLocaleString"; "toString"; "valueOf"; "__proto__";
   "__defineGetter__"; "__defineSetter__"; "__lookupGetter__"; "__lookupSetter__"].

(** What [obj[k]] finds on a plain object: an own field, a member of
    [Object.prototype] (a function, or the prototype itself), or
    nothing, which reads as [undefined]. *)
Inductive PropertyRead : Type :=
| Own (v : value)
| Inherited
| Absent.

Definition read (fields : list (string * value)) (k : string) : PropertyRead :=
  if has_key k fields then Own (lookup_field k fields)
  else if existsb (String.eqb k) Object_prototype_keys then Inherited
  else Absent.

End JsObject.

(** ** The rest of [utils/signatureUtils.ts] *)

Module SecretUtils.

Definition byte_value (b : Byte.byte) : Z := Z.of_N (Byte.to_N b).

(** [buffer.toString('hex')] *)
Fixpoint Buffer_toString_hex (b : list Byte.byte) : string :=
  match b with
  | [] => EmptyString
  | x :: r =>
      String (SHA256.hex_digit (byte_value x / 16))
        (String (SHA256.hex_digit (byte_value x mod 16)) (Buffer_toString_hex r))
  end.

(** [generateSecureToken], lines 128-130; [random] is what
    [crypto.randomBytes(length)] returned, [length] bytes. *)
Definition generateSecureToken (random : list Byte.byte) : string :=
  Buffer_toString_hex random.

(** [crypto.createHash('sha256').update(data).digest('hex')] *)
Definition sha256_hex (data : string) : string :=
  SHA256.hex_state (SHA256.digest_state (SHA256.bytes_of_string data)).

(** [hashForLogging], lines 138-141. *)
Definition hashForLogging (data : string) : string :=
  String.substring 0 8 (sha256_hex data) +:+ "...".

(** [/[a-z]/.test], [/[A-Z]/.test], [/[0-9]/.test] *)
Definition in_range (lo hi : nat) (c : ascii) : bool :=
  let n := Ascii.nat_of_ascii c in ((lo <=? n) && (n <=? hi))%nat.

Fixpoint has_char (p : ascii -> bool) (s : string) : bool :=
  match s with
  | EmptyString => false
  | String c r => p c || has_char p r
  end.

(** [isValidWebhookSecret], lines 149-161. *)
Definition isValidWebhookSecret (secret : string) : bool :=
  if (utf16_length secret <? 32)%nat then false
  else
    let hasLower := has_char (in_range 97 122) secret in
    let hasUpper := has_char (in_range 65 90) secret in
    let hasNumber := has_char (in_range 48 57) secret in
    hasLower && hasUpper && hasNumber.

End SecretUtils.

(** ** [utils/validationUtils.ts] *)

Module ValidationUtils.

Fixpoint all_chars (p : ascii -> bool) (s : string) : bool :=
  match s with
  | EmptyString => true
  | String c r => p c && all_chars p r
  end.

(** [s.replace(/-/g, '')] *)
Fixpoint remove_dashes (s : string) : string :=
  match s with
  | EmptyString => EmptyString
  | String c r => if Ascii.eqb c "-" then remove_dashes r else String c (remove_dashes r)
  end.

Definition is_digit (c : ascii) : bool := SecretUtils.in_range 48 57 c.

(** [/^\d{9}$/.test] *)
Definition nine_digits (s : string) : bool :=
  Nat.eqb (String.length s) 9 && all_chars is_digit s.

(** [isValidSSN], lines 54-60, and [isValidEIN], lines 65-71. *)
Definition isValidSSN (ssn : string) : bool :=
  let cleaned := remove_dashes ssn in nine_digits cleaned.

Definition isValidEIN (ein : string) : bool :=
  let cleaned := remove_dashes ein in nine_digits cleaned.

(** [isValidAlloyToken], lines 109-113: [/^[a-zA-Z0-9_-]{8,64}$/]. Every
    character of the class is ASCII, so the count is the byte length. *)
Definition is_token_char (c : ascii) : bool :=
  SecretUtils.in_range 97 122 c || SecretUtils.in_range 65 90 c
  || SecretUtils.in_range 48 57 c || Ascii.eqb c "_" || Ascii.eqb c "-".

Definition isValidAlloyToken (token : string) : bool :=
  all_chars is_token_char token
  && (8 <=? String.length token)%nat && (String.length token <=? 64)%nat.

Record RequiredFieldsResult : Type := { valid : bool; missingFields : list string }.

(** [value === undefined || value === null || value === ''] for
    [value = obj[field]] *)
Definition is_missing (obj : list (string * value)) (field : string) : bool :=
  match JsObject.read obj field with
  | JsObject.Own VUndefined | JsObject.Own VNull => true
  | JsObject.Own (VStr s) => String.eqb s ""
  | JsObject.Own _ => false
  | JsObject.Inherited => false
  | JsObject.Absent => true
  end.

(** [validateRequiredFields], lines 118-135. *)
Definition validateRequiredFields (obj : list (string * value)) (requiredFields : list string)
  : RequiredFieldsResult :=
  let missingFields :=
    fold_left (fun acc field => if is_missing obj field then acc ++ [field] else acc)
      requiredFields [] in
  {| valid := Nat.eqb (length missingFields) 0; missingFields := missingFields |}.

(** [isValidDocumentType], lines 155-165. Lowercasing only turns an
    ASCII capital into a letter of these six names, none of which holds
    a [k] (the one ASCII letter that a character beyond ASCII lowers
    to), so the ASCII [toLowerCase] decides the same strings. *)
Definition validTypes : list string :=
  ["image/jpeg"; "image/png"; "image/gif"; "image/webp"; "application/pdf"; "image/tiff"].

Definition isValidDocumentType (mimeType : string) : bool :=
  existsb (String.eqb (toLowerCase mimeType)) validTypes.

(** [isValidFileSize], lines 170-173, on whole numbers. *)
Definition isValidFileSize (bytes maxMB : Z) : bool :=
  let maxBytes := maxMB * 1024 * 1024 in
  (0 <? bytes) && (bytes <=? maxBytes).

(** A JavaScript number: a finite value (every double is a rational),
    an infinity, or [NaN]. *)
Inductive number : Type :=
| Finite (q : QArith_base.Q)
| PosInfinity
| NegInfinity
| NaN.

Definition number_truthy (n : number) : bool :=
  match n with
  | Finite q => negb (QArith_base.Qeq_bool q (QArith_base.inject_Z 0))
  | PosInfinity | NegInfinity => true
  | NaN => false
  end.

(** [n || d] for an optional number *)
Definition number_or (n : option number) (d : number) : number :=
  match n with
  | Some x => if number_truthy x then x else d
  | None => d
  end.

Definition Math_floor (n : number) : number :=
  match n with
  | Finite q => Finite (QArith_base.inject_Z (Qround.Qfloor q))
  | other => other
  end.

(** [a <= b] on numbers that are not [NaN] *)
Definition number_le (a b : number) : bool :=
  match a, b with
  | NaN, _ | _, NaN => false
  | NegInfinity, _ => true
  | _, PosInfinity => true
  | Finite x, Finite y => QArith_base.Qle_bool x y
  | _, _ => false
  end.

Definition Math_max (a b : number) : number :=
  match a, b with
  | NaN, _ | _, NaN => NaN
  | _, _ => if number_le a b then b else a
  end.

Definition Math_min (a b : number) : number :=
  match a, b with
  | NaN, _ | _, NaN => NaN
  | _, _ => if number_le a b then a else b
  end.

Definition of_Z (z : Z) : number := Finite (QArith_base.inject_Z z).

Record PageAndLimit : Type := { page : number; limit : number }.

(** [validatePagination], lines 185-193. *)
Definition validatePagination (page limit : option number) : PageAndLimit :=
  let validPage := Math_max (of_Z 1) (Math_floor (number_or page (of_Z 1))) in
  let validLimit :=
    Math_min (of_Z 100) (Math_max (of_Z 1) (Math_floor (number_or limit (of_Z 25)))) in
  {| page := validPage; limit := validLimit |}.

End ValidationUtils.

(** ** The response interceptor of [createAlloyClient] *)

Module AlloyClient.

(** [v?.k] *)
Definition optional_get (v : value) (k : string) : value :=
  if is_nullish v then VUndefined
  else match get v k with Normal x => x | _ => VUndefined end.

(** [new Error(message)] *)
Definition Error (message : string) : value :=
  VObj [("name", VStr "Error"); ("message", VStr message)].

(** [data?.error?.message || data?.message || 'Unknown error'] *)
Definition errorMessage_of (data : value) : value :=
  or_else (or_else (optional_get (optional_get data "error") "message")
                   (optional_get data "message"))
          (VStr "Unknown error").

(** [data?.error?.code || `HTTP_${status}`] *)
Definition errorCode_of (data status : value) : completion value :=
  let code := optional_get (optional_get data "error") "code" in
  if truthy code then Normal code
  else
    match JsText.to_string status with
    | Normal s => Normal (VStr ("HTTP_" +:+ s))
    | Throw e => Throw e
    | OutOfFuel => OutOfFuel
    end.

(** The error handler of [client.interceptors.response.use], lines
    410-430 of the client: every path ends in a rejection, here the
    [Throw] completion, with the value rejected with. *)
Definition response_error_interceptor (error : value) : completion value :=
  match get error "response" with
  | Normal response =>
      if truthy response then
        match get response "status", get response "data" with
        | Normal status, Normal data =>
            let errorMessage := errorMessage_of data in
            match errorCode_of data status with
            | Normal errorCode =>
                match JsText.to_string errorCode, JsText.to_string errorMessage with
                | Normal code_text, Normal message_text =>
                    Throw (VObj [("name", VStr "Error");
                                 ("message",
                                  VStr ("Alloy API Error [" +:+ code_text +:+ "]: "
                                        +:+ message_text));
                                 ("statusCode", status);
                                 ("errorCode", errorCode);
                                 ("response", data)])
                | Throw e, _ => Throw e
                | _, Throw e => Throw e
                | _, _ => OutOfFuel
                end
            | Throw e => Throw e
            | OutOfFuel => OutOfFuel
            end
        | Throw e, _ => Throw e
        | _, Throw e => Throw e
        | _, _ => OutOfFuel
        end
      else
        match get error "code" with
        | Normal (VStr code) =>
            if String.eqb code "ECONNABORTED"
            then Throw (Error "Request timeout - Alloy API did not respond in time")
            else Throw error
        | _ => Throw error
        end
  | Throw e => Throw e
  | OutOfFuel => OutOfFuel
  end.

(** A request through the client: the transport [raw] answers with the
    response body or fails with the error axios raises, which the
    interceptor then turns into the rejection of the call. *)
Definition intercepted {W : Type} (raw : W -> completion value * W)
  : W -> completion value * W :=
  fun w =>
    match (raw w).1 with
    | Throw error => (response_error_interceptor error, (raw w).2)
    | _ => raw w
    end.

End AlloyClient.

(** ** [uploadDocument] of the document handler *)

Module DocumentHandler.
Import ValidationUtils.

Record IBinaryData : Type := { mimeType : string; fileName : option string }.

Record DocumentUploadOptions : Type :=
  { entityToken : string;
    documentType : string;
    side : option string;
    evaluationToken : option string;
    metadata : option (list (string * value)) }.

(** What [formData.append] is given. *)
Inductive FormValue : Type :=
| FormFile (buffer : list Byte.byte) (filename contentType : string)
| FormText (text : string).

(** [client.post(endpoint, formData, ...)] *)
Record Post : Type := { post_endpoint : string; post_form : list (string * FormValue) }.

(** [DocumentUploadResult]; a field left out is [undefined]. *)
Record DocumentUploadResult : Type :=
  { success : bool; documentToken : value; status : value; error : value }.

Record UploadRun (W : Type) : Type :=
  { upload_result : completion DocumentUploadResult;
    upload_world : W;
    upload_posts : list Post }.
Arguments upload_result {W} u.
Arguments upload_world {W} u.
Arguments upload_posts {W} u.

Definition two_digits (n : Z) : string :=
  String (SHA256.hex_digit (n / 10 mod 10)) (String (SHA256.hex_digit (n mod 10)) EmptyString).

(** [(length / 1024 / 1024).toFixed(2)]: the divisions by a power of
    two are exact, and [toFixed] takes the nearest hundredth, the larger
    one on a tie. *)
Definition megabytes_toFixed2 (length : Z) : string :=
  let n := (100 * length + 524288) / 1048576 in
  decimal (n / 100) +:+ "." +:+ two_digits (n mod 100).

Definition option_text_truthy (s : option string) : bool :=
  match s with Some x => negb (String.eqb x "") | None => false end.

(** The fields appended to the form, in their order. *)
Definition upload_form (binaryData : IBinaryData) (buffer : list Byte.byte)
    (options : DocumentUploadOptions) : list (string * FormValue) :=
  [("file", FormFile buffer
              (if option_text_truthy (fileName binaryData)
               then default "" (fileName binaryData) else "document")
              (mimeType binaryData));
   ("entity_token", FormText (entityToken options));
   ("document_type", FormText (documentType options))]
  ++ (if option_text_truthy (side options)
      then [("side", FormText (default "" (side options)))] else [])
  ++ (if option_text_truthy (evaluationToken options)
      then [("evaluation_token", FormText (default "" (evaluationToken options)))] else [])
  ++ (match metadata options with
      | Some m => [("metadata", FormText (default "" (stringify (VObj m))))]
      | None => []
      end).

Definition failure (message : value) : DocumentUploadResult :=
  {| success := false; documentToken := VUndefined; status := VUndefined; error := message |}.

Section Upload.
Context {W : Type}.

(** [client.post]: answers with the response body or rejects. *)
Variable post : Post -> W -> completion value * W.

(** [ENDPOINTS.documents], declared in [constants/endpoints]. *)
Variable ENDPOINTS_documents : string.

(** [uploadDocument], lines 47-113 of the handler. [binaryData] is
    the outcome of [context.helpers.assertBinaryData] and [buffer] that
    of [getBinaryDataBuffer]. *)
Definition uploadDocument (binaryData : completion IBinaryData)
    (buffer : completion (list Byte.byte)) (options : DocumentUploadOptions) (w : W)
  : UploadRun W :=
  match binaryData, buffer with
  | Normal binaryData, Normal buffer =>
      if negb (isValidDocumentType (mimeType binaryData)) then
        {| upload_result :=
             Normal (failure (VStr ("Invalid document type: " +:+ mimeType binaryData
                                    +:+ ". Supported types: jpeg, png, gif, webp, pdf, tiff")));
           upload_world := w; upload_posts := [] |}
      else if negb (isValidFileSize (Z.of_nat (length buffer)) 10) then
        {| upload_result :=
             Normal (failure (VStr ("File size "
                                    +:+ megabytes_toFixed2 (Z.of_nat (length buffer))
                                    +:+ "MB exceeds maximum of 10MB")));
           upload_world := w; upload_posts := [] |}
      else
        let request :=
          {| post_endpoint := ENDPOINTS_documents;
             post_form := upload_form binaryData buffer options |} in
        let attempt :=
          match (post request w).1 with
          | Normal body =>
              match get body "document_token", get body "status" with
              | Normal token, Normal st =>
                  Normal {| success := true; documentToken := token; status := st;
                            error := VUndefined |}
              | Throw e, _ => Throw e
              | _, Throw e => Throw e
              | _, _ => OutOfFuel
              end
          | Throw e => Throw e
          | OutOfFuel => OutOfFuel
          end in
        {| upload_result :=
             match attempt with
             | Throw error =>
                 match get error "message" with
                 | Normal message =>
                     Normal (failure (or_else message (VStr "Failed to upload document")))
                 | Throw e => Throw e
                 | OutOfFuel => OutOfFuel
                 end
             | done => done
             end;
           upload_world := (post request w).2;
           upload_posts := [request] |}
  | Throw e, _ => {| upload_result := Throw e; upload_world := w; upload_posts := [] |}
  | _, Throw e => {| upload_result := Throw e; upload_world := w; upload_posts := [] |}
  | _, _ => {| upload_result := OutOfFuel; upload_world := w; upload_posts := [] |}
  end.

End Upload.

End DocumentHandler.

(** ** The event helpers of [transport/webhookHandler.ts] *)

Module WebhookEvents.

(** [filterWebhookByEventType], lines 321-329. *)
Definition filterWebhookByEventType (payload : list (string * value))
    (allowedEvents : list string) : bool :=
  if Nat.eqb (length allowedEvents) 0 then true
  else AlloyTrigger.includes allowedEvents (lookup_field "event_type" payload).

Definition outcomeEvents : list string :=
  ["evaluation.approved"; "evaluation.denied"; "evaluation.pending_review";
   "evaluation.manual_review_required"].

(** [getOutcomeFromWebhook], lines 373-395; [None] is [null]. *)
Definition getOutcomeFromWebhook (payload : list (string * value))
  : completion (option value) :=
  let from_data :=
    match get (lookup_field "data" payload) "outcome" with
    | Normal outcome => Normal (if truthy outcome then Some outcome else None)
    | Throw e => Throw e
    | OutOfFuel => OutOfFuel
    end in
  match lookup_field "event_type" payload with
  | VStr event_type =>
      if existsb (String.eqb event_type) outcomeEvents then
        match JsText.split "." event_type with
        | _ :: second :: _ => Normal (Some (VStr second))
        | _ => from_data
        end
      else from_data
  | _ => from_data
  end.

Definition successEvents : list string :=
  ["evaluation.approved"; "identity.verified"; "business.verified"; "document.verified"].

Definition failureEvents : list string :=
  ["evaluation.denied"; "identity.failed"; "business.failed"; "document.failed"].

Definition reviewEvents : list string :=
  ["evaluation.pending_review"; "evaluation.manual_review_required"; "review.assigned"].

(** Lines 400-433. *)
Definition isSuccessfulVerification (payload : list (string * value)) : bool :=
  AlloyTrigger.includes successEvents (lookup_field "event_type" payload).

Definition isFailedVerification (payload : list (string * value)) : bool :=
  AlloyTrigger.includes failureEvents (lookup_field "event_type" payload).

Definition requiresManualReview (payload : list (string * value)) : bool :=
  AlloyTrigger.includes reviewEvents (lookup_field "event_type" payload).

End WebhookEvents.

(** ** Measures and shapes used to state what the code does *)

Module Measures.
Import IO.




(** [0-9a-f] *)
Definition is_lower_hex (c : ascii) : bool :=
  SecretUtils.in_range 48 57 c || SecretUtils.in_range 97 102 c.




(** A value that is no object or array, and the text a template literal
    puts in for it. *)
Definition primitive (v : value) : Prop :=
  match v with VArr _ | VObj _ => False | _ => True end.

Definition printed (v : value) : string :=
  match v with
  | VUndefined => "undefined"
  | VNull => "null"
  | VBool true => "true"
  | VBool false => "false"
  | VNum n => number_to_string n
  | VStr s => s
  | VArr _ | VObj _ => EmptyString
  end.

(** A server that answers the requests for the first pages with
    [pages], always announcing more, and rejects the request after them
    with [e]. *)
Definition serves_then_fails {W : Type} (server : string -> value -> W -> completion value * W)
    (endpoint : string) (filters : list (string * value)) (pages : list (list value))
    (e : value) : Prop :=
  (forall (k : nat) (items : list value) (w : W),
     pages !! k = Some items ->
     exists body,
       (server endpoint (Expected.page_request filters (Z.of_nat k + 1)) w).1 = Normal body /\
       get body "data" = Normal (VArr items) /\
       get body "has_more" = Normal (VBool true)) /\
  (forall w : W,
     (server endpoint
        (Expected.page_request filters (Z.of_nat (length pages) + 1)) w).1 = Throw e).

(** A server that has a page for every request and always announces
    more. *)
Definition always_has_more {W : Type} (server : string -> value -> W -> completion value * W)
    (endpoint : string) (filters : list (string * value)) : Prop :=
  forall (page : Z) (w : W),
    exists body items,
      (server endpoint (Expected.page_request filters page) w).1 = Normal body /\
      get body "data" = Normal (VArr items) /\
      get body "has_more" = Normal (VBool true).

End Measures.

(** ** More inputs to run the definitions on *)

Module FixturesMore.

(** A secret with small letters, capitals and digits, 40 characters. *)
Definition strong_secret : string := "Test-Webhook-Secret-12345678901234567890".

(** The error axios raises for a response with [status] and [data]. *)
Definition axios_error (status : Z) (data : value) : value :=
  VObj [("message", VStr ("Request failed with status code " +:+ number_to_string status));
        ("response", VObj [("status", VNum status); ("data", data)])].

(** A body with a numeric error code, and two messages. *)
Definition quota_body : value :=
  VObj [("error", VObj [("code", VNum 1402); ("message", VStr "Quota used up")]);
        ("message", VStr "Payment required")].




(** One that times out. *)
Definition timed_out (requests : Z) : completion value * Z :=
  (Throw (VObj [("message", VStr "timeout of 30000ms exceeded");
                ("code", VStr "ECONNABORTED")]),
   requests + 1).

(** A record with a name, an e-mail address, a count of zero, an
    empty phone number and no spouse. *)
Definition contact : list (string * value) :=
  [("name", VStr "John"); ("email", VStr "john@example.com");
   ("visits", VNum 0); ("phone", VStr ""); ("spouse", VNull)].

Definition upload_options : DocumentHandler.DocumentUploadOptions :=
  {| DocumentHandler.entityToken := "ent_1";
     DocumentHandler.documentType := "passport";
     DocumentHandler.side := Some "front";
     DocumentHandler.evaluationToken := None;
     DocumentHandler.metadata := None |}.

(** A documents endpoint that stores what it is sent and counts it. *)
Definition upload_server (request : DocumentHandler.Post) (stored : nat)
  : completion value * nat :=
  (Normal (VObj [("document_token", VStr "doc_1"); ("status", VStr "pending")]), S stored).

(** An evaluations endpoint that serves two pages of one item each,
    announcing more, and answers every further request with a server
    error. *)
Definition server_failure : value :=
  VObj [("message", VStr "Alloy API Error [HTTP_500]: Unknown error");
        ("statusCode", VNum 500)].

Definition breaks_after_two_pages (endpoint : string) (params : value) (requests : nat)
  : completion value * nat :=
  match Expected.field params "page" with
  | VNum 1 => (Normal (VObj [("data", VArr [VStr "first"]); ("has_more", VBool true)]),
               S requests)
  | VNum 2 => (Normal (VObj [("data", VArr [VStr "second"]); ("has_more", VBool true)]),
               S requests)
  | _ => (Throw server_failure, S requests)
  end.

(** An endpoint whose every answer announces more. *)
Definition endless_server (endpoint : string) (params : value) (requests : nat)
  : completion value * nat :=
  (Normal (VObj [("data", VArr [VStr "again"]); ("has_more", VBool true)]), S requests).

End FixturesMore.

(** * Properties *)

(** ** The signature verifier *)

Module SignatureProps.
Import SignatureUtils.

Lemma hmac_hex_length (key msg : string) :
  String.length (SHA256.hmac_hex key msg) = 64%nat.
Proof. reflexivity. Qed.

Lemma hmac_hex_truthy (key msg : string) :
  string_truthy (SHA256.hmac_hex key msg) = true.
Proof.
  unfold string_truthy.
  destruct (String.eqb_spec (SHA256.hmac_hex key msg) "") as [E|]; [|done].
  pose proof (hmac_hex_length key msg) as L. rewrite E in L. discriminate L.
Qed.

Lemma string_truthy_true (s : string) : string_truthy s = true <-> s <> "".
Proof.
  unfold string_truthy. destruct (String.eqb_spec s ""); simpl; split; congruence.
Qed.

Lemma bytes_eqb_eq (a b : list Byte.byte) : bytes_eqb a b = true <-> a = b.
Proof.
  revert b. induction a as [|x a IH]; intros [|y b]; simpl; split; try done.
  - intros [Hxy Hab]%andb_true_iff.
    apply Byte.byte_dec_bl in Hxy. apply IH in Hab. congruence.
  - intros [= -> ->]. apply andb_true_iff. split.
    + apply Byte.byte_dec_lb. reflexivity.
    + apply IH. reflexivity.
Qed.

Lemma Buffer_from_inj (s t : string) : Buffer_from s = Buffer_from t -> s = t.
Proof.
  intros E. rewrite <- (String.string_of_list_byte_of_string s),
    <- (String.string_of_list_byte_of_string t).
  unfold Buffer_from in E. congruence.
Qed.

Lemma bytes_eqb_Buffer_from (s t : string) :
  bytes_eqb (Buffer_from s) (Buffer_from t) = String.eqb s t.
Proof.
  destruct (String.eqb_spec s t) as [->|N].
  - apply bytes_eqb_eq. reflexivity.
  - destruct (bytes_eqb (Buffer_from s) (Buffer_from t)) eqn:E; [|done].
    apply bytes_eqb_eq, Buffer_from_inj in E. contradiction.
Qed.

Lemma byte_in_true (lo hi : N) (b : Byte.byte) :
  (lo <= Byte.to_N b <= hi)%N -> byte_in lo hi b = true.
Proof.
  intros [H1 H2]. unfold byte_in. apply andb_true_iff. split; by apply N.leb_le.
Qed.

Lemma byte_in_false (lo hi : N) (b : Byte.byte) :
  (Byte.to_N b < lo \/ hi < Byte.to_N b)%N -> byte_in lo hi b = false.
Proof.
  intros H. unfold byte_in. apply andb_false_iff.
  destruct H as [H|H]; [left | right]; by apply N.leb_gt.
Qed.

Lemma byte_is_true (n : N) (b : Byte.byte) : Byte.to_N b = n -> byte_is n b = true.
Proof. intros H. unfold byte_is. by apply N.eqb_eq. Qed.

Lemma byte_is_false (n : N) (b : Byte.byte) : Byte.to_N b <> n -> byte_is n b = false.
Proof. intros H. unfold byte_is. by apply N.eqb_neq. Qed.

(** What a lead byte opens, by its range. *)
Lemma lead_ascii (b : Byte.byte) :
  (Byte.to_N b <= 127)%N -> utf8_lead b = (one_byte b, None).
Proof.
  intros H. unfold utf8_lead. rewrite byte_in_true by lia. reflexivity.
Qed.

Lemma lead_two (b : Byte.byte) :
  (194 <= Byte.to_N b <= 223)%N ->
  utf8_lead b
  = (EmptyString, Some {| seen := one_byte b; needed := 1; lower := 128; upper := 191 |}).
Proof.
  intros H. unfold utf8_lead.
  rewrite (byte_in_false 0 127) by lia. rewrite (byte_in_true 194 223) by lia. reflexivity.
Qed.

Lemma lead_three (b : Byte.byte) :
  (224 <= Byte.to_N b <= 239)%N ->
  utf8_lead b
  = (EmptyString,
     Some {| seen := one_byte b; needed := 2;
             lower := if byte_is 224 b then 160 else 128;
             upper := if byte_is 237 b then 159 else 191 |}).
Proof.
  intros H. unfold utf8_lead.
  rewrite (byte_in_false 0 127) by lia. rewrite (byte_in_false 194 223) by lia.
  rewrite (byte_in_true 224 239) by lia. reflexivity.
Qed.

Lemma lead_four (b : Byte.byte) :
  (240 <= Byte.to_N b <= 244)%N ->
  utf8_lead b
  = (EmptyString,
     Some {| seen := one_byte b; needed := 3;
             lower := if byte_is 240 b then 144 else 128;
             upper := if byte_is 244 b then 143 else 191 |}).
Proof.
  intros H. unfold utf8_lead.
  rewrite (byte_in_false 0 127) by lia. rewrite (byte_in_false 194 223) by lia.
  rewrite (byte_in_false 224 239) by lia. rewrite (byte_in_true 240 244) by lia.
  reflexivity.
Qed.

Lemma decode_two (b1 b2 : Byte.byte) (rest : list Byte.byte) :
  (194 <= Byte.to_N b1 <= 223)%N -> (128 <= Byte.to_N b2 <= 191)%N ->
  utf8_decode None (b1 :: b2 :: rest)
  = String.string_of_list_byte [b1; b2] +:+ utf8_decode None rest.
Proof.
  intros H1 H2. cbn [utf8_decode]. rewrite (lead_two b1 H1). cbn [fst snd].
  rewrite byte_in_true by exact H2. reflexivity.
Qed.

Lemma decode_three (b1 b2 b3 : Byte.byte) (rest : list Byte.byte) :
  (224 <= Byte.to_N b1 <= 239)%N ->
  ((if byte_is 224 b1 then 160 else 128) <= Byte.to_N b2
   <= (if byte_is 237 b1 then 159 else 191))%N ->
  (128 <= Byte.to_N b3 <= 191)%N ->
  utf8_decode None (b1 :: b2 :: b3 :: rest)
  = String.string_of_list_byte [b1; b2; b3] +:+ utf8_decode None rest.
Proof.
  intros H1 H2 H3. cbn [utf8_decode]. rewrite (lead_three b1 H1). cbn [fst snd lower upper needed].
  rewrite byte_in_true by exact H2. rewrite byte_in_true by exact H3. reflexivity.
Qed.

Lemma decode_four (b1 b2 b3 b4 : Byte.byte) (rest : list Byte.byte) :
  (240 <= Byte.to_N b1 <= 244)%N ->
  ((if byte_is 240 b1 then 144 else 128) <= Byte.to_N b2
   <= (if byte_is 244 b1 then 143 else 191))%N ->
  (128 <= Byte.to_N b3 <= 191)%N -> (128 <= Byte.to_N b4 <= 191)%N ->
  utf8_decode None (b1 :: b2 :: b3 :: b4 :: rest)
  = String.string_of_list_byte [b1; b2; b3; b4] +:+ utf8_decode None rest.
Proof.
  intros H1 H2 H3 H4. cbn [utf8_decode]. rewrite (lead_four b1 H1).
  cbn [fst snd lower upper needed].
  rewrite byte_in_true by exact H2. rewrite byte_in_true by exact H3.
  rewrite byte_in_true by exact H4. reflexivity.
Qed.

(** Well-formed UTF-8 is decoded to itself. *)
Lemma decode_well_formed (b : list Byte.byte) :
  Expected.well_formed_utf8 b -> Buffer_toString_utf8 b = String.string_of_list_byte b.
Proof.
  unfold Buffer_toString_utf8, Expected.continuation, Expected.code.
  induction 1 as [ | b rest Hb _ IH
                   | b1 b2 rest H1 H2 _ IH
                   | b1 b2 b3 rest H1 H2 H3 _ IH
                   | b1 b2 b3 rest H1 H2 H3 _ IH
                   | b1 b2 b3 rest H1 H2 H3 _ IH
                   | b1 b2 b3 b4 rest H1 H2 H3 H4 _ IH
                   | b1 b2 b3 b4 rest H1 H2 H3 H4 _ IH
                   | b1 b2 b3 b4 rest H1 H2 H3 H4 _ IH ];
    unfold Expected.continuation, Expected.code in *.
  - reflexivity.
  - cbn [utf8_decode]. rewrite (lead_ascii b Hb). cbn [fst snd]. rewrite IH. reflexivity.
  - rewrite decode_two by assumption. rewrite IH. reflexivity.
  - rewrite decode_three; [by rewrite IH | lia | | exact H3].
    rewrite (byte_is_true 224 b1 H1), (byte_is_false 237 b1) by lia. exact H2.
  - rewrite decode_three; [by rewrite IH | lia | | exact H3].
    rewrite (byte_is_false 224 b1), (byte_is_false 237 b1) by lia. exact H2.
  - rewrite decode_three; [by rewrite IH | lia | | exact H3].
    rewrite (byte_is_false 224 b1), (byte_is_true 237 b1 H1) by lia. exact H2.
  - rewrite decode_four; [by rewrite IH | lia | | exact H3 | exact H4].
    rewrite (byte_is_true 240 b1 H1), (byte_is_false 244 b1) by lia. exact H2.
  - rewrite decode_four; [by rewrite IH | lia | | exact H3 | exact H4].
    rewrite (byte_is_false 240 b1), (byte_is_false 244 b1) by lia. exact H2.
  - rewrite decode_four; [by rewrite IH | lia | | exact H3 | exact H4].
    rewrite (byte_is_false 240 b1), (byte_is_true 244 b1 H1) by lia. exact H2.
Qed.

(** What is not well formed comes out as U+FFFD, once for each
    ill-formed part. *)
Example decode_ill_formed :
  Buffer_toString_utf8 [Byte.xff] = U_FFFD /\
  Buffer_toString_utf8 [Byte.xe2; Byte.x82] = U_FFFD /\
  Buffer_toString_utf8 [Byte.xc0; Byte.xaf] = U_FFFD +:+ U_FFFD /\
  Buffer_toString_utf8 [Byte.xed; Byte.xa0; Byte.x80] = U_FFFD +:+ U_FFFD +:+ U_FFFD /\
  Buffer_toString_utf8 [Byte.x61; Byte.xf0; Byte.x9f; Byte.x62] = "a" +:+ U_FFFD +:+ "b".
Proof. repeat split. Qed.

(** The length test followed by [timingSafeEqual] decides equality of
    the two strings and does not throw. *)
Lemma compare_signatures (sig expected : string) :
  (if negb (Nat.eqb (length (Buffer_from sig)) (length (Buffer_from expected)))
   then Normal false
   else timingSafeEqual (Buffer_from sig) (Buffer_from expected))
  = Normal (String.eqb sig expected).
Proof.
  unfold timingSafeEqual.
  destruct (Nat.eqb (length (Buffer_from sig)) (length (Buffer_from expected))) eqn:L; simpl.
  - rewrite bytes_eqb_Buffer_from. reflexivity.
  - destruct (String.eqb_spec sig expected) as [->|]; [|done].
    rewrite Nat.eqb_refl in L. discriminate L.
Qed.

(** Past the guard and the replay check, the verdict is the comparison
    with the expected digest. *)
Lemma verify_past_guard (p : Payload) (sig sec : string) (ts : option string) (now_ms : Z) :
  payload_truthy p = true -> string_truthy sig = true -> string_truthy sec = true ->
  replay_rejected ts now_ms = false ->
  verifyWebhookSignature_try (Some p) (Some sig) (Some sec) ts now_ms
  = Normal (String.eqb sig (SHA256.hmac_hex sec (signature_payload ts (payload_string p)))).
Proof.
  intros Hp Hsig Hsec Hr. unfold verifyWebhookSignature_try.
  rewrite Hp, Hsig, Hsec, Hr. cbn [negb orb]. apply compare_signatures.
Qed.

Lemma verify_try_never_throws (payload : option Payload)
    (sig sec ts : option string) (now_ms : Z) :
  exists b, verifyWebhookSignature_try payload sig sec ts now_ms = Normal b.
Proof.
  unfold verifyWebhookSignature_try.
  destruct payload as [p|], sig as [s|], sec as [k|]; try (eexists; reflexivity).
  destruct (negb (payload_truthy p) || negb (string_truthy s) || negb (string_truthy k));
    [eexists; reflexivity|].
  destruct (replay_rejected ts now_ms); [eexists; reflexivity|].
  rewrite compare_signatures. eexists; reflexivity.
Qed.

(** Signing and then verifying with the same optional timestamp, inside
    the replay window, succeeds. *)
Lemma sign_then_verify (p : Payload) (secret : string) (ts : option string) (now_ms : Z) :
  payload_truthy p = true -> secret <> "" -> replay_rejected ts now_ms = false ->
  verifyWebhookSignature (Some p) (Some (generateWebhookSignature p secret ts))
    (Some secret) ts now_ms = true.
Proof.
  intros Hp Hs Hr. unfold verifyWebhookSignature, generateWebhookSignature.
  rewrite (verify_past_guard p _ secret ts now_ms Hp (hmac_hex_truthy _ _)
             (proj2 (string_truthy_true secret) Hs) Hr).
  apply String.eqb_refl.
Qed.

(** C1, as amended: for every payload that passes the emptiness guard (a
    non-empty string, or any [Buffer]) and every non-empty secret, the
    signature made by [generateWebhookSignature] for that payload and
    secret, with no timestamp, verifies. *)
Theorem generated_signature_verifies (p : Payload) (secret : string) (now_ms : Z) :
  payload_truthy p = true -> secret <> "" ->
  verifyWebhookSignature (Some p) (Some (generateWebhookSignature p secret None))
    (Some secret) None now_ms = true.
Proof.
  intros Hp Hs. apply string_truthy_true in Hs.
  unfold verifyWebhookSignature, generateWebhookSignature.
  rewrite (verify_past_guard p _ secret None now_ms Hp (hmac_hex_truthy _ _) Hs eq_refl).
  unfold signature_payload. apply String.eqb_refl.
Qed.

Lemma generated_signature_verifies_witness :
  payload_truthy Fixtures.payload = true /\ Fixtures.secret <> "" /\
  verifyWebhookSignature (Some Fixtures.payload)
    (Some (generateWebhookSignature Fixtures.payload Fixtures.secret None))
    (Some Fixtures.secret) None 1700000000000 = true.
Proof.
  split; [reflexivity|]. split; [discriminate|].
  apply (generated_signature_verifies Fixtures.payload Fixtures.secret 1700000000000);
    [reflexivity | discriminate].
Defined.

(** C1, as stated, fails on the guard of line 38: the signature of the
    empty string payload is rejected although it was generated for that
    payload and secret. *)
Lemma empty_payload_signature_rejected :
  verifyWebhookSignature (Some (PString ""))
    (Some (generateWebhookSignature (PString "") Fixtures.secret None))
    (Some Fixtures.secret) None 1700000000000 = false.
Proof. reflexivity. Qed.

(** The same holds for the empty secret. *)
Lemma empty_secret_signature_rejected :
  verifyWebhookSignature (Some Fixtures.payload)
    (Some (generateWebhookSignature Fixtures.payload "" None))
    (Some "") None 1700000000000 = false.
Proof. reflexivity. Qed.

(** C2: when the timestamp parses to an integer [n] and the current time
    in seconds is more than 300 away from [n], the verdict is [false],
    whatever the payload, candidate signature and secret are, a correct
    signature included. *)
Theorem stale_timestamp_rejected (payload : option Payload) (sig secret : option string)
    (ts : string) (now_ms n : Z) :
  parseInt ts = Some n ->
  300 < Z.abs (now_ms / 1000 - n) ->
  verifyWebhookSignature payload sig secret (Some ts) now_ms = false.
Proof.
  intros Hn Hd. unfold verifyWebhookSignature, verifyWebhookSignature_try.
  destruct payload as [p|], sig as [s|], secret as [k|]; try reflexivity.
  destruct (negb (payload_truthy p) || negb (string_truthy s) || negb (string_truthy k));
    [reflexivity|].
  assert (replay_rejected (Some ts) now_ms = true) as ->; [|reflexivity].
  unfold replay_rejected. rewrite Hn.
  destruct (string_truthy ts) eqn:T.
  - simpl. apply Z.ltb_lt. exact Hd.
  - apply negb_false_iff, String.eqb_eq in T. subst ts. discriminate Hn.
Qed.

Lemma stale_timestamp_rejected_witness :
  parseInt "1700000000" = Some 1700000000 /\
  300 < Z.abs (1700000301999 / 1000 - 1700000000) /\
  verifyWebhookSignature (Some Fixtures.payload)
    (Some (generateWebhookSignature Fixtures.payload Fixtures.secret (Some "1700000000")))
    (Some Fixtures.secret) (Some "1700000000") 1700000301999 = false.
Proof.
  split; [reflexivity|]. split; [reflexivity|].
  apply (stale_timestamp_rejected _ _ _ "1700000000" 1700000301999 1700000000);
    reflexivity.
Defined.

(** Inside the window a signature generated with the timestamp is
    accepted (the test "should verify signature with timestamp"). *)
Lemma fresh_timestamp_accepted (p : Payload) (secret ts : string) (now_ms n : Z) :
  payload_truthy p = true -> secret <> "" ->
  parseInt ts = Some n ->
  Z.abs (now_ms / 1000 - n) <= 300 ->
  verifyWebhookSignature (Some p) (Some (generateWebhookSignature p secret (Some ts)))
    (Some secret) (Some ts) now_ms = true.
Proof.
  intros Hp Hs Hn Hd. unfold verifyWebhookSignature, generateWebhookSignature.
  rewrite verify_past_guard.
  - apply String.eqb_refl.
  - exact Hp.
  - apply hmac_hex_truthy.
  - by apply string_truthy_true.
  - unfold replay_rejected. rewrite Hn. destruct (string_truthy ts); [|reflexivity].
    simpl. apply Z.ltb_ge. exact Hd.
Qed.

(** The window is closed on both sides and 300 seconds wide: the same
    signed message is accepted exactly 300 seconds late. *)
Example timestamp_at_the_edge_accepted :
  verifyWebhookSignature (Some Fixtures.payload)
    (Some (generateWebhookSignature Fixtures.payload Fixtures.secret (Some "1700000000")))
    (Some Fixtures.secret) (Some "1700000000") 1700000300999 = true.
Proof.
  apply (fresh_timestamp_accepted _ _ "1700000000" 1700000300999 1700000000);
    [reflexivity | discriminate | reflexivity | vm_compute; discriminate].
Qed.

(** The scenario of the specification: the digest of the test payload
    under the test secret, as Node prints it. *)
Example scenario_signature :
  generateWebhookSignature Fixtures.payload Fixtures.secret None
  = "28afea25483951f44d768456712de5c16c61dc4a92f5d4698c101ed63d53c85d".
Proof. vm_compute. reflexivity. Qed.

(** C3, as amended: the [try] block always completes with the boolean
    that is returned, so nothing is thrown for any input; and the result
    is [false] whenever the payload is absent or the empty string, or the
    candidate signature is absent or empty, or the secret is absent or
    empty. (An empty [Buffer] payload is not covered: it passes the
    guard.) *)
Theorem verify_fails_closed (payload : option Payload) (sig secret ts : option string)
    (now_ms : Z) :
  verifyWebhookSignature_try payload sig secret ts now_ms
  = Normal (verifyWebhookSignature payload sig secret ts now_ms) /\
  ((payload = None \/ payload = Some (PString "")) \/
   (sig = None \/ sig = Some "") \/
   (secret = None \/ secret = Some "") ->
   verifyWebhookSignature payload sig secret ts now_ms = false).
Proof.
  split.
  - unfold verifyWebhookSignature.
    destruct (verify_try_never_throws payload sig secret ts now_ms) as [b ->].
    reflexivity.
  - intros H. unfold verifyWebhookSignature, verifyWebhookSignature_try.
    destruct payload as [p|]; [|reflexivity].
    destruct sig as [g|]; [|reflexivity].
    destruct secret as [k|]; [|reflexivity].
    assert (negb (payload_truthy p) || negb (string_truthy g) || negb (string_truthy k)
            = true) as ->; [|reflexivity].
    destruct H as [[H|H] | [[H|H] | [H|H]]]; try discriminate H;
      injection H as ->; simpl; rewrite ?orb_true_r; reflexivity.
Qed.

Lemma verify_fails_closed_witness :
  ((Some (PString "") = None \/ Some (PString "") = Some (PString "")) \/
   (Some "abc" = None \/ Some "abc" = Some "") \/
   (Some Fixtures.secret = None \/ Some Fixtures.secret = Some "")) /\
  verifyWebhookSignature (Some (PString "")) (Some "abc") (Some Fixtures.secret) None 0
  = false.
Proof.
  split; [left; right; reflexivity|].
  apply (proj2 (verify_fails_closed (Some (PString "")) (Some "abc")
                  (Some Fixtures.secret) None 0)).
  left; right; reflexivity.
Defined.

(** C3, as stated, fails for an empty payload that is a [Buffer]: the
    guard tests truthiness, a [Buffer] of length 0 is truthy, and its
    correctly signed (empty) content verifies. *)
Lemma empty_buffer_payload_accepted :
  payload_string (PBuffer []) = "" /\
  verifyWebhookSignature (Some (PBuffer []))
    (Some (generateWebhookSignature (PBuffer []) Fixtures.secret None))
    (Some Fixtures.secret) None 1700000000000 = true.
Proof.
  split; [reflexivity|].
  apply sign_then_verify; [reflexivity | discriminate | reflexivity].
Qed.

(** C10, as amended: for a non-empty timestamp string that [parseInt]
    maps to [NaN] and a non-empty secret, the replay check rejects
    nothing and the current time plays no part: the result is whether
    the candidate equals the hex digest of [timestamp + "." + payload].
    The payload in that string is a non-empty string payload itself, and
    a [Buffer]'s bytes decoded as UTF-8: the bytes themselves when they
    are well formed, and with U+FFFD for each ill-formed part when not. *)
Theorem unparsable_timestamp_skips_replay_check
    (sig secret ts : string) (now_ms : Z) :
  secret <> "" -> ts <> "" -> parseInt ts = None ->
  (forall s, s <> "" ->
     verifyWebhookSignature (Some (PString s)) (Some sig) (Some secret) (Some ts) now_ms
     = String.eqb sig (SHA256.hmac_hex secret (ts +:+ "." +:+ s))) /\
  (forall b, Expected.well_formed_utf8 b ->
     verifyWebhookSignature (Some (PBuffer b)) (Some sig) (Some secret) (Some ts) now_ms
     = String.eqb sig
         (SHA256.hmac_hex secret (ts +:+ "." +:+ String.string_of_list_byte b))) /\
  (forall b,
     verifyWebhookSignature (Some (PBuffer b)) (Some sig) (Some secret) (Some ts) now_ms
     = String.eqb sig (SHA256.hmac_hex secret (ts +:+ "." +:+ Buffer_toString_utf8 b))).
Proof.
  intros Hs Ht Hn. apply string_truthy_true in Hs, Ht.
  assert (replay_rejected (Some ts) now_ms = false) as Hr.
  { unfold replay_rejected. rewrite Ht, Hn. reflexivity. }
  assert (forall p, payload_truthy p = true ->
            verifyWebhookSignature (Some p) (Some sig) (Some secret) (Some ts) now_ms
            = String.eqb sig (SHA256.hmac_hex secret (ts +:+ "." +:+ payload_string p)))
    as Hany.
  { intros p Hp.
    assert (signature_payload (Some ts) (payload_string p)
            = ts +:+ "." +:+ payload_string p) as Hsp.
    { unfold signature_payload. rewrite Ht. reflexivity. }
    unfold verifyWebhookSignature.
    destruct (string_truthy sig) eqn:Hsig.
    - rewrite (verify_past_guard p sig secret (Some ts) now_ms Hp Hsig Hs Hr), Hsp.
      reflexivity.
    - unfold verifyWebhookSignature_try. rewrite Hsig, Hp. simpl.
      apply negb_false_iff, String.eqb_eq in Hsig. subst sig. reflexivity. }
  split; [|split].
  - intros s Hne. apply (Hany (PString s)). by apply string_truthy_true.
  - intros b Hwf. rewrite (Hany (PBuffer b) eq_refl). cbn [payload_string].
    by rewrite (decode_well_formed b Hwf).
  - intros b. apply (Hany (PBuffer b) eq_refl).
Qed.

Lemma unparsable_timestamp_skips_replay_check_witness :
  Fixtures.secret <> "" /\ "soon" <> "" /\ parseInt "soon" = None /\
  verifyWebhookSignature (Some (PBuffer [Byte.xff])) (Some "invalid-signature")
    (Some Fixtures.secret) (Some "soon") 1700000000000
  = String.eqb "invalid-signature"
      (SHA256.hmac_hex Fixtures.secret ("soon" +:+ "." +:+ U_FFFD)).
Proof.
  split; [discriminate|]. split; [discriminate|]. split; [reflexivity|].
  apply (proj2 (proj2 (unparsable_timestamp_skips_replay_check "invalid-signature"
                         Fixtures.secret "soon" 1700000000000
                         ltac:(discriminate) ltac:(discriminate) eq_refl))
           [Byte.xff]).
Defined.

(** C10, as stated, fails twice. The empty timestamp does not parse to a
    number, yet it is falsy: the signing string is then the payload
    alone, so a signature over the payload is accepted although it
    differs from the digest of ["." + payload]. And with an empty string
    payload the guard answers [false] although the candidate equals the
    digest. *)
Lemma unparsable_timestamp_claim_fails :
  (parseInt "" = None /\
   verifyWebhookSignature (Some (PString "p"))
     (Some (generateWebhookSignature (PString "p") Fixtures.secret (Some "")))
     (Some Fixtures.secret) (Some "") 0 = true /\
   String.eqb (generateWebhookSignature (PString "p") Fixtures.secret (Some ""))
     (SHA256.hmac_hex Fixtures.secret ("" +:+ "." +:+ "p")) = false) /\
  (parseInt "soon" = None /\
   verifyWebhookSignature (Some (PString ""))
     (Some (SHA256.hmac_hex Fixtures.secret ("soon" +:+ "." +:+ "")))
     (Some Fixtures.secret) (Some "soon") 0 = false /\
   String.eqb (SHA256.hmac_hex Fixtures.secret ("soon" +:+ "." +:+ ""))
     (SHA256.hmac_hex Fixtures.secret ("soon" +:+ "." +:+ "")) = true).
Proof.
  split; (split; [reflexivity|]); split.
  - apply sign_then_verify; [reflexivity | discriminate | reflexivity].
  - vm_compute. reflexivity.
  - reflexivity.
  - apply String.eqb_refl.
Qed.

End SignatureProps.

(** ** Header extraction *)

Module HeaderProps.
Import SignatureUtils.

Lemma header_names_lowercase :
  toLowerCase ALLOY_SIGNATURE_HEADER = ALLOY_SIGNATURE_HEADER /\
  toLowerCase ALLOY_TIMESTAMP_HEADER = ALLOY_TIMESTAMP_HEADER.
Proof. split; reflexivity. Qed.

(** For a lowercase [name] both lookups of [getHeader] read the same
    key, so the result is a function of [headers !! name] alone. *)
Lemma getHeader_lowercase (headers : gmap string HeaderValue) (name : string) :
  toLowerCase name = name ->
  getHeader headers name =
    match headers !! name with
    | Some (HArray l) => or_null (head l)
    | Some (HString s) => or_null (Some s)
    | None => None
    end.
Proof.
  intros L. unfold getHeader. rewrite L.
  destruct (header_truthy (headers !! name)); reflexivity.
Qed.

Lemma getHeader_insert_other (headers : gmap string HeaderValue) (name k : string)
    (v : HeaderValue) :
  toLowerCase name = name -> k <> name ->
  getHeader (<[k := v]> headers) name = getHeader headers name.
Proof.
  intros L N. rewrite !getHeader_lowercase by exact L.
  rewrite lookup_insert_ne by exact N. reflexivity.
Qed.

(** What the function reads: each header under its exact lowercase
    name. A non-empty string stored there is returned; of a list stored
    there the first entry is returned when it is a non-empty string; a
    header absent under that name yields [null]; the function is total,
    so nothing is thrown. No other key has a part in the result. *)
Lemma extract_reads_exact_lowercase_keys (headers : gmap string HeaderValue) :
  (forall s, s <> "" ->
     (headers !! "x-alloy-signature" = Some (HString s) ->
      signature (extractSignatureFromHeaders headers) = Some s) /\
     (headers !! "x-alloy-timestamp" = Some (HString s) ->
      timestamp (extractSignatureFromHeaders headers) = Some s)) /\
  (forall s l, s <> "" ->
     (headers !! "x-alloy-signature" = Some (HArray (s :: l)) ->
      signature (extractSignatureFromHeaders headers) = Some s) /\
     (headers !! "x-alloy-timestamp" = Some (HArray (s :: l)) ->
      timestamp (extractSignatureFromHeaders headers) = Some s)) /\
  (headers !! "x-alloy-signature" = None ->
   signature (extractSignatureFromHeaders headers) = None) /\
  (headers !! "x-alloy-timestamp" = None ->
   timestamp (extractSignatureFromHeaders headers) = None) /\
  (forall k v, k <> "x-alloy-signature" -> k <> "x-alloy-timestamp" ->
     extractSignatureFromHeaders (<[k := v]> headers)
     = extractSignatureFromHeaders headers).
Proof.
  destruct header_names_lowercase as [Ls Lt].
  assert (forall k v, k <> "x-alloy-signature" -> k <> "x-alloy-timestamp" ->
            extractSignatureFromHeaders (<[k := v]> headers)
            = extractSignatureFromHeaders headers) as Hother.
  { intros k v Ks Kt. unfold extractSignatureFromHeaders. f_equal.
    - by apply getHeader_insert_other.
    - by apply getHeader_insert_other. }
  assert (forall s, s <> "" -> or_null (Some s) = Some s) as Hnn.
  { intros s Hs. unfold or_null.
    destruct (string_truthy s) eqn:E; [reflexivity|].
    apply negb_false_iff, String.eqb_eq in E. contradiction. }
  pose proof (getHeader_lowercase headers _ Ls) as Hsig.
  pose proof (getHeader_lowercase headers _ Lt) as Hts.
  change (getHeader headers ALLOY_SIGNATURE_HEADER)
    with (signature (extractSignatureFromHeaders headers)) in Hsig.
  change (getHeader headers ALLOY_TIMESTAMP_HEADER)
    with (timestamp (extractSignatureFromHeaders headers)) in Hts.
  unfold ALLOY_SIGNATURE_HEADER in Hsig. unfold ALLOY_TIMESTAMP_HEADER in Hts.
  rewrite Hsig, Hts.
  split; [|split; [|split; [|split; [|exact Hother]]]].
  - intros s Hs. split; intros ->; by apply Hnn.
  - intros s l Hs. split; intros ->; by apply Hnn.
  - by intros ->.
  - by intros ->.
Qed.

(** C4: the lookup is not case-insensitive. [getHeader] evaluates
    [headers[name] || headers[name.toLowerCase()]] with [name] one of the
    two constants, which are lowercase already, so the second lookup
    reads the key of the first. A signature stored as
    [X-Alloy-Signature] is not found, where the same value under the
    lowercase name is. *)
Theorem mixed_case_header_not_found :
  toLowerCase "X-Alloy-Signature" = ALLOY_SIGNATURE_HEADER /\
  toLowerCase ALLOY_SIGNATURE_HEADER = ALLOY_SIGNATURE_HEADER /\
  extractSignatureFromHeaders {[ "X-Alloy-Signature" := HString "abc123" ]}
  = {| signature := None; timestamp := None |} /\
  extractSignatureFromHeaders {[ "x-alloy-signature" := HString "abc123" ]}
  = {| signature := Some "abc123"; timestamp := None |}.
Proof. repeat split. Qed.

(** Values that are present but falsy read as [null] too. *)
Example empty_values_read_as_null :
  extractSignatureFromHeaders
    {[ "x-alloy-signature" := HString ""; "x-alloy-timestamp" := HArray [] ]}
  = {| signature := None; timestamp := None |}.
Proof. reflexivity. Qed.

End HeaderProps.

(** ** [withRetry] *)

Module RetryProps.
Import IO Transport Expected.

Section Loop.
Context {W T : Type}.
Variable fn : W -> completion T * W.
Variables maxRetries initialDelay : Z.

Lemma call_fn_run (w : W) :
  call_fn fn w = mkResult (fn w).1 (fn w).2 [EvCall].
Proof. unfold call_fn, bind, emit, perform, after. simpl. reflexivity. Qed.

(** One iteration whose call answers. *)
Lemma loop_step_normal (fuel : nat) (attempt : Z) (lastError : value) (w : W) (v : T) :
  attempt <= maxRetries -> (fn w).1 = Normal v ->
  withRetry_loop fn maxRetries initialDelay (S fuel) attempt lastError w
  = mkResult (Normal v) (fn w).2 [EvCall].
Proof.
  intros Ha Hv. cbn [withRetry_loop].
  rewrite (proj2 (Z.leb_le _ _) Ha).
  unfold try_catch. rewrite call_fn_run. cbn [outcome]. rewrite Hv. reflexivity.
Qed.

(** One iteration whose call throws [e]. *)
Lemma loop_step_throw (fuel : nat) (attempt : Z) (lastError e sc : value) (w : W) :
  attempt <= maxRetries -> (fn w).1 = Throw e -> get e "statusCode" = Normal sc ->
  withRetry_loop fn maxRetries initialDelay (S fuel) attempt lastError w
  = if strict_eq_num sc 429 && (attempt <? maxRetries)
    then after [EvCall; EvSleep (initialDelay * 2 ^ attempt)]
           (withRetry_loop fn maxRetries initialDelay fuel (attempt + 1) e (fn w).2)
    else mkResult (Throw e) (fn w).2 [EvCall].
Proof.
  intros Ha He Hsc. cbn [withRetry_loop].
  rewrite (proj2 (Z.leb_le _ _) Ha).
  unfold try_catch. rewrite call_fn_run. cbn [outcome world trace]. rewrite He.
  unfold bind, of_completion, emit, throw, after. cbn [outcome world trace]. rewrite Hsc.
  destruct (strict_eq_num sc 429 && (attempt <? maxRetries)); cbn [outcome world trace app].
  - destruct (withRetry_loop fn maxRetries initialDelay fuel (attempt + 1) e (fn w).2)
      as [o w' t]. cbn [outcome world trace app]. destruct o; reflexivity.
  - reflexivity.
Qed.

(** With enough fuel the loop ends by itself: the model's bound is never
    the reason for the result. *)
Lemma loop_fuel_suffices (fuel : nat) (attempt : Z) (lastError : value) (w : W) :
  (forall w', (fn w').1 <> OutOfFuel) ->
  (Z.to_nat (maxRetries + 1 - attempt) < fuel)%nat ->
  outcome (withRetry_loop fn maxRetries initialDelay fuel attempt lastError w) <> OutOfFuel.
Proof.
  intros Hfn. revert attempt lastError w.
  induction fuel as [|fuel IH]; intros attempt lastError w Hf; [lia|].
  destruct (Z.leb_spec attempt maxRetries) as [Ha|Ha].
  - destruct (fn w).1 as [v|e|] eqn:E.
    + rewrite (loop_step_normal _ _ _ _ v Ha E). discriminate.
    + destruct (get e "statusCode") as [sc|te|] eqn:G.
      * rewrite (loop_step_throw _ _ _ e sc _ Ha E G).
        destruct (strict_eq_num sc 429 && (attempt <? maxRetries)) eqn:C; [|discriminate].
        apply andb_true_iff in C as [_ C%Z.ltb_lt].
        unfold after. cbn [outcome]. apply IH. lia.
      * cbn [withRetry_loop]. rewrite (proj2 (Z.leb_le _ _) Ha).
        unfold try_catch. rewrite call_fn_run. cbn [outcome world trace]. rewrite E.
        unfold bind, of_completion, after. cbn [outcome]. rewrite G. discriminate.
      * destruct e; discriminate G.
    + exfalso. exact (Hfn w E).
  - cbn [withRetry_loop]. rewrite (proj2 (Z.leb_gt _ _) Ha). discriminate.
Qed.

Lemma withRetry_fuel_suffices (w : W) :
  (forall w', (fn w').1 <> OutOfFuel) ->
  outcome (withRetry fn maxRetries initialDelay w) <> OutOfFuel.
Proof. intros Hfn. apply loop_fuel_suffices; [exact Hfn | lia]. Qed.

(** Rate limited on every call: [k] retries are left at [attempt], all
    of them are used, and the outcome is that of the last call. *)
Lemma loop_rate_limited (k fuel : nat) (attempt : Z) (lastError : value) (w : W) :
  (forall w', exists e, (fn w').1 = Throw e /\ get e "statusCode" = Normal (VNum 429)) ->
  attempt + Z.of_nat k = maxRetries -> (k < fuel)%nat ->
  withRetry_loop fn maxRetries initialDelay fuel attempt lastError w
  = mkResult (fn (world_after fn k w)).1 (fn (world_after fn k w)).2
      (retry_trace initialDelay attempt k).
Proof.
  intros H429. revert fuel attempt lastError w.
  induction k as [|k IH]; intros fuel attempt lastError w Hk Hf;
    (destruct fuel as [|fuel]; [lia|]);
    destruct (H429 w) as (e & He & Hsc);
    assert (attempt <= maxRetries) as Ha by lia;
    rewrite (loop_step_throw fuel attempt lastError e (VNum 429) w Ha He Hsc);
    cbn [strict_eq_num]; rewrite Z.eqb_refl; cbn [andb].
  - rewrite (proj2 (Z.ltb_ge _ _)) by lia. cbn [world_after retry_trace].
    rewrite He. reflexivity.
  - rewrite (proj2 (Z.ltb_lt _ _)) by lia.
    rewrite (IH fuel (attempt + 1) e (fn w).2) by lia. reflexivity.
Qed.

End Loop.

Lemma not_429 (sc : value) : sc <> VNum 429 -> strict_eq_num sc 429 = false.
Proof.
  intros N. destruct sc; try reflexivity. cbn [strict_eq_num].
  apply Z.eqb_neq. congruence.
Qed.

(** C5: an operation that raises an error with [statusCode] 429 on every
    call is invoked, under [maxRetries = 3] and initial delay [d], four
    times, with sleeps of [d], [2d] and [4d] between the calls, and the
    outcome is the error of the fourth call. For any retry budget [m] the
    sleep after 0-indexed attempt [n] is [d * 2 ^ n] ([retry_trace]). *)
Theorem rate_limited_uses_every_retry {W T : Type} (fn : W -> completion T * W)
    (d : Z) (w : W) :
  (forall w', exists e, (fn w').1 = Throw e /\ get e "statusCode" = Normal (VNum 429)) ->
  withRetry fn 3 d w
  = mkResult (fn (world_after fn 3 w)).1 (fn (world_after fn 3 w)).2
      [EvCall; EvSleep d; EvCall; EvSleep (2 * d); EvCall; EvSleep (4 * d); EvCall] /\
  (exists e, (fn (world_after fn 3 w)).1 = Throw e /\
             get e "statusCode" = Normal (VNum 429)) /\
  (forall m, 0 <= m ->
     withRetry fn m d w
     = mkResult (fn (world_after fn (Z.to_nat m) w)).1 (fn (world_after fn (Z.to_nat m) w)).2
         (retry_trace d 0 (Z.to_nat m))).
Proof.
  intros H429.
  assert (forall m, 0 <= m ->
            withRetry fn m d w
            = mkResult (fn (world_after fn (Z.to_nat m) w)).1
                (fn (world_after fn (Z.to_nat m) w)).2 (retry_trace d 0 (Z.to_nat m)))
    as Hall.
  { intros m Hm. unfold withRetry. apply loop_rate_limited; [exact H429 | lia | lia]. }
  split; [|split; [apply H429 | exact Hall]].
  rewrite (Hall 3) by lia.
  change (Z.to_nat 3) with 3%nat. cbn [retry_trace].
  change (2 ^ 0) with 1. change (2 ^ (0 + 1)) with 2. change (2 ^ (0 + 1 + 1)) with 4.
  rewrite Z.mul_1_r, (Z.mul_comm d 2), (Z.mul_comm d 4). reflexivity.
Qed.

Lemma rate_limited_uses_every_retry_witness :
  withRetry Fixtures.rate_limited 3 1000 0
  = mkResult
      (Throw (VObj [("message", VStr "Alloy API Error [HTTP_429]: Too many requests");
                    ("statusCode", VNum 429); ("call", VNum 4)]))
      4
      [EvCall; EvSleep 1000; EvCall; EvSleep 2000; EvCall; EvSleep 4000; EvCall].
Proof.
  refine (proj1 (rate_limited_uses_every_retry Fixtures.rate_limited 1000 0 _)).
  intros w'. eexists. split; reflexivity.
Defined.

(** C6, as amended: when the call raises an error that is not [null]
    or [undefined] and whose [statusCode] is not the number 429, the
    loop ends with that very error after this one call and without a
    sleep; from the start ([withRetry], any retry budget
    [maxRetries >= 0]) that is one call in all. The same holds at every
    later iteration, so nothing but a 429 is ever retried. *)
Theorem other_errors_propagate_at_once {W T : Type} (fn : W -> completion T * W)
    (maxRetries d : Z) (w : W) (e : value) :
  0 <= maxRetries ->
  (fn w).1 = Throw e -> is_nullish e = false -> field e "statusCode" <> VNum 429 ->
  withRetry fn maxRetries d w = mkResult (Throw e) (fn w).2 [EvCall] /\
  (forall fuel attempt lastError, attempt <= maxRetries ->
     withRetry_loop fn maxRetries d (S fuel) attempt lastError w
     = mkResult (Throw e) (fn w).2 [EvCall]).
Proof.
  intros Hm He Hnull Hn.
  assert (get e "statusCode" = Normal (field e "statusCode")) as Hsc.
  { unfold field. destruct e; try discriminate Hnull; reflexivity. }
  assert (forall fuel attempt lastError, attempt <= maxRetries ->
            withRetry_loop fn maxRetries d (S fuel) attempt lastError w
            = mkResult (Throw e) (fn w).2 [EvCall]) as Hany.
  { intros fuel attempt lastError Ha.
    rewrite (loop_step_throw fn maxRetries d fuel attempt lastError e _ w Ha He Hsc).
    rewrite (not_429 _ Hn). reflexivity. }
  split; [|exact Hany].
  unfold withRetry. apply Hany. exact Hm.
Qed.

Lemma other_errors_propagate_at_once_witness :
  withRetry Fixtures.server_error 3 1000 0
  = mkResult
      (Throw (VObj [("message", VStr "Alloy API Error [HTTP_500]: Unknown error");
                    ("statusCode", VNum 500)]))
      1 [EvCall].
Proof.
  refine (proj1 (other_errors_propagate_at_once Fixtures.server_error 3 1000 0
                   _ _ _ _ _)); [lia | reflexivity | reflexivity | discriminate].
Defined.

(** C6, as stated, fails twice. A rejection with [undefined] does not
    have [statusCode] 429, yet it is not rethrown: reading its
    [statusCode] in the [catch] block throws a [TypeError], which is what
    comes out after the one call. And under a retry budget below zero
    the loop body never runs: the operation is not called at all and the
    initial [lastError], [null], is thrown. *)
Lemma rethrow_claim_fails :
  withRetry (fun calls : Z => (Throw (A := value) VUndefined, calls + 1)) 3 1000 0
  = mkResult
      (Throw (TypeError "Cannot read properties of undefined (reading 'statusCode')"))
      1 [EvCall] /\
  withRetry Fixtures.server_error (-1) 1000 0 = mkResult (Throw VNull) 0 [].
Proof. split; reflexivity. Qed.

(** A rate limit that clears is retried until the call answers. *)
Example recovers_on_third_call :
  withRetry Fixtures.recovers 3 1000 0
  = mkResult (Normal (VStr "ok")) 3 [EvCall; EvSleep 1000; EvCall; EvSleep 2000; EvCall].
Proof. reflexivity. Qed.

(** A [statusCode] that is the string "429" is not [=== 429]. *)
Example string_status_not_retried :
  withRetry (fun calls : Z =>
               (Throw (A := value) (VObj [("statusCode", VStr "429")]), calls + 1)) 3 1000 0
  = mkResult (Throw (VObj [("statusCode", VStr "429")])) 1 [EvCall].
Proof. reflexivity. Qed.

End RetryProps.

(** ** The paginated GET and the [returnAll] loop *)

Module PaginationProps.
Import IO Transport EvaluationOps Expected.

Lemma lookup_set_field_ne (k k' : string) (v : value) (fields : list (string * value)) :
  k <> k' -> lookup_field k (set_field k' v fields) = lookup_field k fields.
Proof.
  intros N. induction fields as [|[k0 v0] rest IH]; cbn [set_field lookup_field].
  - destruct (String.eqb_spec k k'); [contradiction | reflexivity].
  - destruct (String.eqb_spec k' k0) as [->|N0]; cbn [lookup_field].
    + destruct (String.eqb_spec k k0); [contradiction | reflexivity].
    + rewrite IH. reflexivity.
Qed.

(** A key that the spread object lacks keeps the value of the literal. *)
Lemma lookup_spread_fields (k : string) (a b : list (string * value)) :
  has_key k b = false -> lookup_field k (spread_fields a b) = lookup_field k a.
Proof.
  unfold spread_fields. revert a.
  induction b as [|[k0 v0] b IH]; intros a Hb; [reflexivity|].
  cbn [has_key existsb fst] in Hb. apply orb_false_iff in Hb as [Hk Hb].
  cbn [fold_left]. rewrite IH by exact Hb.
  apply lookup_set_field_ne. by apply String.eqb_neq.
Qed.

(** Without [page] and [limit] among the filters, the loop's request
    for a page carries that page number and the limit 100. *)
Lemma page_request_fields (filters : list (string * value)) (page : Z) :
  has_key "page" filters = false -> has_key "limit" filters = false -> page <> 0 ->
  field (page_request filters page) "page" = VNum page /\
  field (page_request filters page) "limit" = VNum 100.
Proof.
  intros Hp Hl H0. unfold field, page_request, request_params. cbn [get default].
  rewrite !lookup_spread_fields by assumption.
  cbn [lookup_field String.eqb Ascii.eqb Bool.eqb opt_value Transport.page Transport.limit].
  unfold or_else. cbn [truthy]. rewrite (proj2 (Z.eqb_neq page 0) H0). split; reflexivity.
Qed.

Lemma get_is_total (body : value) (k k' : string) (v : value) :
  get body k = Normal v -> get body k' = Normal (field body k').
Proof. unfold field. destruct body; cbn [get]; intros H; try discriminate H; reflexivity. Qed.

Lemma get_non_nullish (body : value) (k : string) :
  is_nullish body = false -> get body k = Normal (field body k).
Proof. unfold field. destruct body; cbn [get is_nullish]; intros H; try discriminate H; reflexivity. Qed.

Section Client.
Context {W : Type}.
Variable server : string -> value -> W -> completion value * W.

(** The run of [alloyApiGetPaginated] on a response with a body. *)
Lemma paginated_run (endpoint : string) (pagination : PaginationParams)
    (extra : option (list (string * value))) (w : W) (body : value) :
  (server endpoint (VObj (request_params pagination extra)) w).1 = Normal body ->
  is_nullish body = false ->
  alloyApiGetPaginated server endpoint pagination extra w
  = mkResult
      (Normal
         {| success := true;
            data := or_else (field body "data") body;
            pagination :=
              {| pg_page := or_else (field body "page")
                              (lookup_field "page" (request_params pagination extra));
                 pg_limit := or_else (field body "limit")
                               (lookup_field "limit" (request_params pagination extra));
                 pg_total := or_else (field body "total") (VNum 0);
                 pg_hasMore := or_else (field body "has_more") (VBool false) |} |})
      (server endpoint (VObj (request_params pagination extra)) w).2
      [EvGet endpoint (VObj (request_params pagination extra))].
Proof.
  intros Hb Hn. unfold alloyApiGetPaginated, client_get.
  unfold bind, emit, perform, of_completion, ret, after. cbn [outcome world trace].
  rewrite Hb. cbn [outcome world trace].
  rewrite !(get_non_nullish body _ Hn). cbn [outcome world trace app]. reflexivity.
Qed.

End Client.

(** C7, as amended: on a response with a body (not [null]), the
    returned [data] is the body's [data] field when that is truthy (any
    array is) and the bare body otherwise; [pagination.page] and
    [pagination.limit] are the body's fields when truthy and otherwise
    the [page] and [limit] sent in the request, which are the caller's
    (1 and 25 when the caller gives none) unless an additional parameter
    of that name replaces them; [pagination.total] is the body's [total]
    when truthy and 0 otherwise; [pagination.hasMore] is the body's
    [has_more] when truthy and [false] otherwise, a missing field
    included. *)
Theorem paginated_response_mapping {W : Type}
    (server : string -> value -> W -> completion value * W)
    (endpoint : string) (pagination : PaginationParams)
    (extra : option (list (string * value))) (w : W) (body : value) :
  (server endpoint (VObj (request_params pagination extra)) w).1 = Normal body ->
  is_nullish body = false ->
  alloyApiGetPaginated server endpoint pagination extra w
  = mkResult
      (Normal
         {| success := true;
            data := if truthy (field body "data") then field body "data" else body;
            pagination :=
              {| pg_page := if truthy (field body "page") then field body "page"
                            else lookup_field "page" (request_params pagination extra);
                 pg_limit := if truthy (field body "limit") then field body "limit"
                             else lookup_field "limit" (request_params pagination extra);
                 pg_total := if truthy (field body "total") then field body "total"
                             else VNum 0;
                 pg_hasMore := if truthy (field body "has_more") then field body "has_more"
                               else VBool false |} |})
      (server endpoint (VObj (request_params pagination extra)) w).2
      [EvGet endpoint (VObj (request_params pagination extra))] /\
  (has_key "page" (default [] extra) = false ->
   lookup_field "page" (request_params pagination extra)
   = VNum match page pagination with
          | Some p => if p =? 0 then 1 else p
          | None => 1
          end) /\
  (has_key "limit" (default [] extra) = false ->
   lookup_field "limit" (request_params pagination extra)
   = VNum match limit pagination with
          | Some l => if l =? 0 then 25 else l
          | None => 25
          end).
Proof.
  intros Hb Hn. split; [|split].
  - rewrite (paginated_run server _ _ _ _ body Hb Hn). reflexivity.
  - intros Hp. unfold request_params. rewrite lookup_spread_fields by exact Hp.
    cbn [lookup_field String.eqb Ascii.eqb Bool.eqb]. unfold or_else, opt_value.
    destruct (page pagination) as [p|]; cbn [truthy]; [|reflexivity].
    by destruct (p =? 0).
  - intros Hl. unfold request_params. rewrite lookup_spread_fields by exact Hl.
    cbn [lookup_field String.eqb Ascii.eqb Bool.eqb]. unfold or_else, opt_value.
    destruct (limit pagination) as [l|]; cbn [truthy]; [|reflexivity].
    by destruct (l =? 0).
Qed.

Lemma paginated_response_mapping_witness :
  alloyApiGetPaginated Fixtures.bare_list_server "/evaluations"
    {| page := Some 3; limit := Some 50; sort := None; order := None |} None 0%nat
  = mkResult
      (Normal {| success := true;
                 data := VArr (Fixtures.items_from 1 2);
                 pagination := {| pg_page := VNum 3; pg_limit := VNum 50;
                                  pg_total := VNum 0; pg_hasMore := VBool false |} |})
      1%nat
      [EvGet "/evaluations"
         (VObj [("page", VNum 3); ("limit", VNum 50);
                ("sort", VUndefined); ("order", VUndefined)])].
Proof.
  exact (proj1 (paginated_response_mapping Fixtures.bare_list_server "/evaluations"
                  {| page := Some 3; limit := Some 50; sort := None; order := None |}
                  None 0%nat (VArr (Fixtures.items_from 1 2)) eq_refl eq_refl)).
Defined.

(** C7, as stated, fails on fields that are present but falsy: [data]
    is then not the response's [data] field but the whole body, [page]
    is the requested page although the response has one, and [hasMore]
    is [false], not the response's [has_more]. And a [null] body has no
    fields to map: the call throws. *)
Lemma falsy_fields_claim_fails :
  outcome (alloyApiGetPaginated
             (fun (_ : string) (_ : value) (n : nat) =>
                (Normal (VObj [("data", VNull); ("page", VNum 0); ("has_more", VNum 0)]), n))
             "/evaluations" {| page := Some 2; limit := Some 100; sort := None; order := None |}
             None 0%nat)
  = Normal {| success := true;
              data := VObj [("data", VNull); ("page", VNum 0); ("has_more", VNum 0)];
              pagination := {| pg_page := VNum 2; pg_limit := VNum 100;
                               pg_total := VNum 0; pg_hasMore := VBool false |} |} /\
  outcome (alloyApiGetPaginated
             (fun (_ : string) (_ : value) (n : nat) => (Normal VNull, n))
             "/evaluations" {| page := Some 2; limit := Some 100; sort := None; order := None |}
             None 0%nat)
  = Throw (TypeError "Cannot read properties of null (reading 'data')").
Proof. split; reflexivity. Qed.

Section Loop.
Context {W : Type}.
Variable server : string -> value -> W -> completion value * W.
Variable endpoint : string.
Variable filters : list (string * value).
Variable pages : list (list value).
Hypothesis Hserves : serves_pages server endpoint filters pages.

(** One turn of the loop on page [k + 1] of the server's pages. *)
Lemma loop_turn (fuel k : nat) (items acc : list value) (w : W) :
  pages !! k = Some items ->
  exists w',
    returnAll_loop server endpoint filters (S fuel) (Z.of_nat k + 1) (VBool true) acc w
    = after [EvGet endpoint (page_request filters (Z.of_nat k + 1))]
        (returnAll_loop server endpoint filters fuel (Z.of_nat k + 1 + 1)
           (VBool (bool_decide (S k < length pages)%nat)) (acc ++ items) w').
Proof.
  intros Hk. destruct (Hserves k items w Hk) as (body & Hb & Hd & Hm).
  assert (is_nullish body = false) as Hn by (destruct body; done).
  exists (server endpoint (page_request filters (Z.of_nat k + 1)) w).2.
  unfold page_request in Hb |- *.
  cbn [returnAll_loop truthy]. unfold bind, of_completion, ret, after.
  rewrite (paginated_run server endpoint _ _ w body Hb Hn).
  cbn [outcome world trace data pagination pg_hasMore].
  unfold field. rewrite Hd, Hm. unfold or_else. cbn [truthy spread_iterable].
  cbn [outcome world trace app].
  destruct (bool_decide (S k < length pages)%nat); reflexivity.
Qed.

(** The loop from page [length before + 1] on, over the pages [rest]
    that are left. *)
Lemma loop_pages (rest before : list (list value)) (fuel : nat) (acc : list value) (w : W) :
  pages = before ++ rest -> rest <> [] -> (length rest < fuel)%nat ->
  exists w',
    returnAll_loop server endpoint filters fuel (Z.of_nat (length before) + 1)
      (VBool true) acc w
    = mkResult (Normal (acc ++ concat rest)) w'
        (page_requests endpoint filters (Z.of_nat (length before) + 1) (length rest)).
Proof.
  revert before fuel acc w.
  induction rest as [|items rest IH]; intros before fuel acc w Hp Hne Hf; [done|].
  destruct fuel as [|fuel]; [cbn in Hf; lia|].
  assert (pages !! length before = Some items) as Hk.
  { rewrite Hp. apply list_lookup_middle. reflexivity. }
  destruct (loop_turn fuel (length before) items acc w Hk) as (w1 & ->).
  assert (length pages = (length before + S (length rest))%nat) as Hlen.
  { rewrite Hp, length_app. reflexivity. }
  destruct rest as [|next rest]; cbn [length] in Hlen, Hf.
  - rewrite bool_decide_eq_false_2 by lia.
    destruct fuel as [|fuel]; [cbn in Hf; lia|].
    exists w1. cbn [returnAll_loop truthy concat length page_requests].
    unfold ret, after. cbn [outcome world trace]. rewrite !app_nil_r. reflexivity.
  - rewrite bool_decide_eq_true_2 by lia.
    destruct (IH (before ++ [items]) fuel (acc ++ items) w1) as (w2 & Hrun).
    + rewrite Hp, <- app_assoc. reflexivity.
    + done.
    + cbn [length] in Hf |- *. lia.
    + exists w2. rewrite length_app in Hrun. cbn [length] in Hrun.
      replace (Z.of_nat (length before + 1) + 1) with (Z.of_nat (length before) + 1 + 1)
        in Hrun by lia.
      rewrite Hrun. unfold after. cbn [outcome world trace].
      cbn [concat page_requests length app]. rewrite <- app_assoc. reflexivity.
Qed.

End Loop.

(** C8: against a server that holds [pages] (at least one), whose
    filters name neither [page] nor [limit], the [returnAll] branch,
    given fuel for one turn more than there are pages, requests the pages
    1, 2, ... in this order, each with [limit] 100, makes as many
    requests as there are pages, stops at the first answer whose
    [has_more] is [false], and returns the items of all pages in their
    order, each as [{ json: item }]. *)
Theorem returnAll_fetches_pages_in_order {W : Type}
    (server : string -> value -> W -> completion value * W)
    (endpoint : string) (filters : list (string * value)) (pages : list (list value))
    (fuel : nat) (limit : Z) (w : W) :
  serves_pages server endpoint filters pages ->
  pages <> [] -> (length pages < fuel)%nat ->
  has_key "page" filters = false -> has_key "limit" filters = false ->
  (exists w',
     executeEvaluationOperation_list server endpoint filters fuel true limit w
     = mkResult (Normal (map json_item (concat pages))) w'
         (page_requests endpoint filters 1 (length pages))) /\
  length (page_requests endpoint filters 1 (length pages)) = length pages /\
  (forall k, (k < length pages)%nat ->
     page_requests endpoint filters 1 (length pages) !! k
     = Some (EvGet endpoint (page_request filters (Z.of_nat k + 1))) /\
     field (page_request filters (Z.of_nat k + 1)) "page" = VNum (Z.of_nat k + 1) /\
     field (page_request filters (Z.of_nat k + 1)) "limit" = VNum 100).
Proof.
  intros Hs Hne Hf Hp Hl.
  assert (forall n first,
            length (page_requests endpoint filters first n) = n) as Hcount.
  { induction n as [|n IH]; intros first; cbn [page_requests length]; [done|].
    by rewrite IH. }
  assert (forall n k first, (k < n)%nat ->
            page_requests endpoint filters first n !! k
            = Some (EvGet endpoint (page_request filters (first + Z.of_nat k)))) as Hnth.
  { induction n as [|n IH]; intros k first Hk; [lia|].
    destruct k as [|k]; cbn [page_requests]; rewrite lookup_cons.
    - by rewrite Z.add_0_r.
    - rewrite IH by lia. rewrite Nat2Z.inj_succ.
      replace (first + Z.succ (Z.of_nat k)) with (first + 1 + Z.of_nat k) by lia.
      reflexivity. }
  split; [|split; [apply Hcount|]].
  - destruct (loop_pages server endpoint filters pages Hs pages [] fuel [] w eq_refl Hne Hf)
      as (w' & Hrun).
    exists w'. unfold executeEvaluationOperation_list, bind.
    change (Z.of_nat (length (@nil (list value))) + 1) with 1 in Hrun. rewrite Hrun.
    unfold ret, after. cbn [outcome world trace app]. rewrite app_nil_r. reflexivity.
  - intros k Hk. split.
    + rewrite (Hnth _ k 1 Hk). by rewrite (Z.add_comm 1).
    + apply page_request_fields; [exact Hp | exact Hl | lia].
Qed.

(** The mock endpoint serves the pages it holds. *)
Lemma mock_serves_pages (pages : list (list value)) (endpoint : string)
    (filters : list (string * value)) :
  has_key "page" filters = false -> has_key "limit" filters = false ->
  serves_pages (Fixtures.mock_server pages) endpoint filters pages.
Proof.
  intros Hp Hl k items w Hk. unfold Fixtures.mock_server.
  destruct (page_request_fields filters (Z.of_nat k + 1) Hp Hl ltac:(lia)) as [-> _].
  replace (Z.to_nat (Z.of_nat k + 1 - 1)) with k by lia. rewrite Hk.
  eexists. split; [reflexivity|]. cbn [get lookup_field String.eqb Ascii.eqb Bool.eqb default].
  split; [reflexivity|]. do 2 f_equal.
  destruct (Z.ltb_spec (Z.of_nat k + 1) (Z.of_nat (length pages)));
    [rewrite bool_decide_eq_true_2 | rewrite bool_decide_eq_false_2]; (reflexivity || lia).
Qed.

Lemma returnAll_fetches_pages_in_order_witness :
  (exists requests,
     executeEvaluationOperation_list (Fixtures.mock_server Fixtures.three_pages)
       "/evaluations" Fixtures.list_filters 4 true 25 0%nat
     = mkResult (Normal (map json_item (concat Fixtures.three_pages))) requests
         (page_requests "/evaluations" Fixtures.list_filters 1 3)) /\
  length (page_requests "/evaluations" Fixtures.list_filters 1 3) = 3%nat.
Proof.
  pose proof (returnAll_fetches_pages_in_order
                (Fixtures.mock_server Fixtures.three_pages) "/evaluations"
                Fixtures.list_filters Fixtures.three_pages 4 25 0%nat
                (mock_serves_pages Fixtures.three_pages "/evaluations"
                   Fixtures.list_filters eq_refl eq_refl)
                ltac:(discriminate) ltac:(cbn; lia) eq_refl eq_refl) as (Hrun & Hcount & _).
  split; [exact Hrun | exact Hcount].
Defined.

(** The scenario of the specification, run: three pages of 100 items,
    the third with [has_more] false, give 300 items in their order after
    exactly three requests, for the pages 1, 2 and 3 with [limit] 100. *)
Example three_pages_of_100 :
  executeEvaluationOperation_list (Fixtures.mock_server Fixtures.three_pages)
    "/evaluations" Fixtures.list_filters 4 true 25 0%nat
  = mkResult (Normal (map json_item (Fixtures.items_from 1 300))) 3%nat
      [EvGet "/evaluations"
         (VObj [("page", VNum 1); ("limit", VNum 100); ("sort", VUndefined);
                ("order", VUndefined); ("outcome", VStr "approved")]);
       EvGet "/evaluations"
         (VObj [("page", VNum 2); ("limit", VNum 100); ("sort", VUndefined);
                ("order", VUndefined); ("outcome", VStr "approved")]);
       EvGet "/evaluations"
         (VObj [("page", VNum 3); ("limit", VNum 100); ("sort", VUndefined);
                ("order", VUndefined); ("outcome", VStr "approved")])] /\
  length (Fixtures.items_from 1 300) = 300%nat.
Proof. split; vm_compute; reflexivity. Qed.

(** The loop has no bound of its own: against a server whose [has_more]
    never turns false it runs for as long as it is given fuel. *)
Lemma endless_server_never_returns (fuel : nat) (page : Z) (acc : list value) (w : nat) :
  outcome (returnAll_loop
             (fun (_ : string) (_ : value) (n : nat) =>
                (Normal (VObj [("data", VArr []); ("has_more", VBool true)]), S n))
             "/evaluations" [] fuel page (VBool true) acc w)
  = OutOfFuel.
Proof.
  set (srv := fun (_ : string) (_ : value) (n : nat) =>
                (Normal (VObj [("data", VArr []); ("has_more", VBool true)]), S n)).
  revert page acc w. induction fuel as [|fuel IH]; intros page acc w; [reflexivity|].
  cbn [returnAll_loop truthy]. unfold bind at 1.
  rewrite (paginated_run srv "/evaluations"
             {| page := Some page; limit := Some 100; sort := None; order := None |}
             (Some []) w (VObj [("data", VArr []); ("has_more", VBool true)])
             eq_refl eq_refl).
  cbn [outcome world trace data pagination pg_hasMore].
  unfold bind, of_completion, ret, after.
  cbn [field get lookup_field String.eqb Ascii.eqb Bool.eqb or_else truthy spread_iterable
       outcome world trace].
  apply IH.
Qed.

End PaginationProps.

(** ** The webhook handler *)

Module WebhookProps.
Import SignatureUtils WebhookHandler AlloyTrigger Expected.

(** What the signature stage of the validator answers. *)
Lemma signature_check_cases (this : IWebhookFunctions) :
  signature_check this (loaded_secret this)
  = if negb (secret_configured this) then None
    else if negb (signature_present this) then Some missing_signature_error
    else if negb (delivery_verifies this) then Some "Invalid webhook signature"
    else None.
Proof.
  unfold signature_check, secret_configured, signature_present, delivery_verifies.
  destruct (option_truthy (loaded_secret this)); reflexivity.
Qed.

Lemma signature_stage_passed_check (this : IWebhookFunctions) :
  signature_stage_passed this = true <-> signature_check this (loaded_secret this) = None.
Proof.
  rewrite signature_check_cases. unfold signature_stage_passed.
  destruct (secret_configured this), (signature_present this), (delivery_verifies this);
    simpl; split; congruence.
Qed.

Lemma webhook_rejected (this : IWebhookFunctions) (reason : string) :
  validateAlloyWebhook this (loaded_secret this)
  = {| isValid := false; error := Some reason; payload := None |} ->
  webhook this = bad_request reason.
Proof. intros H. unfold webhook. rewrite H. reflexivity. Qed.

(** C9: the responses of the webhook handler.
    - With a secret configured and the header [x-alloy-signature]
      absent (or empty): 400, and the error names the header.
    - With a secret configured and a signature that does not verify:
      400 with [{error: "Invalid webhook signature"}].
    - Past the signature stage, with [event_type] missing from the
      payload: 400 with [{error: "Missing event_type in webhook
      payload"}].
    - Past both, with a non-empty event list that lacks the event type:
      200 with [{received: true, processed: false, reason: "Event type
      not in filter"}] and nothing handed to the workflow.
    - Otherwise: 200 with [{received: true, processed: true}] and the
      execution data handed to the workflow. *)
Theorem webhook_responses (this : IWebhookFunctions) :
  (secret_configured this = true -> signature_present this = false ->
   webhook this = bad_request ("Missing webhook signature header: " +:+ "x-alloy-signature")) /\
  (secret_configured this = true -> signature_present this = true ->
   delivery_verifies this = false ->
   webhook this = bad_request "Invalid webhook signature") /\
  (signature_stage_passed this = true ->
   truthy (lookup_field "event_type" (getBodyData this)) = false ->
   webhook this = bad_request "Missing event_type in webhook payload") /\
  (signature_stage_passed this = true ->
   truthy (lookup_field "event_type" (getBodyData this)) = true ->
   param_events this <> [] ->
   includes (param_events this) (lookup_field "event_type" (getBodyData this)) = false ->
   webhook this = {| workflowData := None; webhookResponse := not_in_filter |}) /\
  (signature_stage_passed this = true ->
   truthy (lookup_field "event_type" (getBodyData this)) = true ->
   param_events this = [] \/
   includes (param_events this) (lookup_field "event_type" (getBodyData this)) = true ->
   webhookResponse (webhook this) = processed /\
   exists items, workflowData (webhook this) = Some [items] /\
     (option_includeRawPayload this = false ->
      items = webhookPayloadToExecutionData (getBodyData this))).
Proof.
  assert (forall et, signature_stage_passed this = true ->
            truthy (lookup_field "event_type" (getBodyData this)) = et ->
            validateAlloyWebhook this (loaded_secret this)
            = if et then {| isValid := true; error := None;
                            payload := Some (getBodyData this) |}
              else {| isValid := false;
                      error := Some "Missing event_type in webhook payload";
                      payload := None |}) as Hpass.
  { intros et Hs%signature_stage_passed_check He. unfold validateAlloyWebhook.
    rewrite Hs, He. by destruct et. }
  split; [|split; [|split; [|split]]].
  - intros Hc Hp. apply webhook_rejected. unfold validateAlloyWebhook.
    rewrite signature_check_cases, Hc, Hp. reflexivity.
  - intros Hc Hp Hv. apply webhook_rejected. unfold validateAlloyWebhook.
    rewrite signature_check_cases, Hc, Hp, Hv. reflexivity.
  - intros Hs He. apply webhook_rejected. exact (Hpass false Hs He).
  - intros Hs He Hev Hin. unfold webhook. rewrite (Hpass true Hs He).
    cbn [isValid payload negb default from_option id]. rewrite Hin.
    destruct (param_events this); [contradiction | reflexivity].
  - intros Hs He Hev. unfold webhook. rewrite (Hpass true Hs He).
    cbn [isValid payload negb default from_option id].
    assert (negb (Nat.eqb (length (param_events this)) 0)
            && negb (includes (param_events this)
                       (lookup_field "event_type" (getBodyData this))) = false) as ->.
    { destruct Hev as [-> | ->]; [reflexivity | apply andb_false_r]. }
    cbn [webhookResponse workflowData]. split; [reflexivity|].
    eexists. split; [reflexivity|]. by intros ->.
Qed.

Lemma webhook_responses_witness :
  webhook (Fixtures.delivery Fixtures.unsigned_headers [] true)
  = bad_request "Missing webhook signature header: x-alloy-signature" /\
  webhook (Fixtures.delivery Fixtures.unsigned_headers ["entity.created"] false)
  = {| workflowData := None; webhookResponse := not_in_filter |} /\
  webhookResponse
    (webhook (Fixtures.delivery Fixtures.unsigned_headers
                ["entity.created"; "evaluation.completed"] false))
  = processed.
Proof.
  split; [|split].
  - apply (proj1 (webhook_responses (Fixtures.delivery Fixtures.unsigned_headers [] true)));
      reflexivity.
  - apply (proj1 (proj2 (proj2 (proj2
             (webhook_responses
                (Fixtures.delivery Fixtures.unsigned_headers ["entity.created"] false))))));
      [reflexivity | reflexivity | discriminate | reflexivity].
  - apply (proj2 (proj2 (proj2 (proj2
             (webhook_responses
                (Fixtures.delivery Fixtures.unsigned_headers
                   ["entity.created"; "evaluation.completed"] false))))));
      [reflexivity | reflexivity | right; reflexivity].
Defined.

(** A delivery signed with the configured secret is accepted and handed
    to the workflow. *)
Example signed_delivery_processed :
  webhook (Fixtures.delivery Fixtures.signed_headers [] true)
  = {| workflowData :=
         Some [[ [("json",
                   VObj [("eventType", VStr "evaluation.completed");
                         ("eventId", VUndefined); ("timestamp", VUndefined);
                         ("entityToken", VUndefined); ("evaluationToken", VUndefined);
                         ("applicationToken", VUndefined); ("data", VObj [])])] ]];
       webhookResponse := processed |}.
Proof. vm_compute. reflexivity. Qed.

(** A signature that does not verify is answered with 400. *)
Example forged_delivery_rejected :
  webhook (Fixtures.delivery
             (<["x-alloy-signature" := HString "invalid-signature"]> Fixtures.unsigned_headers)
             [] true)
  = bad_request "Invalid webhook signature".
Proof. vm_compute. reflexivity. Qed.

(** When the credentials cannot be loaded the handler goes on without a
    secret, and the unsigned delivery is accepted. *)
Example credentials_failure_skips_verification :
  webhookResponse
    (webhook {| req_headers := Fixtures.unsigned_headers;
                getBodyData := Fixtures.event_body;
                param_events := [];
                param_verifySignature := true;
                option_includeRawPayload := false;
                getCredentials := Throw (VObj [("message", VStr "Credentials not found")]);
                Date_now := 1700000000000 |})
  = processed.
Proof. reflexivity. Qed.

End WebhookProps.

(** ** More on the signature verifier and the secrets *)

Module SecretProps.
Import SignatureUtils SecretUtils ValidationUtils Measures.

Lemma replay_rejected_parsed (ts : string) (now_ms n : Z) :
  parseInt ts = Some n ->
  replay_rejected (Some ts) now_ms = (300 <? Z.abs (now_ms / 1000 - n)).
Proof.
  intros Hn. unfold replay_rejected. rewrite Hn.
  destruct (string_truthy ts) eqn:T; [reflexivity|].
  apply negb_false_iff, String.eqb_eq in T. subst ts. discriminate Hn.
Qed.

(** The verdict in terms of the verifier's own parts. *)
Lemma verify_true_iff (payload : option Payload)
    (sig secret ts : option string) (now_ms : Z) :
  verifyWebhookSignature payload sig secret ts now_ms = true <->
  exists p k,
    payload = Some p /\ secret = Some k /\
    payload_truthy p = true /\ k <> "" /\
    replay_rejected ts now_ms = false /\
    sig = Some (SHA256.hmac_hex k (signature_payload ts (payload_string p))).
Proof.
  split.
  - unfold verifyWebhookSignature, verifyWebhookSignature_try.
    destruct payload as [p|], sig as [g|], secret as [k|]; try discriminate.
    destruct (payload_truthy p) eqn:Hp; [|discriminate].
    destruct (string_truthy g) eqn:Hg; [|discriminate].
    destruct (string_truthy k) eqn:Hk; [|discriminate].
    destruct (replay_rejected ts now_ms) eqn:Hr; [discriminate|].
    cbn [negb orb]. rewrite SignatureProps.compare_signatures.
    intros E%String.eqb_eq. exists p, k.
    split; [done|]. split; [done|]. split; [done|].
    split; [by apply SignatureProps.string_truthy_true|].
    split; [done|]. by rewrite E.
  - intros (p & k & -> & -> & Hp & Hk & Hr & ->). unfold verifyWebhookSignature.
    rewrite (SignatureProps.verify_past_guard p _ k ts now_ms Hp
               (SignatureProps.hmac_hex_truthy _ _)
               (proj2 (SignatureProps.string_truthy_true k) Hk) Hr).
    apply String.eqb_refl.
Qed.

(** The replay check passes exactly when there is no timestamp, or an
    empty one, or one that does not parse, or one within 300 seconds of
    the clock. *)
Lemma replay_passes_iff (ts : option string) (now_ms : Z) :
  replay_rejected ts now_ms = false <->
  match ts with
  | Some t =>
      t = "" \/ forall n, parseInt t = Some n -> Z.abs (now_ms / 1000 - n) <= 300
  | None => True
  end.
Proof.
  unfold replay_rejected. destruct ts as [t|]; [|done].
  unfold string_truthy. destruct (String.eqb_spec t "") as [->|Hne]; cbn [negb].
  - split; [by left | done].
  - destruct (parseInt t) as [n|]; cbn [fmap option_fmap option_map].
    + rewrite Z.ltb_ge. split.
      * intros Hd. right. intros m [= <-]. exact Hd.
      * intros [He | Hd]; [contradiction | by apply Hd].
    + split; [|done]. intros _. right. intros n Hn. discriminate Hn.
Qed.

(** X1: [verifyWebhookSignature] answers [true] exactly when the payload
    is a non-empty string or a [Buffer], the secret is not empty, a
    non-empty timestamp that parses lies within 300 seconds of the
    clock, and the candidate is, character for character, the lowercase
    hex digest, under the secret, of the payload's text, with the
    timestamp and a dot in front when there is a non-empty timestamp.
    The text of a [Buffer] is its UTF-8 decoding: for well-formed bytes
    the digest is over the bytes themselves. *)
Theorem verify_accepts_exactly_the_digest (payload : option Payload)
    (sig secret ts : option string) (now_ms : Z) :
  (verifyWebhookSignature payload sig secret ts now_ms = true <->
   exists text k,
     (payload = Some (PString text) /\ text <> "" \/
      exists b, payload = Some (PBuffer b) /\ text = Buffer_toString_utf8 b) /\
     secret = Some k /\ k <> "" /\
     match ts with
     | Some t =>
         if String.eqb t "" then sig = Some (SHA256.hmac_hex k text)
         else (forall n, parseInt t = Some n -> Z.abs (now_ms / 1000 - n) <= 300) /\
              sig = Some (SHA256.hmac_hex k (t +:+ "." +:+ text))
     | None => sig = Some (SHA256.hmac_hex k text)
     end) /\
  (forall b k, Expected.well_formed_utf8 b -> k <> "" ->
     verifyWebhookSignature (Some (PBuffer b))
       (Some (SHA256.hmac_hex k (String.string_of_list_byte b))) (Some k) None now_ms
     = true).
Proof.
  split.
  - rewrite verify_true_iff. split.
    + intros (p & k & -> & -> & Hp & Hk & Hr & ->).
      exists (payload_string p), k. split; [|split; [reflexivity|split; [exact Hk|]]].
      * destruct p as [s|b]; [left | right; by exists b].
        split; [reflexivity|]. by apply SignatureProps.string_truthy_true.
      * apply replay_passes_iff in Hr. unfold signature_payload, string_truthy.
        destruct ts as [t|]; [|reflexivity].
        destruct (String.eqb_spec t "") as [->|Hne]; cbn [negb]; [reflexivity|].
        split; [|reflexivity]. by destruct Hr.
    + intros (text & k & Hp & -> & Hk & Hsig).
      assert (exists p, payload = Some p /\ payload_truthy p = true /\ payload_string p = text)
        as (p & -> & Ht & <-).
      { destruct Hp as [[-> Hne] | (b & -> & ->)].
        - exists (PString text). split; [reflexivity|]. split; [|reflexivity].
          by apply SignatureProps.string_truthy_true.
        - exists (PBuffer b). done. }
      exists p, k. split; [reflexivity|]. split; [reflexivity|]. split; [exact Ht|].
      split; [exact Hk|]. rewrite replay_passes_iff.
      unfold signature_payload, string_truthy. destruct ts as [t|]; [|done].
      destruct (String.eqb_spec t "") as [->|Hne]; cbn [negb].
      * split; [by left | exact Hsig].
      * destruct Hsig as [Hd ->]. split; [by right | reflexivity].
  - intros b k Hwf Hk. apply verify_true_iff. exists (PBuffer b), k.
    split; [reflexivity|]. split; [reflexivity|]. split; [reflexivity|].
    split; [exact Hk|]. split; [reflexivity|].
    cbn [signature_payload payload_string]. by rewrite (SignatureProps.decode_well_formed b Hwf).
Qed.

Lemma verify_accepts_exactly_the_digest_witness :
  verifyWebhookSignature (Some (PBuffer [Byte.xff]))
    (Some (SHA256.hmac_hex Fixtures.secret ("1700000000" +:+ "." +:+ U_FFFD)))
    (Some Fixtures.secret) (Some "1700000000") 1700000300999 = true.
Proof.
  apply (proj2 (proj1 (verify_accepts_exactly_the_digest (Some (PBuffer [Byte.xff]))
                         (Some (SHA256.hmac_hex Fixtures.secret
                                  ("1700000000" +:+ "." +:+ U_FFFD)))
                         (Some Fixtures.secret) (Some "1700000000") 1700000300999))).
  exists U_FFFD, Fixtures.secret.
  split; [right; exists [Byte.xff]; split; reflexivity|].
  split; [reflexivity|]. split; [discriminate|].
  split; [|reflexivity]. intros n [= <-]. vm_compute. discriminate.
Defined.

(** X2: a message signed together with a timestamp that parses to [n]
    is accepted exactly while the clock, in whole seconds, is within 300
    seconds of [n], before or after, both ends included. *)
Theorem replay_window_is_300_seconds_inclusive (p : Payload) (secret ts : string)
    (now_ms n : Z) :
  payload_truthy p = true -> secret <> "" -> parseInt ts = Some n ->
  (verifyWebhookSignature (Some p) (Some (generateWebhookSignature p secret (Some ts)))
     (Some secret) (Some ts) now_ms = true
   <-> Z.abs (now_ms / 1000 - n) <= 300).
Proof.
  intros Hp Hs Hn. split.
  - intros Hv. destruct (Z.ltb_spec 300 (Z.abs (now_ms / 1000 - n))) as [Hlate|Hin];
      [exfalso | exact Hin].
    unfold verifyWebhookSignature, verifyWebhookSignature_try in Hv.
    rewrite (replay_rejected_parsed ts now_ms n Hn), (proj2 (Z.ltb_lt _ _) Hlate) in Hv.
    match type of Hv with context [if ?guard then _ else _] => destruct guard end;
      discriminate Hv.
  - intros Hd. by apply SignatureProps.fresh_timestamp_accepted with n.
Qed.

Lemma replay_window_is_300_seconds_inclusive_witness :
  verifyWebhookSignature (Some Fixtures.payload)
    (Some (generateWebhookSignature Fixtures.payload Fixtures.secret (Some "1700000000")))
    (Some Fixtures.secret) (Some "1700000000") 1699999700000 = true.
Proof.
  apply (proj2 (replay_window_is_300_seconds_inclusive Fixtures.payload Fixtures.secret
                  "1700000000" 1699999700000 1700000000 eq_refl ltac:(discriminate) eq_refl)).
  vm_compute. discriminate.
Defined.

(** X3: a secret that [isValidWebhookSecret] accepts is never stopped by
    the verifier's guard: for every payload that passes the guard, its
    generated signature verifies. *)
Theorem valid_secret_signs_and_verifies (p : Payload) (secret : string) (now_ms : Z) :
  isValidWebhookSecret secret = true -> payload_truthy p = true ->
  verifyWebhookSignature (Some p) (Some (generateWebhookSignature p secret None))
    (Some secret) None now_ms = true.
Proof.
  intros Hv Hp. apply SignatureProps.sign_then_verify; [exact Hp | | reflexivity].
  intros ->. discriminate Hv.
Qed.

Lemma valid_secret_signs_and_verifies_witness :
  verifyWebhookSignature (Some Fixtures.payload)
    (Some (generateWebhookSignature Fixtures.payload FixturesMore.strong_secret None))
    (Some FixturesMore.strong_secret) None 0 = true.
Proof.
  apply (valid_secret_signs_and_verifies Fixtures.payload FixturesMore.strong_secret 0);
    reflexivity.
Defined.

Lemma hex_digit_lower_hex (n : Z) :
  0 <= n < 16 -> is_lower_hex (SHA256.hex_digit n) = true.
Proof.
  intros H. replace n with (Z.of_nat (Z.to_nat n)) by lia.
  assert (Z.to_nat n < 16)%nat as Hk by lia.
  revert Hk. generalize (Z.to_nat n) as k. clear H. intros k Hk.
  do 16 (destruct k as [|k]; [reflexivity|]). lia.
Qed.

Lemma byte_value_range (b : Byte.byte) : 0 <= byte_value b < 256.
Proof. destruct b; cbv; split; congruence. Qed.

Lemma hex_pair_lower (b : Byte.byte) :
  is_lower_hex (SHA256.hex_digit (byte_value b / 16)) = true /\
  is_lower_hex (SHA256.hex_digit (byte_value b mod 16)) = true.
Proof.
  pose proof (byte_value_range b) as R. split; apply hex_digit_lower_hex.
  - split; [apply Z.div_pos; lia | apply Z.div_lt_upper_bound; lia].
  - apply Z.mod_pos_bound. lia.
Qed.

Lemma lower_hex_is_token_char (c : ascii) :
  is_lower_hex c = true -> is_token_char c = true.
Proof.
  unfold is_lower_hex, is_token_char.
  intros [H|H]%orb_true_iff.
  - rewrite H, !orb_true_r. reflexivity.
  - assert (in_range 97 122 c = true) as ->; [|reflexivity].
    unfold in_range in H |- *.
    apply andb_true_iff in H as [H1%Nat.leb_le H2%Nat.leb_le].
    apply andb_true_iff. split; apply Nat.leb_le; lia.
Qed.

Lemma lower_hex_not_upper (c : ascii) :
  is_lower_hex c = true -> in_range 65 90 c = false.
Proof.
  unfold is_lower_hex, in_range.
  intros [H|H]%orb_true_iff; apply andb_true_iff in H as [H1%Nat.leb_le H2%Nat.leb_le];
    apply andb_false_iff; [left | right]; apply Nat.leb_gt; lia.
Qed.

Lemma token_length (random : list Byte.byte) :
  String.length (generateSecureToken random) = (2 * length random)%nat.
Proof.
  unfold generateSecureToken.
  induction random as [|b r IH]; cbn [Buffer_toString_hex String.length length]; [done|].
  rewrite IH. lia.
Qed.

Lemma token_lower_hex (random : list Byte.byte) :
  all_chars is_lower_hex (generateSecureToken random) = true.
Proof.
  unfold generateSecureToken.
  induction random as [|b r IH]; cbn [Buffer_toString_hex all_chars]; [done|].
  destruct (hex_pair_lower b) as [-> ->]. exact IH.
Qed.

Lemma all_chars_impl (p q : ascii -> bool) (s : string) :
  (forall c, p c = true -> q c = true) -> all_chars p s = true -> all_chars q s = true.
Proof.
  intros Hpq. induction s as [|c r IH]; cbn [all_chars]; [done|].
  intros [Hc Hr]%andb_true_iff. rewrite (Hpq c Hc), (IH Hr). reflexivity.
Qed.

(** X4: the token made from [n] random bytes has [2 n] characters, all
    of them lowercase hexadecimal digits, and it has the format of an
    Alloy token exactly when [4 <= n <= 32], the default of 32 bytes
    included. *)
Theorem secure_token_shape (random : list Byte.byte) :
  String.length (generateSecureToken random) = (2 * length random)%nat /\
  all_chars is_lower_hex (generateSecureToken random) = true /\
  (isValidAlloyToken (generateSecureToken random) = true
   <-> (4 <= length random <= 32)%nat).
Proof.
  split; [apply token_length|]. split; [apply token_lower_hex|].
  unfold isValidAlloyToken.
  rewrite (all_chars_impl _ _ _ lower_hex_is_token_char (token_lower_hex random)).
  rewrite token_length. cbn [andb]. rewrite andb_true_iff, !Nat.leb_le. lia.
Qed.

Lemma has_char_none (p q : ascii -> bool) (s : string) :
  (forall c, p c = true -> q c = false) -> all_chars p s = true -> has_char q s = false.
Proof.
  intros Hpq. induction s as [|c r IH]; cbn [all_chars has_char]; [done|].
  intros [Hc Hr]%andb_true_iff. rewrite (Hpq c Hc), (IH Hr). reflexivity.
Qed.

(** X5: no token of [generateSecureToken], whatever its length, is a
    valid webhook secret for [isValidWebhookSecret]: hexadecimal output
    has no capital letter. *)
Theorem secure_token_is_never_a_valid_secret (random : list Byte.byte) :
  isValidWebhookSecret (generateSecureToken random) = false.
Proof.
  unfold isValidWebhookSecret.
  destruct (utf16_length (generateSecureToken random) <? 32)%nat; [reflexivity|].
  rewrite (has_char_none _ _ _ lower_hex_not_upper (token_lower_hex random)).
  cbn [andb]. by rewrite andb_false_r.
Qed.

(** X6: whatever the data, [hashForLogging] returns eight lowercase
    hexadecimal digits followed by three dots, eleven characters in
    all. *)
Theorem hashForLogging_shape (data : string) :
  exists digits,
    hashForLogging data = digits +:+ "..." /\
    String.length digits = 8%nat /\
    all_chars is_lower_hex digits = true /\
    String.length (hashForLogging data) = 11%nat.
Proof.
  unfold hashForLogging, sha256_hex.
  set (s := SHA256.digest_state (SHA256.bytes_of_string data)).
  exists (SHA256.hex_word (SHA256.ha s) EmptyString).
  assert (String.substring 0 8 (SHA256.hex_state s) = SHA256.hex_word (SHA256.ha s) EmptyString)
    as ->.
  { unfold SHA256.hex_state. unfold SHA256.hex_word at 1.
    cbn [String.substring]. unfold SHA256.hex_word at 2.
    destruct (SHA256.hex_word (SHA256.hb s) _); reflexivity. }
  split; [reflexivity|]. split; [reflexivity|]. split; [|reflexivity].
  unfold SHA256.hex_word. cbn [all_chars].
  rewrite !hex_digit_lower_hex; [reflexivity | ..]; apply Z.mod_pos_bound; lia.
Qed.

End SecretProps.

(** ** The response interceptor, alone and under [withRetry] *)

Module ClientProps.
Import IO Transport Expected AlloyClient Measures.




Lemma primitive_printed (v : value) :
  primitive v -> JsText.to_string v = Normal (printed v).
Proof.
  destruct v as [| |[|]| | | |]; cbn [primitive]; intros H; (reflexivity || contradiction).
Qed.

(** X7: an HTTP error (an error with a [response] holding [status] [n]
    and the body [data]) is rejected as an [Error] whose [statusCode] is
    [n] and whose [response] is the body. Its [errorCode] is the body's
    [error.code] when that is truthy and ["HTTP_" n] otherwise, so it is
    never empty. Its message is ["Alloy API Error [" code "]: " message],
    the message being the body's [error.message] when truthy, else the
    body's [message] when truthy, else ["Unknown error"]. The three
    fields of the body may be absent, [null], or any string, number or
    boolean. *)
Theorem http_error_is_normalised (status : Z) (data error response : value) :
  get error "response" = Normal response -> truthy response = true ->
  get response "status" = Normal (VNum status) ->
  get response "data" = Normal data ->
  primitive (optional_get (optional_get data "error") "code") ->
  primitive (optional_get (optional_get data "error") "message") ->
  primitive (optional_get data "message") ->
  let code :=
    if truthy (optional_get (optional_get data "error") "code")
    then optional_get (optional_get data "error") "code"
    else VStr ("HTTP_" +:+ number_to_string status) in
  let message :=
    if truthy (optional_get (optional_get data "error") "message")
    then optional_get (optional_get data "error") "message"
    else if truthy (optional_get data "message") then optional_get data "message"
    else VStr "Unknown error" in
  response_error_interceptor error
  = Throw (VObj [("name", VStr "Error");
                 ("message",
                  VStr ("Alloy API Error [" +:+ printed code +:+ "]: " +:+ printed message));
                 ("statusCode", VNum status);
                 ("errorCode", code);
                 ("response", data)]) /\
  truthy code = true.
Proof.
  intros Hr Ht Hs Hd Hc Hm1 Hm2. cbv zeta.
  unfold response_error_interceptor. rewrite Hr, Ht, Hs, Hd.
  unfold errorCode_of, errorMessage_of, or_else.
  set (code := optional_get (optional_get data "error") "code") in *.
  set (m1 := optional_get (optional_get data "error") "message") in *.
  set (m2 := optional_get data "message") in *.
  assert (JsText.to_string
            (if truthy (if truthy m1 then m1 else m2)
             then if truthy m1 then m1 else m2 else VStr "Unknown error")
          = Normal (printed (if truthy m1 then m1
                             else if truthy m2 then m2 else VStr "Unknown error"))) as Hmsg.
  { destruct (truthy m1) eqn:T1.
    - rewrite T1. by apply primitive_printed.
    - destruct (truthy m2) eqn:T2; [by apply primitive_printed | reflexivity]. }
  destruct (truthy code) eqn:Tc.
  - rewrite (primitive_printed code Hc), Hmsg. split; [reflexivity | exact Tc].
  - cbn [JsText.to_string]. rewrite Hmsg. split; reflexivity.
Qed.

Lemma http_error_is_normalised_witness :
  response_error_interceptor (FixturesMore.axios_error 402 FixturesMore.quota_body)
  = Throw (VObj [("name", VStr "Error");
                 ("message", VStr "Alloy API Error [1402]: Quota used up");
                 ("statusCode", VNum 402);
                 ("errorCode", VNum 1402);
                 ("response", FixturesMore.quota_body)]).
Proof.
  refine (proj1 (http_error_is_normalised 402 FixturesMore.quota_body
                   (FixturesMore.axios_error 402 FixturesMore.quota_body)
                   (VObj [("status", VNum 402); ("data", FixturesMore.quota_body)])
                   eq_refl eq_refl eq_refl eq_refl _ _ _)); exact I.
Defined.

(** The chain of the message, link by link. *)
Example error_message_chain :
  get (match response_error_interceptor
               (FixturesMore.axios_error 500
                  (VObj [("error", VObj [("message", VNull)]); ("message", VStr "Down")]))
       with Throw e => e | _ => VNull end) "message"
  = Normal (VStr "Alloy API Error [HTTP_500]: Down") /\
  get (match response_error_interceptor
               (FixturesMore.axios_error 500 (VObj [("error", VStr "broken")]))
       with Throw e => e | _ => VNull end) "message"
  = Normal (VStr "Alloy API Error [HTTP_500]: Unknown error").
Proof. split; reflexivity. Qed.






(** X10: a request that times out (no response, code [ECONNABORTED])
    is rejected with the timeout error and is not retried either. *)
Theorem timeout_is_not_retried {W : Type} (raw : W -> completion value * W)
    (m d : Z) (w : W) (error response : value) :
  (raw w).1 = Throw error ->
  get error "response" = Normal response -> truthy response = false ->
  get error "code" = Normal (VStr "ECONNABORTED") -> 0 <= m ->
  withRetry (intercepted raw) m d w
  = mkResult (Throw (Error "Request timeout - Alloy API did not respond in time"))
      (raw w).2 [EvCall].
Proof.
  intros He Hr Ht Hc Hm.
  assert ((intercepted raw w).1
          = Throw (Error "Request timeout - Alloy API did not respond in time")) as H1.
  { unfold intercepted, response_error_interceptor. rewrite He, Hr, Ht, Hc. reflexivity. }
  assert ((intercepted raw w).2 = (raw w).2) as H2.
  { unfold intercepted. rewrite He. reflexivity. }
  unfold withRetry.
  rewrite (RetryProps.loop_step_throw (intercepted raw) m d _ 0 VNull _ VUndefined w Hm H1 eq_refl).
  cbn [strict_eq_num andb]. rewrite H2. reflexivity.
Qed.

Lemma timeout_is_not_retried_witness :
  withRetry (intercepted FixturesMore.timed_out) 3 1000 0
  = mkResult (Throw (Error "Request timeout - Alloy API did not respond in time")) 1 [EvCall].
Proof.
  refine (timeout_is_not_retried FixturesMore.timed_out 3 1000 0 _ VUndefined
            eq_refl eq_refl eq_refl eq_refl _). lia.
Defined.

End ClientProps.

(** ** More on [withRetry] *)

Module RetryBounds.
Import IO Transport Expected Measures.

Section Loop.
Context {W T : Type}.
Variable fn : W -> completion T * W.
Variables maxRetries initialDelay : Z.

(** [k] rate-limited calls and then an answer. *)
Lemma loop_recovers (k fuel : nat) (attempt : Z) (lastError : value) (w : W) (v : T) :
  attempt + Z.of_nat k <= maxRetries -> (k < fuel)%nat ->
  (forall i, (i < k)%nat ->
     exists e, (fn (world_after fn i w)).1 = Throw e /\
               get e "statusCode" = Normal (VNum 429)) ->
  (fn (world_after fn k w)).1 = Normal v ->
  withRetry_loop fn maxRetries initialDelay fuel attempt lastError w
  = mkResult (Normal v) (fn (world_after fn k w)).2 (retry_trace initialDelay attempt k).
Proof.
  revert fuel attempt lastError w.
  induction k as [|k IH]; intros fuel attempt lastError w Ha Hf Hfail Hv;
    (destruct fuel as [|fuel]; [lia|]).
  - cbn [world_after] in Hv |- *.
    rewrite (RetryProps.loop_step_normal fn maxRetries initialDelay fuel attempt lastError w v)
      by (lia || exact Hv).
    reflexivity.
  - destruct (Hfail 0%nat ltac:(lia)) as (e & He & Hsc). cbn [world_after] in He.
    assert (attempt <= maxRetries) as Hle by lia.
    rewrite (RetryProps.loop_step_throw fn maxRetries initialDelay fuel attempt lastError
               e (VNum 429) w Hle He Hsc).
    cbn [strict_eq_num]. rewrite Z.eqb_refl. cbn [andb].
    rewrite (proj2 (Z.ltb_lt _ _)) by lia.
    rewrite (IH fuel (attempt + 1) e (fn w).2) by
      (lia || (intros i Hi; apply (Hfail (S i)); lia) || exact Hv).
    reflexivity.
Qed.


End Loop.

(** X11: an operation that is rate limited [k] times, [k] within the
    retry budget, and then answers is called [k + 1] times, with the
    [k] back-off sleeps in between, and its answer is returned. *)
Theorem retries_until_the_call_answers {W T : Type} (fn : W -> completion T * W)
    (maxRetries d : Z) (k : nat) (w : W) (v : T) :
  Z.of_nat k <= maxRetries ->
  (forall i, (i < k)%nat ->
     exists e, (fn (world_after fn i w)).1 = Throw e /\
               get e "statusCode" = Normal (VNum 429)) ->
  (fn (world_after fn k w)).1 = Normal v ->
  withRetry fn maxRetries d w
  = mkResult (Normal v) (fn (world_after fn k w)).2 (retry_trace d 0 k).
Proof.
  intros Hk Hfail Hv. unfold withRetry.
  apply loop_recovers; [lia | lia | exact Hfail | exact Hv].
Qed.

Lemma retries_until_the_call_answers_witness :
  withRetry Fixtures.recovers 3 1000 0
  = mkResult (Normal (VStr "ok")) 3
      [EvCall; EvSleep (1000 * 2 ^ 0); EvCall; EvSleep (1000 * 2 ^ (0 + 1)); EvCall].
Proof.
  refine (retries_until_the_call_answers Fixtures.recovers 3 1000 2 0 (VStr "ok") _ _ eq_refl);
    [lia|].
  intros i Hi. destruct i as [|[|i]]; [| |lia]; eexists; split; reflexivity.
Defined.


End RetryBounds.

(** ** More on the paginated lists *)

Module ListProps.
Import IO Transport EvaluationOps Expected Measures.

Lemma bind_normal {W A B : Type} (m : io W A) (k : A -> io W B) (w w1 : W) (a : A)
    (t : list event) :
  m w = mkResult (Normal a) w1 t -> bind m k w = after t (k a w1).
Proof. intros H. unfold bind. rewrite H. reflexivity. Qed.

Lemma bind_throw {W A B : Type} (m : io W A) (k : A -> io W B) (w w1 : W) (e : value)
    (t : list event) :
  m w = mkResult (Throw e) w1 t -> bind m k w = mkResult (Throw e) w1 t.
Proof. intros H. unfold bind. rewrite H. reflexivity. Qed.

Lemma lookup_set_field_eq (k : string) (v : value) (fields : list (string * value)) :
  lookup_field k (set_field k v fields) = v.
Proof.
  induction fields as [|[k0 v0] rest IH]; cbn [set_field lookup_field].
  - by rewrite String.eqb_refl.
  - destruct (String.eqb_spec k k0) as [->|N]; cbn [lookup_field].
    + by rewrite String.eqb_refl.
    + destruct (String.eqb_spec k k0); [contradiction | exact IH].
Qed.

Lemma has_key_false_not_in (k : string) (fields : list (string * value)) :
  has_key k fields = false <-> k ∉ fields.*1.
Proof.
  induction fields as [|[k0 v0] rest IH]; cbn [has_key existsb fmap list_fmap fst].
  - split; [intros _; apply not_elem_of_nil | done].
  - rewrite orb_false_iff, not_elem_of_cons.
    unfold has_key in IH. rewrite IH. cbn [fst].
    destruct (String.eqb_spec k k0); split; intros [? ?]; split; congruence.
Qed.

(** The spread writes each own key of the second object over the
    literal's value. *)
Lemma lookup_spread_override (k : string) (a b : list (string * value)) :
  NoDup b.*1 -> has_key k b = true ->
  lookup_field k (spread_fields a b) = lookup_field k b.
Proof.
  unfold spread_fields. revert a.
  induction b as [|[k0 v0] b IH]; intros a Hnd Hk; [discriminate Hk|].
  apply NoDup_cons in Hnd as [Hk0 Hnd]. cbn [fold_left fst snd lookup_field].
  destruct (String.eqb_spec k k0) as [->|N].
  - change (fold_left (fun acc kv => set_field kv.1 kv.2 acc) b (set_field k0 v0 a))
      with (spread_fields (set_field k0 v0 a) b).
    rewrite PaginationProps.lookup_spread_fields by (by apply has_key_false_not_in).
    apply lookup_set_field_eq.
  - apply IH; [exact Hnd|].
    cbn [has_key existsb fst] in Hk. apply orb_true_iff in Hk as [Hk|Hk]; [|exact Hk].
    apply String.eqb_eq in Hk. contradiction.
Qed.

(** X13: the additional parameters are spread last into the query, so
    a filter named like one of the pagination parameters ([page],
    [limit], [sort], [order]) replaces the value that
    [alloyApiGetPaginated] computed for it. *)
Theorem filters_override_pagination (pagination : PaginationParams)
    (filters : list (string * value)) (k : string) :
  NoDup filters.*1 -> has_key k filters = true ->
  lookup_field k (request_params pagination (Some filters)) = lookup_field k filters.
Proof. intros Hnd Hk. unfold request_params. by apply lookup_spread_override. Qed.

Lemma filters_override_pagination_witness :
  lookup_field "page"
    (request_params {| page := Some 3; limit := Some 100; sort := None; order := None |}
       (Some [("outcome", VStr "approved"); ("page", VNum 7)]))
  = VNum 7.
Proof.
  refine (filters_override_pagination _ [("outcome", VStr "approved"); ("page", VNum 7)]
            "page" _ eq_refl).
  apply NoDup_cons. split; [|apply NoDup_singleton].
  intros H%list_elem_of_singleton. discriminate H.
Defined.

Section Loop.
Context {W : Type}.
Variable server : string -> value -> W -> completion value * W.
Variable endpoint : string.
Variable filters : list (string * value).

(** One turn of the loop whose request is answered. *)
Lemma turn_answered (fuel : nat) (page : Z) (acc items : list value) (more : bool)
    (w : W) (body : value) :
  (server endpoint (page_request filters page) w).1 = Normal body ->
  get body "data" = Normal (VArr items) ->
  get body "has_more" = Normal (VBool more) ->
  returnAll_loop server endpoint filters (S fuel) page (VBool true) acc w
  = after [EvGet endpoint (page_request filters page)]
      (returnAll_loop server endpoint filters fuel (page + 1) (VBool more) (acc ++ items)
         (server endpoint (page_request filters page) w).2).
Proof.
  intros Hb Hd Hm.
  assert (is_nullish body = false) as Hn by (destruct body; done).
  unfold page_request in Hb |- *.
  cbn [returnAll_loop truthy]. unfold bind, of_completion, ret, after.
  rewrite (PaginationProps.paginated_run server endpoint _ _ w body Hb Hn).
  cbn [outcome world trace data pagination pg_hasMore].
  unfold field. rewrite Hd, Hm. unfold or_else. cbn [truthy spread_iterable].
  cbn [outcome world trace app].
  destruct more; reflexivity.
Qed.

Lemma client_get_run (params : value) (w : W) :
  client_get server endpoint params w
  = mkResult (server endpoint params w).1 (server endpoint params w).2
      [EvGet endpoint params].
Proof. unfold client_get, bind, emit, perform, after. reflexivity. Qed.

(** A rejected request is the rejection of [alloyApiGetPaginated]. *)
Lemma paginated_rejected (pagination : PaginationParams)
    (extra : option (list (string * value))) (w : W) (e : value) :
  (server endpoint (VObj (request_params pagination extra)) w).1 = Throw e ->
  alloyApiGetPaginated server endpoint pagination extra w
  = mkResult (Throw e) (server endpoint (VObj (request_params pagination extra)) w).2
      [EvGet endpoint (VObj (request_params pagination extra))].
Proof.
  intros He. unfold alloyApiGetPaginated. cbv zeta. unfold bind at 1.
  rewrite client_get_run. cbn [outcome world trace]. rewrite He. reflexivity.
Qed.

(** One turn of the loop whose request is rejected. *)
Lemma turn_rejected (fuel : nat) (page : Z) (acc : list value) (w : W) (e : value) :
  (server endpoint (page_request filters page) w).1 = Throw e ->
  returnAll_loop server endpoint filters (S fuel) page (VBool true) acc w
  = mkResult (Throw e) (server endpoint (page_request filters page) w).2
      [EvGet endpoint (page_request filters page)].
Proof.
  intros He. unfold page_request in He |- *.
  cbn [returnAll_loop truthy]. unfold bind at 1.
  rewrite (paginated_rejected _ _ w e He). reflexivity.
Qed.

Lemma loop_fails_after (rest before : list (list value)) (pages : list (list value))
    (e : value) (fuel : nat) (acc : list value) (w : W) :
  serves_then_fails server endpoint filters pages e ->
  pages = before ++ rest -> (length rest < fuel)%nat ->
  exists w',
    returnAll_loop server endpoint filters fuel (Z.of_nat (length before) + 1)
      (VBool true) acc w
    = mkResult (Throw e) w'
        (page_requests endpoint filters (Z.of_nat (length before) + 1) (S (length rest))).
Proof.
  intros [Hserve Hfail]. revert before fuel acc w.
  induction rest as [|items rest IH]; intros before fuel acc w Hp Hf;
    (destruct fuel as [|fuel]; [cbn in Hf; lia|]).
  - rewrite app_nil_r in Hp. subst before.
    eexists. rewrite (turn_rejected fuel _ acc w e (Hfail w)). reflexivity.
  - assert (pages !! length before = Some items) as Hk.
    { rewrite Hp. apply list_lookup_middle. reflexivity. }
    destruct (Hserve _ items w Hk) as (body & Hb & Hd & Hm).
    rewrite (turn_answered fuel _ acc items true w body Hb Hd Hm).
    destruct (IH (before ++ [items]) fuel (acc ++ items)
                (server endpoint (page_request filters (Z.of_nat (length before) + 1)) w).2)
      as (w' & Hrun).
    + rewrite Hp, <- app_assoc. reflexivity.
    + cbn [length] in Hf. lia.
    + exists w'. rewrite length_app in Hrun. cbn [length] in Hrun.
      replace (Z.of_nat (length before + 1) + 1) with (Z.of_nat (length before) + 1 + 1)
        in Hrun by lia.
      rewrite Hrun. unfold after. cbn [outcome world trace length page_requests app].
      reflexivity.
Qed.

(** The loop against a server that always announces more. *)
Lemma loop_never_ends (fuel : nat) (page : Z) (acc : list value) (w : W) :
  always_has_more server endpoint filters ->
  outcome (returnAll_loop server endpoint filters fuel page (VBool true) acc w) = OutOfFuel /\
  length (trace (returnAll_loop server endpoint filters fuel page (VBool true) acc w)) = fuel.
Proof.
  intros Hmore. revert page acc w.
  induction fuel as [|fuel IH]; intros page acc w; [split; reflexivity|].
  destruct (Hmore page w) as (body & items & Hb & Hd & Hm).
  rewrite (turn_answered fuel page acc items true w body Hb Hd Hm).
  unfold after. cbn [outcome trace app length].
  destruct (IH (page + 1) (acc ++ items) (server endpoint (page_request filters page) w).2)
    as [-> ->].
  split; reflexivity.
Qed.

End Loop.

(** X14: when the server answers the first [n] page requests (always
    announcing more) and rejects the next one, the [returnAll] branch
    ends with that rejection after [n + 1] requests: the items gathered
    from the pages before are not returned. *)
Theorem returnAll_fails_with_the_failing_page {W : Type}
    (server : string -> value -> W -> completion value * W)
    (endpoint : string) (filters : list (string * value)) (pages : list (list value))
    (e : value) (fuel : nat) (limit : Z) (w : W) :
  serves_then_fails server endpoint filters pages e -> (length pages < fuel)%nat ->
  exists w',
    executeEvaluationOperation_list server endpoint filters fuel true limit w
    = mkResult (Throw e) w' (page_requests endpoint filters 1 (S (length pages))).
Proof.
  intros Hs Hf.
  destruct (loop_fails_after server endpoint filters pages [] pages e fuel [] w Hs eq_refl Hf)
    as (w' & Hrun).
  exists w'. unfold executeEvaluationOperation_list, bind.
  change (Z.of_nat (length (@nil (list value))) + 1) with 1 in Hrun. rewrite Hrun.
  reflexivity.
Qed.

Lemma returnAll_fails_with_the_failing_page_witness :
  exists w',
    executeEvaluationOperation_list FixturesMore.breaks_after_two_pages "/evaluations" []
      5 true 25 0%nat
    = mkResult (Throw FixturesMore.server_failure) w' (page_requests "/evaluations" [] 1 3).
Proof.
  apply (returnAll_fails_with_the_failing_page FixturesMore.breaks_after_two_pages
           "/evaluations" [] [[VStr "first"]; [VStr "second"]] FixturesMore.server_failure
           5 25 0%nat).
  - split.
    + intros [|[|k]] items w Hk; [| |discriminate Hk];
        injection Hk as <-; eexists; repeat split; reflexivity.
    + intros w. reflexivity.
  - cbn. lia.
Defined.

(** X15: the [returnAll] loop has no bound of its own. Against a server
    that has a page for every request and always announces more, it
    never returns: given any amount of fuel it uses it all, one request
    a turn. *)
Theorem returnAll_has_no_page_limit {W : Type}
    (server : string -> value -> W -> completion value * W)
    (endpoint : string) (filters : list (string * value)) (fuel : nat) (limit : Z) (w : W) :
  always_has_more server endpoint filters ->
  outcome (executeEvaluationOperation_list server endpoint filters fuel true limit w)
  = OutOfFuel /\
  length (trace (executeEvaluationOperation_list server endpoint filters fuel true limit w))
  = fuel.
Proof.
  intros Hmore. unfold executeEvaluationOperation_list, bind.
  destruct (loop_never_ends server endpoint filters fuel 1 [] w Hmore) as [Ho Ht].
  rewrite Ho. cbn [outcome trace]. split; [reflexivity | exact Ht].
Qed.

Lemma returnAll_has_no_page_limit_witness :
  outcome (executeEvaluationOperation_list FixturesMore.endless_server "/evaluations" []
             40 true 25 0%nat)
  = OutOfFuel /\
  length (trace (executeEvaluationOperation_list FixturesMore.endless_server "/evaluations" []
                   40 true 25 0%nat))
  = 40%nat.
Proof.
  apply (returnAll_has_no_page_limit FixturesMore.endless_server "/evaluations" [] 40 25 0%nat).
  intros page w. do 2 eexists. repeat split; reflexivity.
Defined.

(** X16: without [returnAll] the list makes one request, for page 1
    with the node's [limit] (25 when that is 0) unless a filter names
    them, and returns the items of the answer's [data] array in their
    order, each as [{ json: item }]; whether the answer announces more
    pages plays no part. *)
Theorem single_page_list {W : Type}
    (server : string -> value -> W -> completion value * W)
    (endpoint : string) (filters : list (string * value)) (fuel : nat) (limit : Z) (w : W)
    (body : value) (items : list value) :
  let params :=
    request_params {| page := None; limit := Some limit; sort := None; order := None |}
      (Some filters) in
  (server endpoint (VObj params) w).1 = Normal body ->
  get body "data" = Normal (VArr items) ->
  executeEvaluationOperation_list server endpoint filters fuel false limit w
  = mkResult (Normal (map json_item items)) (server endpoint (VObj params) w).2
      [EvGet endpoint (VObj params)] /\
  (has_key "page" filters = false -> lookup_field "page" params = VNum 1) /\
  (has_key "limit" filters = false ->
   lookup_field "limit" params = VNum (if limit =? 0 then 25 else limit)).
Proof.
  intros params Hb Hd.
  assert (is_nullish body = false) as Hn by (destruct body; done).
  split; [|split].
  - unfold executeEvaluationOperation_list, bind.
    rewrite (PaginationProps.paginated_run server endpoint _ _ w body Hb Hn).
    cbn [outcome world trace data]. unfold field. rewrite Hd.
    unfold or_else. cbn [truthy map_items of_completion after outcome world trace].
    reflexivity.
  - intros Hp. unfold params, request_params. cbn [default from_option id].
    by rewrite PaginationProps.lookup_spread_fields.
  - intros Hl. unfold params, request_params. cbn [default from_option id].
    rewrite PaginationProps.lookup_spread_fields by exact Hl.
    cbn [lookup_field String.eqb Ascii.eqb Bool.eqb opt_value Transport.limit].
    unfold or_else. cbn [truthy]. by destruct (limit =? 0).
Qed.

Lemma single_page_list_witness :
  executeEvaluationOperation_list (Fixtures.mock_server Fixtures.three_pages)
    "/evaluations" Fixtures.list_filters 0 false 0 0%nat
  = mkResult (Normal (map json_item (Fixtures.items_from 1 100))) 1%nat
      [EvGet "/evaluations"
         (VObj [("page", VNum 1); ("limit", VNum 25); ("sort", VUndefined);
                ("order", VUndefined); ("outcome", VStr "approved")])].
Proof.
  refine (proj1 (single_page_list (Fixtures.mock_server Fixtures.three_pages) "/evaluations"
                   Fixtures.list_filters 0 0 0%nat _ (Fixtures.items_from 1 100)
                   eq_refl eq_refl)).
Defined.

(** X17: when the answer is an object without a [data] array, the
    whole object stands for the data, and both branches of the list end
    in an exception after their one request instead of returning items. *)
Theorem list_needs_a_data_array {W : Type}
    (server : string -> value -> W -> completion value * W)
    (endpoint : string) (filters : list (string * value)) (fuel : nat) (returnAll : bool)
    (limit : Z) (w : W) (fields : list (string * value)) :
  (forall params w', (server endpoint params w').1 = Normal (VObj fields)) ->
  truthy (lookup_field "data" fields) = false ->
  exists e,
    outcome (executeEvaluationOperation_list server endpoint filters (S fuel) returnAll limit w)
    = Throw e /\
    length (trace (executeEvaluationOperation_list server endpoint filters (S fuel)
                     returnAll limit w)) = 1%nat.
Proof.
  intros Hb Hd.
  assert (or_else (lookup_field "data" fields) (VObj fields) = VObj fields) as Hor.
  { unfold or_else. by rewrite Hd. }
  enough (exists e w' ev,
            executeEvaluationOperation_list server endpoint filters (S fuel) returnAll limit w
            = mkResult (Throw e) w' [ev]) as (e & w' & ev & ->)
    by (exists e; split; reflexivity).
  unfold executeEvaluationOperation_list.
  destruct returnAll.
  - do 3 eexists. apply bind_throw. cbn [returnAll_loop truthy].
    erewrite bind_normal;
      [|apply (PaginationProps.paginated_run server endpoint _ _ w (VObj fields)
                 (Hb _ w) eq_refl)].
    erewrite bind_throw; [reflexivity|].
    cbn [data]. unfold field. cbn [get]. rewrite Hor. cbn [truthy].
    apply bind_throw. reflexivity.
  - do 3 eexists.
    erewrite bind_normal;
      [|apply (PaginationProps.paginated_run server endpoint _ _ w (VObj fields)
                 (Hb _ w) eq_refl)].
    cbn [data]. unfold field. cbn [get]. rewrite Hor. cbn [truthy map_items].
    reflexivity.
Qed.

Lemma list_needs_a_data_array_witness :
  exists e,
    outcome (executeEvaluationOperation_list
               (fun (_ : string) (_ : value) (n : nat) =>
                  (Normal (VObj [("evaluations", VArr [VNum 1; VNum 2])]), S n))
               "/evaluations" [] 1 false 25 0%nat)
    = Throw e /\
    length (trace (executeEvaluationOperation_list
                     (fun (_ : string) (_ : value) (n : nat) =>
                        (Normal (VObj [("evaluations", VArr [VNum 1; VNum 2])]), S n))
                     "/evaluations" [] 1 false 25 0%nat)) = 1%nat.
Proof.
  refine (list_needs_a_data_array _ "/evaluations" [] 0 false 25 0%nat
            [("evaluations", VArr [VNum 1; VNum 2])] _ eq_refl).
  intros params w'. reflexivity.
Defined.

End ListProps.

(** ** The validators *)

Module ValidationProps.
Import ValidationUtils.

Lemma one_le_inject (z : Z) :
  QArith_base.Qle_bool (QArith_base.inject_Z 1) (QArith_base.inject_Z z) = (1 <=? z).
Proof.
  unfold QArith_base.Qle_bool, QArith_base.inject_Z. cbn [QArith_base.Qnum QArith_base.Qden].
  by rewrite !Z.mul_1_r.
Qed.

Lemma inject_le_hundred (z : Z) :
  QArith_base.Qle_bool (QArith_base.inject_Z 100) (QArith_base.inject_Z z) = (100 <=? z).
Proof.
  unfold QArith_base.Qle_bool, QArith_base.inject_Z. cbn [QArith_base.Qnum QArith_base.Qden].
  by rewrite !Z.mul_1_r.
Qed.

(** [Math.max(1, Math.floor(n || d))] for a default [d >= 1] is a whole
    number from 1 on, or [Infinity]. *)
Lemma floor_at_least_one (n : option number) (d : Z) :
  1 <= d ->
  Math_max (of_Z 1) (Math_floor (number_or n (of_Z d))) = PosInfinity \/
  exists z, Math_max (of_Z 1) (Math_floor (number_or n (of_Z d))) = of_Z z /\ 1 <= z.
Proof.
  intros Hd.
  assert (forall q, Math_max (of_Z 1) (Math_floor (Finite q)) = PosInfinity \/
                    exists z, Math_max (of_Z 1) (Math_floor (Finite q)) = of_Z z /\ 1 <= z)
    as Hfin.
  { intros q. right. cbn [Math_floor Math_max of_Z number_le]. rewrite one_le_inject.
    destruct (Z.leb_spec 1 (Qround.Qfloor q)).
    - exists (Qround.Qfloor q). by split.
    - exists 1. by split. }
  unfold number_or. destruct n as [[q| | |]|]; cbn [number_truthy].
  - destruct (negb _); [apply Hfin | apply (Hfin (QArith_base.inject_Z d))].
  - by left.
  - right. exists 1. by split.
  - apply (Hfin (QArith_base.inject_Z d)).
  - apply (Hfin (QArith_base.inject_Z d)).
Qed.

(** X18: whatever numbers it is given ([NaN], infinities, fractions,
    negatives, nothing at all), [validatePagination] returns a [limit]
    that is a whole number from 1 to 100 and a [page] that is a whole
    number from 1 on or [Infinity]; a whole page from 1 on and a whole
    limit from 1 to 100 are returned as they are. *)
Theorem validatePagination_bounds (p l : option number) :
  (exists z, limit (validatePagination p l) = of_Z z /\ 1 <= z <= 100) /\
  (page (validatePagination p l) = PosInfinity \/
   exists z, page (validatePagination p l) = of_Z z /\ 1 <= z) /\
  (forall a b, 1 <= a -> 1 <= b <= 100 ->
     validatePagination (Some (of_Z a)) (Some (of_Z b)) = {| page := of_Z a; limit := of_Z b |}).
Proof.
  split; [|split].
  - unfold validatePagination. cbn [limit].
    destruct (floor_at_least_one l 25 ltac:(lia)) as [-> | (z & -> & Hz)].
    + exists 100. split; [reflexivity | lia].
    + cbn [Math_min of_Z number_le]. rewrite inject_le_hundred.
      destruct (Z.leb_spec 100 z).
      * exists 100. split; [reflexivity | lia].
      * exists z. split; [reflexivity | lia].
  - unfold validatePagination. cbn [page]. apply floor_at_least_one. lia.
  - intros a b Ha Hb. unfold validatePagination, number_or, of_Z.
    assert (forall z, z <> 0 ->
              number_truthy (Finite (QArith_base.inject_Z z)) = true) as Ht.
    { intros z Hz. cbn [number_truthy]. apply negb_true_iff.
      unfold QArith_base.Qeq_bool, QArith_base.inject_Z.
      cbn [QArith_base.Qnum QArith_base.Qden]. apply Z.eqb_neq. lia. }
    rewrite !Ht by lia. cbn [Math_floor]. rewrite !Qround.Qfloor_Z.
    cbn [Math_max Math_min number_le]. rewrite !one_le_inject.
    rewrite !(proj2 (Z.leb_le 1 _)) by lia.
    cbn [Math_min number_le]. rewrite inject_le_hundred.
    destruct (Z.leb_spec 100 b); [|reflexivity].
    assert (b = 100) as -> by lia. reflexivity.
Qed.

Lemma missing_fold (obj : list (string * value)) (fields acc : list string) :
  fold_left (fun acc field => if is_missing obj field then acc ++ [field] else acc) fields acc
  = acc ++ List.filter (is_missing obj) fields.
Proof.
  revert acc. induction fields as [|f fields IH]; intros acc; cbn [fold_left List.filter].
  - by rewrite app_nil_r.
  - rewrite IH. destruct (is_missing obj f); [|reflexivity].
    by rewrite <- app_assoc.
Qed.

(** X19: [validateRequiredFields] reports exactly the required fields
    that are missing, in the order they were asked for and as often as
    they were asked for, and is [valid] exactly when none is. A field is
    missing when the object holds [undefined], [null] or the empty
    string under that name, or holds nothing under it (unless every
    object inherits the name, as with [toString]); a field holding [0],
    [false] or any other value is present. *)
Theorem validateRequiredFields_reports_the_missing (obj : list (string * value))
    (requiredFields : list string) :
  let missing (f : string) : bool :=
    if has_key f obj then
      match lookup_field f obj with
      | VUndefined | VNull => true
      | VStr s => String.eqb s ""
      | VBool _ | VNum _ | VArr _ | VObj _ => false
      end
    else negb (existsb (String.eqb f) JsObject.Object_prototype_keys) in
  missingFields (validateRequiredFields obj requiredFields)
  = List.filter missing requiredFields /\
  (valid (validateRequiredFields obj requiredFields) = true
   <-> forall f, f ∈ requiredFields -> missing f = false).
Proof.
  intros missing.
  assert (forall f, is_missing obj f = missing f) as Hsame.
  { intros f. unfold is_missing, JsObject.read, missing.
    destruct (has_key f obj); [by destruct (lookup_field f obj)|].
    by destruct (existsb (String.eqb f) JsObject.Object_prototype_keys). }
  assert (missingFields (validateRequiredFields obj requiredFields)
          = List.filter missing requiredFields) as Hm.
  { unfold validateRequiredFields. cbn [missingFields]. rewrite missing_fold.
    cbn [app]. clear -Hsame. induction requiredFields as [|f fields IH]; [reflexivity|].
    cbn [List.filter]. by rewrite Hsame, IH. }
  split; [exact Hm|].
  unfold validateRequiredFields in *. cbn [valid missingFields] in *. rewrite Hm.
  clear Hm. induction requiredFields as [|f fields IH]; cbn [List.filter].
  - split; [|done]. intros _ f Hf. by apply elem_of_nil in Hf.
  - destruct (missing f) eqn:E.
    + split; [discriminate|]. intros H. specialize (H f (list_elem_of_here _ _)). congruence.
    + rewrite IH. split.
      * intros H g [->|Hg]%elem_of_cons; [exact E | by apply H].
      * intros H g Hg. apply H. by apply list_elem_of_further.
Qed.

Lemma validateRequiredFields_reports_the_missing_witness :
  missingFields
    (validateRequiredFields FixturesMore.contact
       ["name"; "phone"; "address"; "visits"; "toString"; "spouse"; "address"])
  = ["phone"; "address"; "spouse"; "address"].
Proof.
  exact (proj1 (validateRequiredFields_reports_the_missing FixturesMore.contact
                  ["name"; "phone"; "address"; "visits"; "toString"; "spouse"; "address"])).
Defined.

Lemma remove_dashes_app (a b : string) :
  remove_dashes (a +:+ b) = remove_dashes a +:+ remove_dashes b.
Proof.
  induction a as [|c a IH]; [reflexivity|].
  change (String c a +:+ b) with (String c (a +:+ b)). cbn [remove_dashes].
  destruct (Ascii.eqb c "-"); [exact IH|].
  change (String c (remove_dashes a) +:+ remove_dashes b)
    with (String c (remove_dashes a +:+ remove_dashes b)).
  by rewrite IH.
Qed.

(** X20: dashes are taken out before the nine digits are counted, so
    [isValidSSN] and [isValidEIN] do not see a dash wherever it stands:
    inserting one anywhere changes neither answer, and the two functions
    agree on every string. *)
Theorem dashes_do_not_count (a b : string) :
  isValidSSN (a +:+ "-" +:+ b) = isValidSSN (a +:+ b) /\
  isValidEIN (a +:+ "-" +:+ b) = isValidEIN (a +:+ b) /\
  isValidSSN (a +:+ b) = isValidEIN (a +:+ b).
Proof.
  unfold isValidSSN, isValidEIN. rewrite !remove_dashes_app.
  change (remove_dashes "-") with EmptyString.
  change (EmptyString +:+ remove_dashes b) with (remove_dashes b).
  repeat split.
Qed.

End ValidationProps.

(** ** [uploadDocument] *)

Module UploadProps.
Import ValidationUtils DocumentHandler.

(** X21: a file whose type is not one of the six supported ones, or
    that is empty, or larger than 10 MiB, is turned down before anything
    is sent: the call resolves with [success: false] and an error text,
    no request is made and the outside world is untouched. *)
Theorem invalid_files_are_not_sent {W : Type} (post : Post -> W -> completion value * W)
    (endpoint : string) (binaryData : IBinaryData) (buffer : list Byte.byte)
    (options : DocumentUploadOptions) (w : W) :
  isValidDocumentType (mimeType binaryData) = false \/
  buffer = [] \/ 10 * 1024 * 1024 < Z.of_nat (length buffer) ->
  exists message,
    uploadDocument post endpoint (Normal binaryData) (Normal buffer) options w
    = {| upload_result := Normal (failure (VStr message));
         upload_world := w; upload_posts := [] |}.
Proof.
  intros H. unfold uploadDocument.
  destruct (isValidDocumentType (mimeType binaryData)) eqn:Ht; cbn [negb].
  - assert (isValidFileSize (Z.of_nat (length buffer)) 10 = false) as ->.
    { unfold isValidFileSize. destruct H as [H | [-> | H]]; [discriminate | reflexivity |].
      apply andb_false_iff. right. apply Z.leb_gt. lia. }
    cbn [negb]. eexists. reflexivity.
  - eexists. reflexivity.
Qed.

Lemma invalid_files_are_not_sent_witness :
  exists message,
    uploadDocument FixturesMore.upload_server "/documents"
      (Normal {| mimeType := "image/png"; fileName := None |}) (Normal [])
      FixturesMore.upload_options 0%nat
    = {| upload_result := Normal (failure (VStr message));
         upload_world := 0%nat; upload_posts := [] |}.
Proof.
  apply (invalid_files_are_not_sent FixturesMore.upload_server "/documents"
           {| mimeType := "image/png"; fileName := None |} [] FixturesMore.upload_options 0%nat).
  right. left. reflexivity.
Defined.

(** The empty file is told that it exceeds the maximum. *)
Example empty_file_message :
  upload_result
    (uploadDocument FixturesMore.upload_server "/documents"
       (Normal {| mimeType := "image/png"; fileName := None |}) (Normal [])
       FixturesMore.upload_options 0%nat)
  = Normal (failure (VStr "File size 0.00MB exceeds maximum of 10MB")).
Proof. reflexivity. Qed.

(** X22: a file that passes both checks is posted exactly once, and
    the call resolves whatever becomes of the request, as long as what
    the request is rejected with is not [null] or [undefined]: with
    [success: true] and the answer's [document_token] and [status] when
    the request is answered with a body, with [success: false] and the
    error's message (or "Failed to upload document") when it is
    rejected. *)
Theorem valid_files_are_posted_once {W : Type} (post : Post -> W -> completion value * W)
    (endpoint : string) (binaryData : IBinaryData) (buffer : list Byte.byte)
    (options : DocumentUploadOptions) (w : W) :
  isValidDocumentType (mimeType binaryData) = true ->
  0 < Z.of_nat (length buffer) <= 10 * 1024 * 1024 ->
  let request := {| post_endpoint := endpoint;
                    post_form := upload_form binaryData buffer options |} in
  upload_posts (uploadDocument post endpoint (Normal binaryData) (Normal buffer) options w)
  = [request] /\
  upload_world (uploadDocument post endpoint (Normal binaryData) (Normal buffer) options w)
  = (post request w).2 /\
  (forall body, (post request w).1 = Normal body -> is_nullish body = false ->
     upload_result (uploadDocument post endpoint (Normal binaryData) (Normal buffer) options w)
     = Normal {| success := true;
                 documentToken := Expected.field body "document_token";
                 status := Expected.field body "status";
                 error := VUndefined |}) /\
  (forall e, (post request w).1 = Throw e -> is_nullish e = false ->
     upload_result (uploadDocument post endpoint (Normal binaryData) (Normal buffer) options w)
     = Normal (failure (or_else (Expected.field e "message")
                          (VStr "Failed to upload document")))).
Proof.
  intros Ht Hs request. unfold uploadDocument. rewrite Ht. cbn [negb].
  assert (isValidFileSize (Z.of_nat (length buffer)) 10 = true) as ->.
  { unfold isValidFileSize. apply andb_true_iff. split; [apply Z.ltb_lt | apply Z.leb_le]; lia. }
  cbn [negb upload_posts upload_world upload_result]. fold request.
  split; [reflexivity|]. split; [reflexivity|]. split.
  - intros body Hb Hn. rewrite Hb.
    rewrite !(PaginationProps.get_non_nullish body _ Hn). reflexivity.
  - intros e He Hn. rewrite He.
    rewrite (PaginationProps.get_non_nullish e _ Hn). reflexivity.
Qed.

Lemma valid_files_are_posted_once_witness :
  upload_result
    (uploadDocument FixturesMore.upload_server "/documents"
       (Normal {| mimeType := "IMAGE/PNG"; fileName := None |}) (Normal [Byte.x89; Byte.x50])
       FixturesMore.upload_options 0%nat)
  = Normal {| success := true; documentToken := VStr "doc_1"; status := VStr "pending";
              error := VUndefined |}.
Proof.
  refine (proj1 (proj2 (proj2 (valid_files_are_posted_once FixturesMore.upload_server
            "/documents" {| mimeType := "IMAGE/PNG"; fileName := None |}
            [Byte.x89; Byte.x50] FixturesMore.upload_options 0%nat eq_refl _))) _ eq_refl eq_refl).
  cbn. lia.
Defined.

End UploadProps.

(** ** The event helpers of the webhook handler *)

Module EventProps.
Import SignatureUtils WebhookHandler AlloyTrigger Expected WebhookEvents.

(** X23: the filter that the trigger applies inline is
    [filterWebhookByEventType]: a delivery that passed validation is
    processed exactly when that function accepts it for the node's event
    list, and answered "not in filter" exactly when it does not. *)
Theorem trigger_filter_is_filterWebhookByEventType (this : IWebhookFunctions) :
  signature_stage_passed this = true ->
  truthy (lookup_field "event_type" (getBodyData this)) = true ->
  (filterWebhookByEventType (getBodyData this) (param_events this) = true ->
   webhookResponse (webhook this) = processed) /\
  (filterWebhookByEventType (getBodyData this) (param_events this) = false ->
   webhookResponse (webhook this) = not_in_filter).
Proof.
  intros Hs He.
  assert (validateAlloyWebhook this (loaded_secret this)
          = {| isValid := true; error := None; payload := Some (getBodyData this) |}) as Hv.
  { unfold validateAlloyWebhook.
    rewrite (proj1 (WebhookProps.signature_stage_passed_check this) Hs), He. reflexivity. }
  unfold webhook, filterWebhookByEventType. rewrite Hv.
  cbn [isValid payload negb default from_option id].
  destruct (Nat.eqb (length (param_events this)) 0); cbn [negb andb].
  - split; [reflexivity | discriminate].
  - destruct (includes (param_events this) (lookup_field "event_type" (getBodyData this)));
      cbn [negb]; split; (reflexivity || discriminate).
Qed.

Lemma trigger_filter_is_filterWebhookByEventType_witness :
  webhookResponse
    (webhook (Fixtures.delivery Fixtures.unsigned_headers ["entity.created"] false))
  = not_in_filter.
Proof.
  apply (proj2 (trigger_filter_is_filterWebhookByEventType
                  (Fixtures.delivery Fixtures.unsigned_headers ["entity.created"] false)
                  eq_refl eq_refl)).
  reflexivity.
Defined.

(** X24: no event counts as more than one of successful verification,
    failed verification and manual review: for every payload at most one
    of the three predicates holds. *)
Theorem verification_verdicts_exclude_each_other (payload : list (string * value)) :
  isSuccessfulVerification payload && isFailedVerification payload = false /\
  isSuccessfulVerification payload && requiresManualReview payload = false /\
  isFailedVerification payload && requiresManualReview payload = false.
Proof.
  unfold isSuccessfulVerification, isFailedVerification, requiresManualReview, includes.
  destruct (lookup_field "event_type" payload) as [| | | |s| |]; try (repeat split; reflexivity).
  unfold successEvents, failureEvents, reviewEvents. cbn [existsb].
  repeat match goal with
         | |- context [String.eqb s ?c] =>
             destruct (String.eqb_spec s c) as [->|?]; [repeat split; reflexivity|]
         end.
  repeat split; reflexivity.
Qed.

(** X25: for the four evaluation outcome events the outcome is read off
    the event type, the part after the dot, whatever the payload's
    [data] holds, even when there is no [data]. *)
Theorem outcome_comes_from_the_event_type (payload : list (string * value))
    (event_type : string) :
  lookup_field "event_type" payload = VStr event_type ->
  event_type ∈ outcomeEvents ->
  exists outcome,
    event_type = "evaluation." +:+ outcome /\
    getOutcomeFromWebhook payload = Normal (Some (VStr outcome)).
Proof.
  intros He Hin. unfold getOutcomeFromWebhook. rewrite He.
  unfold outcomeEvents in *.
  repeat (apply elem_of_cons in Hin as [-> | Hin];
          [eexists; split; [|reflexivity]; reflexivity|]).
  by apply elem_of_nil in Hin.
Qed.

Lemma outcome_comes_from_the_event_type_witness :
  exists outcome,
    "evaluation.denied" = "evaluation." +:+ outcome /\
    getOutcomeFromWebhook [("event_type", VStr "evaluation.denied");
                           ("data", VObj [("outcome", VStr "approved")])]
    = Normal (Some (VStr outcome)).
Proof.
  apply (outcome_comes_from_the_event_type
           [("event_type", VStr "evaluation.denied");
            ("data", VObj [("outcome", VStr "approved")])]
           "evaluation.denied" eq_refl).
  apply list_elem_of_further, list_elem_of_here.
Defined.

(** X26: [getOutcomeFromWebhook] throws exactly when the event is none
    of the four outcome events and the payload has no [data] (which
    [validateAlloyWebhook] does not ask for); otherwise it returns the
    truthy [data.outcome], or [null]. *)
Theorem outcome_throws_without_data (payload : list (string * value)) :
  ((exists e, getOutcomeFromWebhook payload = Throw e) <->
   includes outcomeEvents (lookup_field "event_type" payload) = false /\
   is_nullish (lookup_field "data" payload) = true) /\
  (includes outcomeEvents (lookup_field "event_type" payload) = false ->
   is_nullish (lookup_field "data" payload) = false ->
   getOutcomeFromWebhook payload
   = Normal (if truthy (field (lookup_field "data" payload) "outcome")
             then Some (field (lookup_field "data" payload) "outcome") else None)).
Proof.
  assert (forall s, existsb (String.eqb s) outcomeEvents = true ->
            exists second rest, JsText.split "." s = "evaluation" :: second :: rest) as Hsplit.
  { intros s Hs. unfold outcomeEvents in Hs. cbn [existsb] in Hs.
    repeat (apply orb_true_iff in Hs as [->%String.eqb_eq | Hs];
            [do 2 eexists; reflexivity|]).
    discriminate Hs. }
  assert (includes outcomeEvents (lookup_field "event_type" payload) = false ->
          getOutcomeFromWebhook payload
          = match get (lookup_field "data" payload) "outcome" with
            | Normal outcome => Normal (if truthy outcome then Some outcome else None)
            | Throw e => Throw e
            | OutOfFuel => OutOfFuel
            end) as Hdata.
  { unfold getOutcomeFromWebhook, includes.
    destruct (lookup_field "event_type" payload); try reflexivity. by intros ->. }
  split.
  - split.
    + intros [e He].
      destruct (includes outcomeEvents (lookup_field "event_type" payload)) eqn:Hin.
      * unfold getOutcomeFromWebhook, includes in *.
        destruct (lookup_field "event_type" payload) as [| | | |s| |]; try discriminate Hin.
        rewrite Hin in He. destruct (Hsplit s Hin) as (second & rest & Hs).
        rewrite Hs in He. discriminate He.
      * split; [reflexivity|]. rewrite (Hdata eq_refl) in He.
        destruct (lookup_field "data" payload); try reflexivity; discriminate He.
    + intros [Hin Hn]. rewrite (Hdata Hin).
      destruct (lookup_field "data" payload); try discriminate Hn; eexists; reflexivity.
  - intros Hin Hn. rewrite (Hdata Hin).
    by rewrite (PaginationProps.get_non_nullish _ _ Hn).
Qed.

Lemma outcome_throws_without_data_witness :
  exists e, getOutcomeFromWebhook [("event_type", VStr "entity.created")] = Throw e.
Proof.
  apply (proj2 (proj1 (outcome_throws_without_data [("event_type", VStr "entity.created")]))).
  split; reflexivity.
Defined.

(** X27: the result of [validateAlloyWebhook] is well formed: when it
    is valid it carries the body as payload and no error, so the
    handler's [validation.payload!] is never [undefined]; when it is not,
    it carries an error text and no payload. *)
Theorem validation_result_is_well_formed (context : IWebhookFunctions)
    (secret : option string) :
  (isValid (validateAlloyWebhook context secret) = true ->
   payload (validateAlloyWebhook context secret) = Some (getBodyData context) /\
   error (validateAlloyWebhook context secret) = None /\
   truthy (lookup_field "event_type" (getBodyData context)) = true) /\
  (isValid (validateAlloyWebhook context secret) = false ->
   payload (validateAlloyWebhook context secret) = None /\
   exists reason, error (validateAlloyWebhook context secret) = Some reason /\ reason <> "").
Proof.
  unfold validateAlloyWebhook.
  destruct (signature_check context secret) as [err|] eqn:Hc.
  - cbn [isValid payload error]. split; [discriminate|]. intros _. split; [reflexivity|].
    exists err. split; [reflexivity|].
    unfold signature_check in Hc.
    destruct (option_truthy secret); [|discriminate Hc].
    destruct (negb (option_truthy _)); [injection Hc as <-; discriminate|].
    destruct (negb (verifyWebhookSignature _ _ _ _ _)); [injection Hc as <-; discriminate|].
    discriminate Hc.
  - destruct (truthy (lookup_field "event_type" (getBodyData context))) eqn:He;
      cbn [negb isValid payload error].
    + split; [by intros _ | discriminate].
    + split; [discriminate|]. intros _. split; [reflexivity|].
      eexists. split; [reflexivity | discriminate].
Qed.

Lemma validation_result_is_well_formed_witness :
  payload (validateAlloyWebhook (Fixtures.delivery Fixtures.unsigned_headers [] false) None)
  = Some Fixtures.event_body.
Proof.
  apply (proj1 (validation_result_is_well_formed
                  (Fixtures.delivery Fixtures.unsigned_headers [] false) None)).
  reflexivity.
Defined.

End EventProps.
